(** * Adobe-1A-Solution: the statistical heading-classification engine

    A shallow embedding of [pdf_extractor/analysis.py],
    [pdf_extractor/text_extraction.py], [pdf_extractor/extractor.py] and
    [pdf_extractor/processor.py], followed by the properties of the
    specification that are settled against it.

    Conventions of the embedding.
    - A Python [str] is a Rocq [string]; its characters are read as the
      Unicode code points 0..255, and the character classes below
      ([isspace], case, digits, word characters) are the Unicode ones
      restricted to that range.
    - A Python [float] is a rational [Q]: every arithmetic operation of
      the source is written out exactly, without rounding.  The standard
      deviation (a square root that no decision of the program reads) is
      left out of the statistics record.
    - A [dict] with fixed keys is a record; a list of dicts is a list of
      records; a [defaultdict] whose iteration order matters is an
      association list in insertion order.
    - Code that can raise returns a sum: [Exn + _] where what is raised
      is of class [Exception], and [Raised + _] in the module
      [Interrupts], where the progress callback may also raise outside
      that class.  Code that mutates the extractor's counters or the
      cache passes the state explicitly.
    - What the PDF library and the file system answer for a path is an
      input ([PdfFile]): the text blocks, the span stream, the page width,
      the file hash, or the exception raised instead. *)

From Stdlib Require Import Bool Arith ZArith QArith Qround Qminmax.
From Stdlib Require Import List String Ascii Lia Lqa Sorted Permutation.
From Stdlib Require Import DecimalString.
Import ListNotations.

Open Scope string_scope.
Open Scope Q_scope.
Open Scope nat_scope.
Open Scope list_scope.

(** ** Python string methods *)

Module PyStr.

Definition chars (s : string) : list ascii := list_ascii_of_string s.
Definition str (l : list ascii) : string := string_of_list_ascii l.

Definition code (c : ascii) : nat := nat_of_ascii c.

Definition in_range (lo hi : nat) (c : ascii) : bool :=
  (lo <=? code c) && (code c <=? hi).

(** [ord(c) > 127] *)
Definition non_ascii (c : ascii) : bool := 127 <? code c.

(** [str.isspace] on one character. *)
Definition isspace_c (c : ascii) : bool :=
  in_range 9 13 c || in_range 28 32 c || (code c =? 133) || (code c =? 160).

Definition isupper_c (c : ascii) : bool :=
  in_range 65 90 c || (in_range 192 222 c && negb (code c =? 215)).

Definition islower_c (c : ascii) : bool :=
  in_range 97 122 c || (in_range 223 255 c && negb (code c =? 247))
  || (code c =? 170) || (code c =? 181) || (code c =? 186).

Definition iscased_c (c : ascii) : bool := isupper_c c || islower_c c.

(** The regular-expression class [\d] (decimal digits). *)
Definition isdecimal_c (c : ascii) : bool := in_range 48 57 c.

(** [str.isdigit] on one character: also the superscript digits. *)
Definition isdigit_c (c : ascii) : bool :=
  isdecimal_c c || in_range 178 179 c || (code c =? 185).

(** The regular-expression class [\w]: alphanumeric or underscore. *)
Definition isword_c (c : ascii) : bool :=
  iscased_c c || isdigit_c c || in_range 188 190 c || (code c =? 95).

Definition lower_c (c : ascii) : ascii :=
  if isupper_c c then ascii_of_nat (code c + 32) else c.

Definition lower (s : string) : string := str (map lower_c (chars s)).

Definition len (s : string) : nat := String.length s.

Fixpoint lstrip_l (l : list ascii) : list ascii :=
  match l with
  | c :: l' => if isspace_c c then lstrip_l l' else l
  | [] => []
  end.

Definition strip (s : string) : string :=
  str (rev (lstrip_l (rev (lstrip_l (chars s))))).

Fixpoint prefix_l (p l : list ascii) : bool :=
  match p, l with
  | [], _ => true
  | a :: p', b :: l' => if Ascii.eqb a b then prefix_l p' l' else false
  | _ :: _, [] => false
  end.

Definition startswith (s p : string) : bool := prefix_l (chars p) (chars s).

Definition endswith (s p : string) : bool :=
  prefix_l (rev (chars p)) (rev (chars s)).

Fixpoint contains_l (sub l : list ascii) : bool :=
  if prefix_l sub l then true else
  match l with
  | [] => false
  | _ :: l' => contains_l sub l'
  end.

(** [sub in s] *)
Definition contains (sub s : string) : bool := contains_l (chars sub) (chars s).

(** [any(w in s for w in ws)] *)
Definition any_in (ws : list string) (s : string) : bool :=
  existsb (fun w => contains w s) ws.

(** [s in l] for a list (or set) of strings. *)
Definition mem (s : string) (l : list string) : bool :=
  existsb (String.eqb s) l.

(** [s.count(c)] for a one-character argument. *)
Definition count_char (c : ascii) (s : string) : nat :=
  List.length (filter (Ascii.eqb c) (chars s)).

(** [s.replace(c, '')] for a one-character argument. *)
Definition remove_char (c : ascii) (s : string) : string :=
  str (filter (fun x => negb (Ascii.eqb c x)) (chars s)).

Fixpoint nodup_c (l : list ascii) : list ascii :=
  match l with
  | [] => []
  | c :: l' => if existsb (Ascii.eqb c) l' then nodup_c l' else c :: nodup_c l'
  end.

(** [set(s)], as a duplicate-free list of characters. *)
Definition char_set (s : string) : list ascii := nodup_c (chars s).

(** [s.split()]: the maximal runs of non-whitespace characters. *)
Fixpoint split_l (cur : list ascii) (l : list ascii) : list string :=
  match l with
  | [] => match cur with [] => [] | _ => [str (rev cur)] end
  | c :: l' =>
      if isspace_c c
      then match cur with
           | [] => split_l [] l'
           | _ => str (rev cur) :: split_l [] l'
           end
      else split_l (c :: cur) l'
  end.

Definition split (s : string) : list string := split_l [] (chars s).

Definition word_count (s : string) : nat := List.length (split s).

(** [s.split(c)[0]] for a one-character separator. *)
Fixpoint before_l (c : ascii) (l : list ascii) : list ascii :=
  match l with
  | [] => []
  | x :: l' => if Ascii.eqb c x then [] else x :: before_l c l'
  end.

Definition split_first (c : ascii) (s : string) : string :=
  str (before_l c (chars s)).

(** [sep.join(l)] *)
Definition join (sep : string) (l : list string) : string := String.concat sep l.

(** [str.istitle] *)
Fixpoint istitle_l (prev_cased cased : bool) (l : list ascii) : bool :=
  match l with
  | [] => cased
  | c :: l' =>
      if isupper_c c then
        if prev_cased then false else istitle_l true true l'
      else if islower_c c then
        if prev_cased then istitle_l true true l' else false
      else istitle_l false cased l'
  end.

Definition istitle (s : string) : bool := istitle_l false false (chars s).

(** [str.isupper]: no lowercase character and at least one cased one. *)
Definition isupper (s : string) : bool :=
  forallb (fun c => negb (islower_c c)) (chars s) && existsb isupper_c (chars s).

(** [str.isdigit] *)
Definition isdigit (s : string) : bool :=
  negb (len s =? 0) && forallb isdigit_c (chars s).

(** [re.sub(r'\s+', ' ', s)] *)
Fixpoint collapse_ws_l (in_ws : bool) (l : list ascii) : list ascii :=
  match l with
  | [] => []
  | c :: l' =>
      if isspace_c c
      then if in_ws then collapse_ws_l true l' else " "%char :: collapse_ws_l true l'
      else c :: collapse_ws_l false l'
  end.

Definition collapse_ws (s : string) : string := str (collapse_ws_l false (chars s)).

End PyStr.

(** ** Regular expressions (Python's [re], as far as the program uses it)

    Only the existence of a match is ever read by the program, so greedy
    and lazy quantifiers coincide and groups are plain parentheses.  The
    matcher is a backtracking one in continuation-passing style; its state
    is the character before the current position ([None] at the start of
    the text) and the rest of the text. *)

Module Re.
Import PyStr.

Inductive regex : Type :=
| Eps
| Chr (p : ascii -> bool)
| Seq (r1 r2 : regex)
| Alt (r1 r2 : regex)
| Star (r : regex)
| Bol      (* ^ *)
| Eol      (* $ *)
| WordB.   (* \b *)

Definition is_word_opt (c : option ascii) : bool :=
  match c with Some x => isword_c x | None => false end.

Definition newline : ascii := ascii_of_nat 10.

Fixpoint run (r : regex) (prev : option ascii) (s : list ascii)
    (k : option ascii -> list ascii -> bool) {struct r} : bool :=
  match r with
  | Eps => k prev s
  | Chr p =>
      match s with
      | c :: s' => if p c then k (Some c) s' else false
      | [] => false
      end
  | Seq r1 r2 => run r1 prev s (fun prev' s' => run r2 prev' s' k)
  | Alt r1 r2 => if run r1 prev s k then true else run r2 prev s k
  | Star r1 =>
      (fix loop (fuel : nat) (prev : option ascii) (s : list ascii) : bool :=
         if k prev s then true else
         match fuel with
         | O => false
         | S fuel' =>
             run r1 prev s
               (fun prev' s' =>
                  if List.length s' <? List.length s
                  then loop fuel' prev' s' else false)
         end) (List.length s) prev s
  | Bol => match prev with None => k prev s | Some _ => false end
  | Eol =>
      match s with
      | [] => k prev s
      | [c] => if Ascii.eqb c newline then k prev s else false
      | _ => false
      end
  | WordB =>
      if xorb (is_word_opt prev) (is_word_opt (hd_error s))
      then k prev s else false
  end.

Definition accept : option ascii -> list ascii -> bool := fun _ _ => true.

(** [bool(re.match(r, s))]: a match that starts at the beginning. *)
Definition re_match (r : regex) (s : string) : bool :=
  run r None (chars s) accept.

Fixpoint search_l (r : regex) (prev : option ascii) (s : list ascii) : bool :=
  if run r prev s accept then true else
  match s with
  | [] => false
  | c :: s' => search_l r (Some c) s'
  end.

(** [bool(re.search(r, s))]: a match that starts anywhere. *)
Definition re_search (r : regex) (s : string) : bool :=
  search_l r None (chars s).

(** [re.search(r, s).group(0)] for a pattern that ends in [$] on a text
    without trailing newline: the match starts at the leftmost position
    where one exists and runs to the end of the text. *)
Fixpoint search_tail_l (r : regex) (prev : option ascii) (s : list ascii)
    : option (list ascii) :=
  if run r prev s accept then Some s
  else match s with
       | [] => None
       | c :: s' => search_tail_l r (Some c) s'
       end.

Definition search_tail (r : regex) (s : string) : option string :=
  option_map str (search_tail_l r None (chars s)).

(** *** Pattern combinators *)

Definition ch (c : ascii) : regex := Chr (Ascii.eqb c).
(** One character, under [re.IGNORECASE]. *)
Definition ich (c : ascii) : regex :=
  Chr (fun x => Ascii.eqb (lower_c x) (lower_c c)).

Fixpoint seqs (l : list regex) : regex :=
  match l with
  | [] => Eps
  | [r] => r
  | r :: l' => Seq r (seqs l')
  end.

Fixpoint alts (l : list regex) : regex :=
  match l with
  | [] => Chr (fun _ => false)
  | [r] => r
  | r :: l' => Alt r (alts l')
  end.

(** A literal text. *)
Definition lit (s : string) : regex := seqs (map ch (chars s)).
(** A literal text under [re.IGNORECASE]. *)
Definition ilit (s : string) : regex := seqs (map ich (chars s)).
(** [(w1|w2|...)] *)
Definition words (l : list string) : regex := alts (map lit l).

Definition plus (r : regex) : regex := Seq r (Star r).
Definition opt (r : regex) : regex := Alt r Eps.

Fixpoint rep (n : nat) (r : regex) : regex :=
  match n with
  | O => Eps
  | S n' => Seq r (rep n' r)
  end.

(** [r{n,}] *)
Definition at_least (n : nat) (r : regex) : regex := Seq (rep n r) (Star r).

(** [r{0,n}] *)
Fixpoint at_most (n : nat) (r : regex) : regex :=
  match n with
  | O => Eps
  | S n' => opt (Seq r (at_most n' r))
  end.

(** [.] *)
Definition dot : regex := Chr (fun c => negb (Ascii.eqb c newline)).
(** [\s], [\d], [\w] *)
Definition ws : regex := Chr isspace_c.
Definition digit : regex := Chr isdecimal_c.
Definition wordc : regex := Chr isword_c.
(** [[A-Z]], [[a-z]], [[a-zA-Z]]; under [re.IGNORECASE] the first two are
    the third. *)
Definition upper_az : regex := Chr (in_range 65 90).
Definition lower_az : regex := Chr (in_range 97 122).
Definition alpha_az : regex := Chr (fun c => in_range 65 90 c || in_range 97 122 c).
(** A character class given by its members. *)
Definition one_of (s : string) : regex :=
  Chr (fun c => existsb (Ascii.eqb c) (chars s)).
Definition cls (p : ascii -> bool) : regex := Chr p.

End Re.

(** ** Numbers: Python floats and the numpy reductions the program calls *)

Module PyNum.
Local Open Scope Q_scope.

Definition Qleb (a b : Q) : bool := Qle_bool a b.
Definition Qltb (a b : Q) : bool := negb (Qle_bool b a).
Definition Qeqb (a b : Q) : bool := Qeq_bool a b.

(** [max(a, b)]: the first argument unless the second is greater. *)
Definition py_max (a b : Q) : Q := if Qltb a b then b else a.
(** [min(a, b)]: the first argument unless the second is smaller. *)
Definition py_min (a b : Q) : Q := if Qltb b a then b else a.
(** [abs(a)] *)
Definition py_abs (a : Q) : Q := if Qltb a 0 then - a else a.

Definition of_nat (n : nat) : Q := inject_Z (Z.of_nat n).

(** [sum(l)] *)
Definition qsum (l : list Q) : Q := fold_left Qplus l 0%Q.

(** [np.mean(l)] of a non-empty list. *)
Definition np_mean (l : list Q) : Q := qsum l / of_nat (List.length l).

(** [sorted(l)] *)
Fixpoint insert_q (x : Q) (l : list Q) : list Q :=
  match l with
  | [] => [x]
  | y :: l' => if Qleb x y then x :: l else y :: insert_q x l'
  end.

Definition sorted_q (l : list Q) : list Q := fold_right insert_q [] l.

Definition nth_q (l : list Q) (i : nat) : Q := nth i l 0%Q.

(** [np.median(l)] of a non-empty list. *)
Definition np_median (l : list Q) : Q :=
  let s := sorted_q l in
  let n := List.length s in
  if Nat.even n
  then (nth_q s (n / 2 - 1)%nat + nth_q s (n / 2)%nat) / 2
  else nth_q s (n / 2)%nat.

(** [np.percentile(s, q)] of a sorted non-empty list (numpy's default,
    linear interpolation): the virtual index is [q/100 * (n-1)]. *)
Definition np_percentile (s : list Q) (q : Q) : Q :=
  let n := List.length s in
  let pos := (q / 100) * of_nat (n - 1)%nat in
  let lo := Z.to_nat (Qfloor pos) in
  let hi := Nat.min (lo + 1)%nat (n - 1)%nat in
  let gamma := pos - of_nat lo in
  nth_q s lo + (nth_q s hi - nth_q s lo) * gamma.

(** [np.min], [np.max] *)
Definition np_min (l : list Q) : Q :=
  match l with [] => 0%Q | x :: l' => fold_left py_min l' x end.
Definition np_max (l : list Q) : Q :=
  match l with [] => 0%Q | x :: l' => fold_left py_max l' x end.

(** [round(x)]: to the nearest integer, ties to the even one. *)
Definition py_round (x : Q) : Z :=
  let f := Qfloor x in
  let d := x - inject_Z f in
  if Qltb d (1 # 2) then f
  else if Qltb (1 # 2) d then (f + 1)%Z
  else if Z.even f then f else (f + 1)%Z.

Fixpoint nodup_q (l : list Q) : list Q :=
  match l with
  | [] => []
  | x :: l' => if existsb (Qeqb x) l' then nodup_q l' else x :: nodup_q l'
  end.

(** [len(set(l))] for a list of floats. *)
Definition distinct_q (l : list Q) : nat := List.length (nodup_q l).

Fixpoint nodup_z (l : list Z) : list Z :=
  match l with
  | [] => []
  | x :: l' => if existsb (Z.eqb x) l' then nodup_z l' else x :: nodup_z l'
  end.

Definition distinct_z (l : list Z) : nat := List.length (nodup_z l).

End PyNum.

(** ** Python's stable sort, by a key order given as a boolean [le] *)

Module PyList.

Section Sort.
Context {A : Type}.
Variable le : A -> A -> bool.

Fixpoint insert_by (x : A) (l : list A) : list A :=
  match l with
  | [] => [x]
  | y :: l' => if le x y then x :: l else y :: insert_by x l'
  end.

(** [sorted(l, key=...)]: equal keys keep their order. *)
Definition sort_by (l : list A) : list A := fold_right insert_by [] l.
End Sort.

End PyList.

(** ** The data model *)

(** A bounding box [(x0, y0, x1, y1)]. *)
Record BBox : Type := mkBBox { x0 : Q; y0 : Q; x1 : Q; y1 : Q }.

(** A text block, as [extract_text_blocks] builds it. *)
Record Block : Type := mkBlock {
  text : string;
  font_size : Q;
  font : string;
  font_flags : Z;
  page : nat;
  bbox : BBox
}.

(** A heading level ["Hn"]. *)
Inductive Level : Type := H (n : nat).
Abbreviation H1 := (H 1).
Abbreviation H2 := (H 2).
Abbreviation H3 := (H 3).

(** [int(level[1:])] *)
Definition level_num (l : Level) : nat := match l with H n => n end.

Definition level_eqb (a b : Level) : bool := level_num a =? level_num b.

(** An entry of ["size_clusters"]. *)
Record Cluster : Type := mkCluster {
  c_level : Level;
  min_size : Q;
  c_confidence : Q
}.

(** ["heading_thresholds"] *)
Record Thresholds : Type := mkThresholds { h1 : Q; h2 : Q; h3 : Q }.

(** The entry ["common_fonts"]: a list in the dictionary returned when no
    block has a positive size, a counting dictionary otherwise. *)
Inductive FontCounts : Type :=
| py_list (l : list string)
| py_dict (d : list (string * nat)).

(** The font-statistics dictionary.  The keys that only the non-empty
    branch sets are optional or empty here; nothing reads them. *)
Record FontStats : Type := mkFontStats {
  mean : Q;
  median : Q;
  fs_min : option Q;
  fs_max : option Q;
  common_fonts : FontCounts;
  font_families : list (string * nat);
  bold_fonts : list (string * nat);
  size_clusters : list Cluster;
  percentiles : list Q;
  heading_thresholds : Thresholds
}.

(** [d[k] += 1] on a [defaultdict(int)], keys in insertion order. *)
Fixpoint incr (k : string) (d : list (string * nat)) : list (string * nat) :=
  match d with
  | [] => [(k, 1)]
  | (k', n) :: d' => if String.eqb k k' then (k', S n) :: d' else (k', n) :: incr k d'
  end.

(** A span: the finer unit of the fallback path. *)
Record Span : Type := mkSpan {
  s_text : string;
  s_font : string;
  s_size : Q;
  s_flags : Z;
  s_bbox : BBox;
  s_page : nat
}.

(** A detected heading: the dictionary that the detectors append.  The
    block-level detector sets a confidence, the span-level one does not,
    and neither sets a bounding box; post-processing reads both keys with
    a default. *)
Record Heading : Type := mkHeading {
  h_text : string;
  h_level : Level;
  h_page : nat;
  h_font_size : Q;
  h_font : string;
  h_confidence : option Q;
  h_bbox : option BBox
}.

(** An entry of the final outline. *)
Record OutlineEntry : Type := mkEntry {
  e_level : Level;
  e_text : string;
  e_page : nat
}.

(** An exception of class [Exception], by its message: what the clauses
    [except Exception] of the program catch. *)
Definition Exn : Type := string.

(** What a call can raise: an exception of class [Exception], or one
    outside that class -- [KeyboardInterrupt], [SystemExit] -- given by
    its name.  A clause [except Exception] lets the second kind pass; of
    the program's handlers only the one of [main], [except
    KeyboardInterrupt], names it. *)
Inductive Raised : Type :=
| exception (e : Exn)
| base_exception (name : string).

(** The bold bit of the font flags: [flags & 16]. *)
Definition bold_bit (flags : Z) : Z := Z.land flags 16.
Definition has_bold_flag (flags : Z) : bool := negb (bold_bit flags =? 0)%Z.

(** ** analysis.py *)

Module Analysis.
Import PyStr PyNum Re.
Local Open Scope Q_scope.

(** The dictionary returned when no block has a positive font size. *)
Definition default_font_stats : FontStats :=
  {| mean := 12; median := 12; fs_min := None; fs_max := None;
     common_fonts := py_list []; font_families := []; bold_fonts := [];
     size_clusters := []; percentiles := [];
     heading_thresholds := mkThresholds 16 14 12 |}.

(** [font.split('-')[0].split(' ')[0]] *)
Definition font_family (f : string) : string :=
  split_first " " (split_first "-" f).

Definition counts_bold (b : Block) : bool :=
  has_bold_flag (font_flags b) || contains "bold" (lower (font b)).

(** The three adaptive size thresholds (h1, h2, h3 of the clusters). *)
Definition adaptive_thresholds (font_sizes pcts : list Q) (med : Q) (lo hi : Q)
    : Q * Q * Q :=
  let p95 := nth_q pcts 4 in
  let p90 := nth_q pcts 3 in
  let p75 := nth_q pcts 2 in
  let p50 := nth_q pcts 1 in
  let font_variety :=
    distinct_z (map py_round (filter (fun sz => Qltb 0 sz) font_sizes)) in
  let size_range := hi - lo in
  if (font_variety <=? 3)%nat && Qltb size_range 6 then
    (py_max p75 (med * 1.3), py_max p50 (med * 1.15), med * 1.05)
  else if (5 <=? font_variety)%nat && Qltb 10 size_range then
    (py_max p95 (med * 1.8), py_max p90 (med * 1.5), py_max p75 (med * 1.3))
  else
    (py_max p90 (med * 1.6), py_max p75 (med * 1.4), py_max p50 (med * 1.2)).

Definition make_size_clusters (font_sizes pcts : list Q) (med : Q) (lo hi : Q)
    : list Cluster :=
  if (3 <? distinct_q font_sizes)%nat then
    let '(h1_threshold, h2_threshold, h3_threshold) :=
      adaptive_thresholds font_sizes pcts med lo hi in
    [ mkCluster H1 h1_threshold 0.9;
      mkCluster H2 h2_threshold 0.8;
      mkCluster H3 h3_threshold 0.7 ]
  else
    [ mkCluster H1 (med * 1.5) 0.7;
      mkCluster H2 (med * 1.3) 0.6;
      mkCluster H3 (med * 1.1) 0.5 ].

(** The secondary h3 floor, computed from the mean. *)
Definition h3_floor (mu : Q) : Q :=
  if Qltb 12 mu then py_max (mu * 0.85) 8.0 else py_max (mu * 0.8) 7.5.

Definition make_heading_thresholds (clusters : list Cluster) (med mu : Q)
    : Thresholds :=
  {| h1 := match clusters with c :: _ => min_size c | [] => med * 1.4 end;
     h2 := match clusters with _ :: c :: _ => min_size c | _ => med * 1.2 end;
     h3 := h3_floor mu |}.

Definition analyze_font_statistics (blocks : list Block) : FontStats :=
  let font_sizes :=
    filter (fun sz => Qltb 0 sz) (map font_size blocks) in
  match font_sizes with
  | [] => default_font_stats
  | _ :: _ =>
      let mu := np_mean font_sizes in
      let med := np_median font_sizes in
      let lo := np_min font_sizes in
      let hi := np_max font_sizes in
      let font_sizes_sorted := sorted_q font_sizes in
      let pcts := map (np_percentile font_sizes_sorted) [25; 50; 75; 90; 95] in
      let clusters := make_size_clusters font_sizes pcts med lo hi in
      {| mean := mu; median := med; fs_min := Some lo; fs_max := Some hi;
         common_fonts := py_dict (fold_left (fun d b => incr (font b) d) blocks []);
         font_families :=
           fold_left (fun d b => incr (font_family (font b)) d) blocks [];
         bold_fonts :=
           fold_left (fun d b => if counts_bold b then incr (font b) d else d)
             blocks [];
         size_clusters := clusters;
         percentiles := pcts;
         heading_thresholds := make_heading_thresholds clusters med mu |}
  end.

(** *** calculate_heading_confidence *)

(** [for pattern, score, level in table: if test(pattern): ...; break] *)
Fixpoint first_match {A : Type} (test : regex -> bool) (table : list (regex * A))
    : option A :=
  match table with
  | [] => None
  | (r, a) :: table' => if test r then Some a else first_match test table'
  end.

(** [font_size / median if median > 0 else 1] *)
Definition size_ratio (font_size : Q) (font_stats : FontStats) : Q :=
  if Qltb 0 (median font_stats) then font_size / median font_stats else 1.

(** The size tier: the confidence and level after the first rule. *)
Definition size_tier (font_size : Q) (font_stats : FontStats) : Q * Level :=
  let th := heading_thresholds font_stats in
  if Qleb (h1 th) font_size then (0.0 + 0.4, H1)
  else if Qleb (h2 th) font_size then (0.0 + 0.3, H2)
  else if Qleb (h3 th) font_size then (0.0 + 0.25, H3)
  else (0.0 - 0.1, H3).

Definition bold_patterns : list string :=
  ["bold"; "black"; "heavy"; "demi"; "semibold"; "extrabold"; "boldmt"].

Definition is_bold (fnt : string) (flags : Z) : bool :=
  has_bold_flag flags || any_in bold_patterns (lower fnt).

Definition high_value_words : list string :=
  ["introduction"; "conclusion"; "abstract"; "summary"; "overview";
   "background"; "options"; "pathway"; "requirements"; "prerequisites"].
Definition medium_value_words : list string :=
  ["methodology"; "results"; "discussion"; "references"; "acknowledgements";
   "table of contents"; "revision history"; "program"; "curriculum"; "schedule"].
Definition section_words : list string :=
  ["appendix"; "definitions"; "scope"; "requirements"; "evaluation"; "approach"].

(** [\b(name|designation|...|department)\b] *)
Definition re_form_primary : regex :=
  seqs [WordB;
        words ["name"; "designation"; "date"; "service"; "account";
               "emoluments"; "salary"; "pay"; "grade"; "department"];
        WordB].
(** [\b(present|current|basic|leave|advance|grant|application)\b] *)
Definition re_form_secondary : regex :=
  seqs [WordB;
        words ["present"; "current"; "basic"; "leave"; "advance"; "grant";
               "application"];
        WordB].
(** [^[A-Z][a-z]+\s+(of|being|drawn|number|account)] *)
Definition re_form_of : regex :=
  seqs [Bol; upper_az; plus lower_az; plus ws;
        words ["of"; "being"; "drawn"; "number"; "account"]].
(** [^[A-Z][a-zA-Z\s]+(Government|Service|Department)] *)
Definition re_form_government : regex :=
  seqs [Bol; upper_az;
        plus (cls (fun c => in_range 97 122 c || in_range 65 90 c || isspace_c c));
        words ["Government"; "Service"; "Department"]].
(** [^[A-Z][a-z]+(\s+[A-Z][a-z]+){2,}$] *)
Definition re_title_case_fields : regex :=
  seqs [Bol; upper_az; plus lower_az;
        at_least 2 (seqs [plus ws; upper_az; plus lower_az]); Eol].

Definition form_field_patterns : list (regex * (Q * Level)) :=
  [ (re_form_primary, (0.35, H3));
    (re_form_secondary, (0.25, H3));
    (re_form_of, (0.3, H3));
    (re_form_government, (0.3, H3));
    (re_title_case_fields, (0.2, H3)) ].

(** [^(\d+\.)+\s+[A-Z]] *)
Definition re_numbered_main : regex :=
  seqs [Bol; plus (Seq (plus digit) (ch ".")); plus ws; upper_az].
(** [^(\d+\.\d+)+\s+[A-Z]] *)
Definition re_numbered_sub : regex :=
  seqs [Bol; plus (seqs [plus digit; ch "."; plus digit]); plus ws; upper_az].
(** [^(\d+\.\d+\.\d+)+\s+[A-Z]] *)
Definition re_numbered_subsub : regex :=
  seqs [Bol;
        plus (seqs [plus digit; ch "."; plus digit; ch "."; plus digit]);
        plus ws; upper_az].
(** [^[A-Z]+\.\s+[A-Z]] *)
Definition re_lettered : regex :=
  seqs [Bol; plus upper_az; ch "."; plus ws; upper_az].
(** [^\([a-z]\)\s+[A-Z]] *)
Definition re_paren_letter : regex :=
  seqs [Bol; ch "("; lower_az; ch ")"; plus ws; upper_az].

Definition numbered_patterns : list (regex * (Q * Level)) :=
  [ (re_numbered_main, (0.6, H1));
    (re_numbered_sub, (0.5, H2));
    (re_numbered_subsub, (0.4, H3));
    (re_lettered, (0.35, H2));
    (re_paren_letter, (0.3, H3)) ].

(** [^Chapter\s+\d+:], with [re.IGNORECASE] *)
Definition re_chapter : regex :=
  seqs [Bol; ilit "Chapter"; plus ws; plus digit; ch ":"].
(** [^\d+\.\s+Professionals?\s+who], with [re.IGNORECASE] *)
Definition re_professionals_who : regex :=
  seqs [Bol; plus digit; ch "."; plus ws; ilit "Professional"; opt (ich "s");
        plus ws; ilit "who"].
(** [^\d+\.\s+Junior\s+professional], with [re.IGNORECASE] *)
Definition re_junior_professional : regex :=
  seqs [Bol; plus digit; ch "."; plus ws; ilit "Junior"; plus ws;
        ilit "professional"].
(** [^\d+\.\s+[A-Z][a-z]+.*?(experience|testing|profession)], with
    [re.IGNORECASE] *)
Definition re_professional_description : regex :=
  seqs [Bol; plus digit; ch "."; plus ws; alpha_az; plus alpha_az; Star dot;
        alts [ilit "experience"; ilit "testing"; ilit "profession"]].

Definition chapter_patterns : list (regex * (Q * Level)) :=
  [ (re_chapter, (0.7, H1));
    (re_professionals_who, (0.6, H3));
    (re_junior_professional, (0.6, H3));
    (re_professional_description, (0.5, H3)) ].

Definition intro_phrases : list string :=
  ["this section"; "the following"; "as described"; "section covers"].

(** [analyze_context]; the text itself is not read. *)
Definition analyze_context (txt : string) (context_blocks : list Block)
    (font_stats : FontStats) : Q :=
  let step (context_score : Q) (block : Block) : Q :=
    let context_score :=
      if Qltb (font_size block) (median font_stats)
      then context_score + 0.05 else context_score in
    if any_in intro_phrases (lower (text block))
    then context_score + 0.1 else context_score in
  py_min (fold_left step (firstn 3 context_blocks) 0.0) 0.2.

(** The rules after the font-weight test, in source order.  Each takes
    and returns the running [(confidence, suggested_level)]. *)

(** [if is_bold: confidence += 0.3] and the promotion by one step. *)
Definition rule_bold (bold : bool) (st : Q * Level) : Q * Level :=
  let '(confidence, suggested_level) := st in
  if bold then
    let confidence := confidence + 0.3 in
    if level_eqb suggested_level H3 && Qltb 0.4 confidence then (confidence, H2)
    else if level_eqb suggested_level H2 && Qltb 0.6 confidence then (confidence, H1)
    else (confidence, suggested_level)
  else st.

(** Structural vocabulary: form-field patterns first, then the word tiers. *)
Definition rule_vocabulary (txt : string) (structural_words : list string)
    (st : Q * Level) : Q * Level :=
  let '(confidence, suggested_level) := st in
  let text_lower := lower txt in
  match first_match (fun r => re_search r text_lower) form_field_patterns with
  | Some (score, level) => (confidence + (0 + score), level)
  | None =>
      if any_in high_value_words text_lower then
        (confidence + (0 + 0.4),
         if level_eqb suggested_level H3 then H1 else suggested_level)
      else if any_in medium_value_words text_lower then
        (confidence + (0 + 0.3),
         if level_eqb suggested_level H3 then H2 else suggested_level)
      else if any_in section_words text_lower then
        (confidence + (0 + 0.2), suggested_level)
      else if any_in structural_words text_lower then
        (confidence + (0 + 0.15), suggested_level)
      else (confidence + 0, suggested_level)
  end.

(** The two language-fairness boosts. *)
Definition rule_fairness (txt : string) (st : Q * Level) : Q * Level :=
  let '(confidence, suggested_level) := st in
  let non_ascii_chars := List.length (filter non_ascii (chars txt)) in
  let confidence :=
    if (0 <? non_ascii_chars)%nat then
      let ascii_ratio := of_nat non_ascii_chars / of_nat (len txt) in
      if Qltb 0.3 ascii_ratio then confidence + 0.15 else confidence
    else confidence in
  let confidence :=
    if (len txt <? 8)%nat && Qltb (of_nat (len txt) * 0.5) (of_nat non_ascii_chars)
    then confidence + 0.1 else confidence in
  (confidence, suggested_level).

(** Chapter patterns first; numbered patterns only if none matched. *)
Definition rule_numbering (txt : string) (st : Q * Level) : Q * Level :=
  let '(confidence, suggested_level) := st in
  match first_match (fun r => re_match r txt) chapter_patterns with
  | Some (score, level) => (confidence + score, level)
  | None =>
      match first_match (fun r => re_match r txt) numbered_patterns with
      | Some (score, level) => (confidence + score, level)
      | None => st
      end
  end.

(** [if bbox and bbox[1] < 100] *)
Definition rule_position (box : BBox) (st : Q * Level) : Q * Level :=
  let '(confidence, suggested_level) := st in
  if Qltb (y0 box) 100 then (confidence + 0.1, suggested_level) else st.

Definition rule_length (txt : string) (st : Q * Level) : Q * Level :=
  let '(confidence, suggested_level) := st in
  let wc := word_count txt in
  if (2 <=? wc)%nat && (wc <=? 8)%nat then (confidence + 0.1, suggested_level)
  else if (wc =? 1)%nat && (3 <? len txt)%nat then (confidence + 0.05, suggested_level)
  else if (15 <? wc)%nat then (confidence - 0.3, suggested_level)
  else st.

Definition rule_case (txt : string) (st : Q * Level) : Q * Level :=
  let '(confidence, suggested_level) := st in
  if istitle txt then (confidence + 0.1, suggested_level)
  else if isupper txt && (word_count txt <=? 5)%nat
       then (confidence + 0.15, suggested_level)
  else st.

Definition rule_colon (txt : string) (st : Q * Level) : Q * Level :=
  let '(confidence, suggested_level) := st in
  if endswith txt ":" then
    (confidence + 0.1, if level_eqb suggested_level H1 then H2 else suggested_level)
  else st.

(** [if context_blocks: confidence += analyze_context(...)] *)
Definition rule_context (txt : string) (context_blocks : list Block)
    (font_stats : FontStats) (st : Q * Level) : Q * Level :=
  let '(confidence, suggested_level) := st in
  match context_blocks with
  | [] => st
  | _ :: _ =>
      (confidence + analyze_context txt context_blocks font_stats, suggested_level)
  end.

(** [calculate_heading_confidence].  [context_blocks] is empty when the
    caller passes none. *)
Definition calculate_heading_confidence (txt : string) (font_size : Q)
    (fnt : string) (box : BBox) (font_stats : FontStats) (flags : Z)
    (context_blocks : list Block) (structural_words : list string)
    : Q * Level :=
  let ratio := size_ratio font_size font_stats in
  let '(confidence, suggested_level) := size_tier font_size font_stats in
  let bold := is_bold fnt flags in
  if Qltb 1.8 ratio && negb bold then
    let confidence := confidence * 0.3 in
    (py_max 0 confidence, H3)
  else
    let confidence :=
      if Qltb 1.5 ratio && negb bold then confidence * 0.7 else confidence in
    let st := rule_bold bold (confidence, suggested_level) in
    let st := rule_vocabulary txt structural_words st in
    let st := rule_fairness txt st in
    let st := rule_numbering txt st in
    let st := rule_position box st in
    let st := rule_length txt st in
    let st := rule_case txt st in
    let st := rule_colon txt st in
    let '(confidence, suggested_level) :=
      rule_context txt context_blocks font_stats st in
    (py_min confidence 1.0, suggested_level).

(** *** is_noise_with_confidence *)

(** The punctuation class of the special-character count; the double
    quote is given by its code. *)
Definition is_special_char (c : ascii) : bool :=
  existsb (Ascii.eqb c) (chars "-_=+*#@$%^&(){}[]|\:;',.<>?/~`!")
  || (code c =? 34)%nat.

Definition is_letter_az (c : ascii) : bool :=
  in_range 97 122 c || in_range 65 90 c.

Definition kept_headings : list string := ["WWW.TOPJUMP.COM"; "ADDRESS:"].

Definition form_field_labels : list string :=
  ["Application form for grant of LTC advance";
   "Leave Travel Concession";
   "Terms and Conditions"].

(** The document-metadata patterns, all matched with [re.IGNORECASE]:
    [^International\s+.*\s+Qualifications?\s+Board$],
    [^.*Software\s+Testing.*Foundation.*Level.*Extension.*Qualifications$],
    [^Copyright\s+(c).*International.*$] (with the copyright sign),
    [^Version\s+\d+.*Page\s+\d+.*of\s+\d+.*$],
    [^.*Page\s+\d+\s+of\s+\d+.*\d{4}$]. *)
Definition copyright_sign : ascii := ascii_of_nat 169.

(** The text [copyright (c)], ending with the copyright sign. *)
Definition copyright_prefix : string :=
  String.append "copyright " (String copyright_sign EmptyString).

Definition document_metadata_patterns : list regex :=
  [ seqs [Bol; ilit "International"; plus ws; Star dot; plus ws;
          ilit "Qualification"; opt (ich "s"); plus ws; ilit "Board"; Eol];
    seqs [Bol; Star dot; ilit "Software"; plus ws; ilit "Testing"; Star dot;
          ilit "Foundation"; Star dot; ilit "Level"; Star dot;
          ilit "Extension"; Star dot; ilit "Qualifications"; Eol];
    seqs [Bol; ilit "Copyright"; plus ws; ch copyright_sign; Star dot;
          ilit "International"; Star dot; Eol];
    seqs [Bol; ilit "Version"; plus ws; plus digit; Star dot; ilit "Page";
          plus ws; plus digit; Star dot; ilit "of"; plus ws; plus digit;
          Star dot; Eol];
    seqs [Bol; Star dot; ilit "Page"; plus ws; plus digit; plus ws; ilit "of";
          plus ws; plus digit; Star dot; rep 4 digit; Eol] ].

(** [^\d+\.] *)
Definition re_starts_numbered : regex := seqs [Bol; plus digit; ch "."].

(** [^rsvp:\s*[-_]{3,}] *)
Definition re_rsvp_line : regex :=
  seqs [Bol; lit "rsvp:"; Star ws; at_least 3 (one_of "-_")].

(** [^\d+\.\s+(name|designation|date|salary|pay|grade|age|relationship)] *)
Definition re_numbered_field : regex :=
  seqs [Bol; plus digit; ch "."; plus ws;
        words ["name"; "designation"; "date"; "salary"; "pay"; "grade"; "age";
               "relationship"]].

(** [^s\.no\s+name\s+age] *)
Definition re_table_header : regex :=
  seqs [Bol; lit "s.no"; plus ws; lit "name"; plus ws; lit "age"].

(** [^\d+\.\s*(name|designation|...|place)] *)
Definition re_numbered_label : regex :=
  seqs [Bol; plus digit; ch "."; Star ws;
        words ["name"; "designation"; "date"; "salary"; "grade"; "pay";
               "scale"; "station"; "whether"; "home"; "amount"; "details";
               "place"]].

(** [^(name|designation|date|salary|grade|pay|scale|station)(\s+of.* )?:?\s*$], the blank after the star not being part of the pattern *)
Definition re_bare_label : regex :=
  seqs [Bol;
        words ["name"; "designation"; "date"; "salary"; "grade"; "pay";
               "scale"; "station"];
        opt (seqs [plus ws; lit "of"; Star dot]); opt (ch ":"); Star ws; Eol].

(** [^date\s+of\s+(entering|joining|birth|appointment)] *)
Definition re_date_of : regex :=
  seqs [Bol; lit "date"; plus ws; lit "of"; plus ws;
        words ["entering"; "joining"; "birth"; "appointment"]].
(** [^signature\s+of\s+] *)
Definition re_signature_of : regex :=
  seqs [Bol; lit "signature"; plus ws; lit "of"; plus ws].
(** [^\([a-z]\)\s+block\s+for\s+which] *)
Definition re_paren_block_for_which : regex :=
  seqs [Bol; ch "("; lower_az; ch ")"; plus ws; lit "block"; plus ws;
        lit "for"; plus ws; lit "which"].
(** [^block\s+for\s+which] *)
Definition re_block_for_which : regex :=
  seqs [Bol; lit "block"; plus ws; lit "for"; plus ws; lit "which"].
(** [^whether\s+] *)
Definition re_whether : regex := seqs [Bol; lit "whether"; plus ws].
(** [^\([a-z]\)\s+if\s+] *)
Definition re_paren_if : regex :=
  seqs [Bol; ch "("; lower_az; ch ")"; plus ws; lit "if"; plus ws].
(** [^single\s+(rail|bus)\s+fare] *)
Definition re_single_fare : regex :=
  seqs [Bol; lit "single"; plus ws; words ["rail"; "bus"]; plus ws; lit "fare"].
(** [^headquarters\s+to\s+] *)
Definition re_headquarters_to : regex :=
  seqs [Bol; lit "headquarters"; plus ws; lit "to"; plus ws].
(** [.*\s+\d+\s*$] *)
Definition re_trailing_number : regex :=
  seqs [Star dot; plus ws; plus digit; Star ws; Eol].
(** [^\d+$] *)
Definition re_only_digits : regex := seqs [Bol; plus digit; Eol].
(** [\bpage\s*\d+] *)
Definition re_page_number : regex :=
  seqs [WordB; lit "page"; Star ws; plus digit].
(** [^(january|...|december)\s+\d{1,2},?\s+\d{4}$] *)
Definition re_calendar_date : regex :=
  seqs [Bol;
        words ["january"; "february"; "march"; "april"; "may"; "june"; "july";
               "august"; "september"; "october"; "november"; "december"];
        plus ws; digit; opt digit; opt (ch ","); plus ws; rep 4 digit; Eol].

Definition bare_field_names : list string :=
  ["s.no"; "serial number"; "amount"; "details"; "remarks"; "signature";
   "name"; "relationship"; "date"; "designation"; "salary"; "grade"; "pay";
   "service"].

(** The special-character ratio and the two-character decorative line. *)
Definition too_many_special_chars (text_stripped : string) : bool :=
  let special_chars := List.length (filter is_special_char (chars text_stripped)) in
  let letters := List.length (filter is_letter_az (chars text_stripped)) in
  (0 <? special_chars)%nat && (0 <? letters)%nat
  && Qltb 0.5 (of_nat special_chars / of_nat letters).

Definition repetitive_line (text_stripped : string) : bool :=
  (5 <? len text_stripped)%nat &&
  let unique_chars := char_set (remove_char " " text_stripped) in
  (List.length unique_chars <=? 2)%nat
  && existsb (fun c => existsb (Ascii.eqb c) (chars "-_=+*#")) unique_chars.

Definition is_url (txt : string) : bool :=
  let l := lower txt in
  startswith l "www." || startswith l "http"
  || contains ".com" l || contains ".org" l || contains ".net" l.

Definition is_contact_line (txt : string) : bool :=
  let l := lower txt in
  re_match re_rsvp_line l || contains "phone:" l || contains "email:" l.

Definition is_form_field (txt : string) : bool :=
  let l := lower txt in
  re_match re_numbered_field l || endswith l "rs." || re_match re_table_header l.

Definition too_long (txt : string) : bool :=
  let l := lower txt in
  ((120 <? len txt)%nat
   && negb (re_match re_starts_numbered txt)
   && negb (re_match re_chapter txt)
   && negb (any_in ["professional"; "testing"; "experience"; "methods";
                    "techniques"] l))
  ||
  ((100 <? len txt)%nat && (15 <? word_count txt)%nat
   && negb (re_match re_starts_numbered txt)
   && negb (re_match re_chapter txt)).

(** The disjunction [basic_noise], in source order. *)
Definition basic_noise (txt : string) : bool :=
  let l := lower txt in
  re_match re_numbered_label l
  || re_match re_bare_label l
  || re_match re_date_of l
  || re_match re_signature_of l
  || re_match re_paren_block_for_which l
  || re_match re_block_for_which l
  || re_match re_whether l
  || re_match re_paren_if l
  || re_match re_single_fare l
  || re_match re_headquarters_to l
  || endswith l " route."
  || contains "entitled to ltc" l
  || contains "ltc is to be availed" l
  || contains "place to be visited" l
  || mem l bare_field_names
  || String.eqb l "copyright" || startswith l copyright_prefix
  || (re_match re_trailing_number txt && (15 <? len txt)%nat
      && negb (startswith l "table"))
  || Qltb (of_nat (len txt) * 0.15) (of_nat (count_char "." txt))
  || startswith txt (String copyright_sign EmptyString)
  || startswith l "copyright"
  || re_match re_only_digits (strip txt)
  || re_search re_page_number l
  || (startswith l "version" && (word_count txt <=? 3)%nat)
  || startswith l "http"
  || (startswith l "www." && (20 <? len txt)%nat)
  || (contains "page " l && contains "of " l)
  || endswith l " of " || startswith l "page ".

Definition long_unstructured (txt : string) : bool :=
  (80 <? len txt)%nat
  && negb (re_match re_starts_numbered txt)
  && negb (re_match re_chapter txt)
  && negb (any_in ["introduction"; "overview"; "summary"; "conclusion";
                   "principles"; "methods"; "techniques"] (lower txt)).

Definition configured_noise (txt : string) (noise_patterns : list string) : bool :=
  (50 <? len txt)%nat && any_in noise_patterns (lower txt).

Definition contact_label (txt : string) : bool :=
  endswith (lower txt) ":" && (word_count txt <=? 2)%nat
  && any_in ["contact"; "email"; "phone"] (lower txt).

Definition address_word (txt : string) : bool :=
  (word_count txt =? 1)%nat && (len txt <? 10)%nat
  && any_in ["parkway"; "avenue"; "street"; "road"; "suite"; "floor"] (lower txt).

Definition decorative (txt : string) : bool :=
  ((15 <? count_char "-" txt)%nat || (5 <? count_char "_" txt)%nat
   || ((List.length (char_set (remove_char "-" (remove_char " " txt))) <=? 2)%nat
       && (8 <? len txt)%nat))
  && negb (startswith (lower txt) "rsvp"
           && (contains ":" txt || startswith (lower txt) "rsvp:")).

(** [is_noise_with_confidence]: the first rule that fires decides.  The
    source never reads [font_size] or [font_stats]. *)
Definition is_noise_with_confidence (txt : string) (font_size : Q)
    (font_stats : FontStats) (noise_patterns : list string) : bool :=
  let text_stripped := strip txt in
  if mem text_stripped noise_patterns then true
  else if mem text_stripped kept_headings then false
  else if too_many_special_chars text_stripped then true
  else if repetitive_line text_stripped then true
  else if mem text_stripped form_field_labels then false
  else if existsb (fun r => re_match r txt) document_metadata_patterns then true
  else if is_url txt then true
  else if is_contact_line txt then true
  else if is_form_field txt then true
  else if too_long txt then true
  else if basic_noise txt then true
  else if long_unstructured txt then true
  else if configured_noise txt noise_patterns then true
  else if contact_label txt then true
  else if address_word txt then true
  else if re_match re_calendar_date (lower txt) then true
  else if decorative txt then true
  else false.

End Analysis.

(** ** text_extraction.py *)

Module TextExtraction.
Import PyStr PyNum PyList Re Analysis.
Local Open Scope Q_scope.

Section Normalize.
(** [unicodedata.normalize('NFKC', .)], a function of the Unicode
    library.  A custom filter is the function
    [re.sub(pattern, '', ., flags=re.IGNORECASE)] of its pattern. *)
Variable nfkc : string -> string.

Definition normalize_text (txt : string) (custom_filters : list (string -> string))
    : string :=
  fold_left (fun t f => f t) custom_filters (collapse_ws (nfkc (strip txt))).
End Normalize.

(** The sort key [(page, bbox[1], bbox[0])], compared as tuples. *)
Definition span_key_le (a b : Span) : bool :=
  if (s_page a <? s_page b)%nat then true
  else if (s_page b <? s_page a)%nat then false
  else if Qltb (y0 (s_bbox a)) (y0 (s_bbox b)) then true
  else if Qltb (y0 (s_bbox b)) (y0 (s_bbox a)) then false
  else Qleb (x0 (s_bbox a)) (x0 (s_bbox b)).

(** The tests of the inner loop: [next_span] joins the group that starts
    at [current_span] and currently ends at [last_span]. *)
Definition joins (current_span last_span next_span : Span) : bool :=
  if negb (s_page next_span =? s_page current_span)%nat then false else
  let y_diff := py_abs (y0 (s_bbox next_span) - y0 (s_bbox current_span)) in
  let max_y_diff := py_max 2 (py_min 5 (s_size current_span / 8)) in
  if Qltb max_y_diff y_diff then false else
  let current_right := x1 (s_bbox last_span) in
  let next_left := x0 (s_bbox next_span) in
  let x_gap := next_left - current_right in
  let max_x_gap := py_max 20 (py_min 50 (s_size current_span * 2)) in
  if Qltb max_x_gap x_gap then false else
  let same_bold :=
    (bold_bit (s_flags current_span) =? bold_bit (s_flags next_span))%Z in
  let similar_size :=
    Qltb (py_abs (s_size next_span - s_size current_span)) 8 in
  let same_font_family :=
    String.eqb (split_first "-" (s_font current_span))
               (split_first "-" (s_font next_span)) in
  same_bold && similar_size && same_font_family.

(** The text of a group: joined with spaces, except before a piece that
    occurs in the punctuation string. *)
Definition combine_text (potential_group : list Span) : string :=
  match potential_group with
  | [] => ""
  | first :: others =>
      fold_left
        (fun combined_text sp =>
           if contains (s_text sp) "!?.,;:"
           then String.append combined_text (s_text sp)
           else String.append combined_text (String.append " " (s_text sp)))
        others (s_text first)
  end.

(** The span made of a group of at least two spans. *)
Definition consolidated_span (first_span : Span) (potential_group : list Span)
    : Span :=
  let last_span := last potential_group first_span in
  let avg_size :=
    qsum (map s_size potential_group) / of_nat (List.length potential_group) in
  {| s_text := combine_text potential_group;
     s_font := s_font first_span;
     s_size := avg_size;
     s_flags := s_flags first_span;
     s_bbox := mkBBox (x0 (s_bbox first_span)) (y0 (s_bbox first_span))
                      (x1 (s_bbox last_span)) (y1 (s_bbox first_span));
     s_page := s_page first_span |}.

(** What the outer loop appends for the group [current_span :: rev more]. *)
Definition emit_group (current_span : Span) (more_rev : list Span) : Span :=
  match more_rev with
  | [] => current_span
  | _ :: _ => consolidated_span current_span (current_span :: rev more_rev)
  end.

(** The two nested [while] loops as one pass.  The inner loop stops at the
    first span that does not join, and the outer loop resumes exactly
    there (both [i = j] and [i += 1] lead to it), so the pass carries the
    first span of the open group and the spans added so far, newest
    first. *)
Fixpoint consolidate_from (current_span : Span) (more_rev : list Span)
    (rest : list Span) : list Span :=
  match rest with
  | [] => [emit_group current_span more_rev]
  | next_span :: rest' =>
      if joins current_span (hd current_span more_rev) next_span
      then consolidate_from current_span (next_span :: more_rev) rest'
      else emit_group current_span more_rev :: consolidate_from next_span [] rest'
  end.

Definition consolidate_adjacent_spans (spans : list Span) : list Span :=
  match sort_by span_key_le spans with
  | [] => spans
  | current_span :: rest => consolidate_from current_span [] rest
  end.

(** The noise patterns of the span-level detector.  The one pattern
    that holds code points above 255 cannot occur in a text of this
    model and is left out. *)
Definition span_noise_patterns : list string :=
  ["qualifications board"; "testing board"; "international board";
   "copyright notice"; "document may be copied"; "source is acknowledged";
   ". *"; ".*"; ".."; "- *"; "* *"].

(** [[A-Z][a-z]+.*[A-Z]] *)
Definition re_mixed_case : regex :=
  seqs [upper_az; plus lower_az; Star dot; upper_az].

(** [is_span_heading]; [None] stands for [(False, None)]. *)
Definition is_span_heading (txt : string) (font_size : Q) (fnt : string)
    (box : BBox) (font_stats : FontStats) (flags : Z) : option Level :=
  if (len txt <? 3)%nat then None
  else if is_noise_with_confidence txt font_size font_stats span_noise_patterns
  then None
  else
    let word_count := word_count txt in
    if (10 <? word_count)%nat then None else
    let font_lower := lower fnt in
    let is_bold_font := contains "bold" font_lower || contains "black" font_lower in
    let is_bold := has_bold_flag flags || is_bold_font in
    let size_ratio := size_ratio font_size font_stats in
    let is_large := Qltb 1.4 size_ratio in
    let is_very_large := Qltb 1.8 size_ratio in
    let is_upper_case := isupper txt in
    let mixed_case_pattern := re_search re_mixed_case txt in
    let has_exclamation := endswith txt "!" in
    if (word_count <=? 3)%nat && negb has_exclamation
       && any_in ["com"; "www"; "http"; ".org"; ".net"; "parkway"; "avenue";
                  "street"; "rsvp:"] (lower txt)
    then None
    else if is_bold && is_large && (word_count <=? 8)%nat then Some H1
    else if is_very_large && (is_upper_case || mixed_case_pattern)
            && (word_count <=? 8)%nat then Some H1
    else if mixed_case_pattern && (has_exclamation || endswith txt "?")
            && (3 <=? word_count)%nat && (word_count <=? 10)%nat then Some H1
    else if is_bold && (word_count <=? 4)%nat then Some H3
    else None.

Section SpanLevel.
Variable nfkc : string -> string.

(** [extract_span_level_headings], from the span stream that the PDF
    library yields for the file (in page, block, line order), or the
    exception it raises.  Any exception gives the empty list. *)
Definition extract_span_level_headings (raw_spans : Exn + list Span)
    (font_stats : FontStats) (custom_filters : list (string -> string))
    : list Heading :=
  match raw_spans with
  | inl _ => []
  | inr spans =>
      let all_spans :=
        filter (fun sp => (1 <=? len (s_text sp))%nat)
          (map (fun sp =>
                  mkSpan (normalize_text nfkc (s_text sp) custom_filters)
                         (s_font sp) (s_size sp) (s_flags sp) (s_bbox sp)
                         (s_page sp))
               spans) in
      let consolidated_spans := consolidate_adjacent_spans all_spans in
      flat_map
        (fun sp =>
           match is_span_heading (s_text sp) (s_size sp) (s_font sp)
                   (s_bbox sp) font_stats (s_flags sp) with
           | Some level =>
               [ {| h_text := s_text sp; h_level := level;
                    h_page := s_page sp; h_font_size := s_size sp;
                    h_font := s_font sp; h_confidence := None;
                    h_bbox := None |} ]
           | None => []
           end)
        consolidated_spans
  end.
End SpanLevel.

End TextExtraction.

(** ** extractor.py *)

Module Extractor.
Import PyStr PyNum PyList Re Analysis TextExtraction.
Local Open Scope Q_scope.

(** The configuration that [__init__] stores on the extractor. *)
Record PDFOutlineExtractor : Type := mkExtractor {
  min_heading_length : nat;
  max_heading_length : nat;
  enable_cache : bool;
  custom_filters : list (string -> string);
  noise_patterns : list string;
  structural_words : list string
}.

(** The default noise patterns; the bullet pattern, whose first code
    point is above 255, cannot occur in a text of this model and is left
    out. *)
Definition default_noise_patterns : list string :=
  ["qualifications board"; "testing board"; "international board";
   "copyright notice"; "document may be copied"; "source is acknowledged";
   ". *"; ".*"; ".."; "- *"; "* *"].

Definition default_structural_words : list string :=
  ["introduction"; "background"; "summary"; "conclusion"; "overview";
   "methodology"; "results"; "discussion"; "references"; "appendix";
   "timeline"; "milestones"; "approach"; "evaluation";
   "requirements"; "preamble"; "membership"; "meetings"; "term";
   "revision"; "history"; "acknowledgements"; "contents"; "abstract";
   "objectives"; "scope"; "definitions"; "recommendations"].

(** [x or default] for an optional list. *)
Definition or_default {A : Type} (x : option (list A)) (default : list A) : list A :=
  match x with
  | Some (a :: l) => a :: l
  | _ => default
  end.

(** [__init__] *)
Definition init (min_len max_len : nat) (cache : bool)
    (filters : option (list (string -> string)))
    (noise words : option (list string)) : PDFOutlineExtractor :=
  {| min_heading_length := min_len;
     max_heading_length := max_len;
     enable_cache := cache;
     custom_filters := or_default filters [];
     noise_patterns := or_default noise default_noise_patterns;
     structural_words := or_default words default_structural_words |}.

(** [PDFOutlineExtractor()] *)
Definition default_extractor : PDFOutlineExtractor :=
  init 3 25 true None None None.

(** The four patterns of [extract_heading_from_text]:
    [HOPE\s+[A-Za-z\s]+?HERE[!\s]*$], [HOPE[\s\w]+THERE[!\s]*$],
    [[A-Z][A-Z\s]+[A-Z][!\.]*\s*$] and
    [[A-Z]{3,}[A-Z\s!\.]*[A-Z][!\.\s]*$]. *)
Definition tail_patterns : list regex :=
  [ seqs [lit "HOPE"; plus ws;
          plus (cls (fun c => in_range 65 90 c || in_range 97 122 c || isspace_c c));
          lit "HERE"; Star (cls (fun c => Ascii.eqb c "!" || isspace_c c)); Eol];
    seqs [lit "HOPE"; plus (cls (fun c => isspace_c c || isword_c c));
          lit "THERE"; Star (cls (fun c => Ascii.eqb c "!" || isspace_c c)); Eol];
    seqs [upper_az; plus (cls (fun c => in_range 65 90 c || isspace_c c));
          upper_az; Star (one_of "!."); Star ws; Eol];
    seqs [at_least 3 upper_az;
          Star (cls (fun c => in_range 65 90 c || isspace_c c
                              || Ascii.eqb c "!" || Ascii.eqb c "."));
          upper_az;
          Star (cls (fun c => Ascii.eqb c "!" || Ascii.eqb c "." || isspace_c c));
          Eol] ].

(** [extract_heading_from_text]: the first pattern whose match, stripped,
    has between 5 and 50 characters. *)
Fixpoint first_tail (patterns : list regex) (stripped : string) : option string :=
  match patterns with
  | [] => None
  | pattern :: patterns' =>
      match search_tail pattern stripped with
      | Some m =>
          let potential_heading := strip m in
          if (5 <=? len potential_heading)%nat && (len potential_heading <=? 50)%nat
          then Some potential_heading
          else first_tail patterns' stripped
      | None => first_tail patterns' stripped
      end
  end.

Definition extract_heading_from_text (txt : string) : option string :=
  first_tail tail_patterns (strip txt).

(** Patterns of [is_heading]: [^\d+\.\s+Professional],
    [professional.*testing.*experience] (both with [re.IGNORECASE]),
    [\d+\.\s+.*?\d+\.\s+.*?\d+\.] and [^(\d+\.)\s+[A-Z]]. *)
Definition re_numbered_professional : regex :=
  seqs [Bol; plus digit; ch "."; plus ws; ilit "Professional"].
Definition re_professional_testing : regex :=
  seqs [ilit "professional"; Star dot; ilit "testing"; Star dot;
        ilit "experience"].
Definition re_several_numbered : regex :=
  seqs [plus digit; ch "."; plus ws; Star dot; plus digit; ch "."; plus ws;
        Star dot; plus digit; ch "."].
Definition re_main_section : regex :=
  seqs [Bol; plus digit; ch "."; plus ws; upper_az].

(** The form-field patterns of [is_heading] (the first four of the
    scorer's table). *)
Definition heading_form_field_patterns : list regex :=
  [re_form_primary; re_form_secondary; re_form_of; re_form_government].

Definition canonical_headings : list string :=
  ["introduction"; "conclusion"; "summary"; "overview"; "background";
   "acknowledgements"; "table of contents"; "revision history"; "references";
   "methodology"; "results"; "discussion"; "appendix"; "goals";
   "mission statement"].

(** [len(context_blocks) if context_blocks else 100], and the base
    threshold chosen from it. *)
Definition base_threshold (context_blocks : list Block) : Q :=
  let total_blocks :=
    match context_blocks with [] => 100%nat | _ => List.length context_blocks end in
  if (100 <? total_blocks)%nat then 0.5
  else if (50 <? total_blocks)%nat then 0.4
  else 0.3.

(** The flyer markers shared by both paths of [is_heading]. *)
Definition flyer_marker (l : string) : bool :=
  startswith l "www." || endswith l ".com" || startswith l "address:"
  || startswith l "rsvp:" || contains "hope to see" l
  || (contains "required" l && (contains "shoes" l || contains "climbing" l)).

Section Methods.
(** [unicodedata.normalize('NFKC', .)] and the extractor object. *)
Variable nfkc : string -> string.
Variable self : PDFOutlineExtractor.

(** The word limit of [is_heading]. *)
Definition max_words (txt : string) : nat :=
  if re_match re_numbered_professional txt
     || re_search re_professional_testing txt
     || re_search re_several_numbered txt then 150%nat
  else if re_match re_chapter txt then 50%nat
  else if contains "hope" (lower txt)
          && (contains "see" (lower txt) || contains "there" (lower txt))
       then 50%nat
  else max_heading_length self.

(** The threshold after the structural boosts of the main path. *)
Definition boosted_threshold (txt : string) (confidence_threshold : Q) : Q :=
  let text_lower := lower txt in
  if existsb (fun r => re_search r text_lower) heading_form_field_patterns
  then confidence_threshold - 0.4
  else if re_match re_numbered_main txt || re_match re_numbered_sub txt
  then confidence_threshold - 0.3
  else if mem (strip (lower txt)) canonical_headings
  then confidence_threshold - 0.3
  else if startswith (lower txt) "introduction to"
          || startswith (lower txt) "overview of"
          || startswith (lower txt) "mission statement"
          || endswith (lower txt) " pathway"
          || endswith (lower txt) " options"
          || (endswith txt ":" && (word_count txt <=? 3)%nat)
  then confidence_threshold - 0.25
  else if contains "pathway" (lower txt)
          || contains "regular pathway" (lower txt)
          || contains "distinction pathway" (lower txt)
          || String.eqb (lower txt) "pathway options"
  then confidence_threshold - 0.3
  else if flyer_marker (lower txt)
  then confidence_threshold - 0.3
  else confidence_threshold.

(** The noise branch of [is_heading]: a trailing fragment of the
    original text is tested in place of the text. *)
Definition heading_from_tail (original_text : string) (font_size : Q)
    (fnt : string) (box : BBox) (font_stats : FontStats) (flags : Z)
    (context_blocks : list Block) : option (Level * string) :=
  match extract_heading_from_text original_text with
  | None => None
  | Some extracted_heading =>
      if is_noise_with_confidence extracted_heading font_size font_stats
           (noise_patterns self)
      then None
      else
        let '(confidence, suggested_level) :=
          calculate_heading_confidence extracted_heading font_size fnt box
            font_stats flags context_blocks (structural_words self) in
        let confidence_threshold := base_threshold context_blocks in
        let confidence_threshold :=
          if flyer_marker (lower extracted_heading)
          then confidence_threshold - 0.3 else confidence_threshold in
        if Qleb confidence_threshold confidence
        then Some (suggested_level, extracted_heading)
        else None
  end.

(** [is_heading]; [None] stands for [(False, None, None)] and
    [Some (level, t)] for [(True, level, t)]. *)
Definition is_heading (original_text : string) (font_size : Q) (fnt : string)
    (box : BBox) (font_stats : FontStats) (page_width : Q) (flags : Z)
    (context_blocks : list Block) : option (Level * string) :=
  let txt := normalize_text nfkc original_text (custom_filters self) in
  if (len txt <? min_heading_length self)%nat || (len txt =? 0)%nat then None
  else
    let word_count := word_count txt in
    if (max_words txt <? word_count)%nat || (word_count <? 1)%nat then None
    else if is_noise_with_confidence txt font_size font_stats (noise_patterns self)
    then heading_from_tail original_text font_size fnt box font_stats flags
           context_blocks
    else
      let '(confidence, suggested_level) :=
        calculate_heading_confidence txt font_size fnt box font_stats flags
          context_blocks (structural_words self) in
      if Qleb 0.9 confidence && re_match re_main_section txt
         && (3 <=? List.length (split txt))%nat
      then Some (suggested_level, txt)
      else
        if Qleb (boosted_threshold txt (base_threshold context_blocks)) confidence
        then Some (suggested_level, txt)
        else None.

(** [blocks[max(0, i-2):min(len(blocks), i+3)]] *)
Definition context_window (blocks : list Block) (i : nat) : list Block :=
  let lo := (i - 2)%nat in
  let hi := Nat.min (List.length blocks) (i + 3) in
  firstn (hi - lo) (skipn lo blocks).

(** A key of [seen_headings]. *)
Definition heading_key : Type := (string * nat * Level)%type.
Definition key_eqb (a b : heading_key) : bool :=
  let '(ta, pa, la) := a in
  let '(tb, pb, lb) := b in
  String.eqb ta tb && (pa =? pb)%nat && level_eqb la lb.
Definition seen (k : heading_key) (seen_headings : list heading_key) : bool :=
  existsb (key_eqb k) seen_headings.

(** The body of the first loop of [_multi_pass_heading_detection]. *)
Definition pass1_step (blocks : list Block) (font_stats : FontStats)
    (page_width : Q) (st : list Heading * list heading_key)
    (ib : nat * Block) : list Heading * list heading_key :=
  let '(outline, seen_headings) := st in
  let '(i, block) := ib in
  let context_blocks := context_window blocks i in
  match is_heading (text block) (font_size block) (font block) (bbox block)
          font_stats page_width (font_flags block) context_blocks with
  | None => st
  | Some (level, heading_text) =>
      let final_text :=
        if (len heading_text =? 0)%nat then text block else heading_text in
      let k := (lower final_text, page block, level) in
      if seen k seen_headings then st
      else (outline ++ [ {| h_text := final_text; h_level := level;
                            h_page := page block;
                            h_font_size := font_size block;
                            h_font := font block;
                            h_confidence := Some 0.8;
                            h_bbox := None |} ],
            k :: seen_headings)
  end.

(** The body of the second loop. *)
Definition pass2_step (font_stats : FontStats) (total_chars : Z)
    (unique_fonts : nat)
    (st : list Heading * list heading_key) (block : Block)
    : list Heading * list heading_key :=
  let '(outline, seen_headings) := st in
  if existsb (fun h => String.eqb (lower (h_text h)) (lower (text block))) outline
  then st
  else if is_noise_with_confidence (text block) (font_size block) font_stats
            (noise_patterns self)
  then st
  else
    let '(confidence, suggested_level) :=
      calculate_heading_confidence (text block) (font_size block) (font block)
        (bbox block) font_stats (font_flags block) [] (structural_words self) in
    let threshold :=
      if (total_chars <? 1000)%Z then 0.25
      else if (unique_fonts <=? 3)%nat then 0.3
      else 0.35 in
    if Qleb threshold confidence then
      let k := (lower (text block), page block, suggested_level) in
      if seen k seen_headings then st
      else (outline ++ [ {| h_text := text block; h_level := suggested_level;
                            h_page := page block;
                            h_font_size := font_size block;
                            h_font := font block;
                            h_confidence := Some confidence;
                            h_bbox := None |} ],
            k :: seen_headings)
    else st.

(** [sum(len(block['text']) for block in blocks)] *)
Definition total_chars_of (blocks : list Block) : Z :=
  fold_left (fun n b => (n + Z.of_nat (len (text b)))%Z) blocks 0%Z.

(** [len(set(block['font'] for block in blocks))] *)
Definition unique_fonts_of (blocks : list Block) : nat :=
  List.length (fold_left (fun d b => incr (font b) d) blocks []).

Fixpoint enumerate_from {A : Type} (i : nat) (l : list A) : list (nat * A) :=
  match l with
  | [] => []
  | x :: l' => (i, x) :: enumerate_from (S i) l'
  end.

Definition _multi_pass_heading_detection (blocks : list Block)
    (font_stats : FontStats) (page_width : Q) : list Heading :=
  let total_chars := total_chars_of blocks in
  let unique_fonts := unique_fonts_of blocks in
  let st1 :=
    fold_left (pass1_step blocks font_stats page_width)
      (enumerate_from 0 blocks) ([], []) in
  let min_headings_threshold :=
    if (5000 <? total_chars)%Z then 3%nat
    else if (1000 <? total_chars)%Z then 2%nat else 1%nat in
  if (List.length (fst st1) <? min_headings_threshold)%nat
  then fst (fold_left (pass2_step font_stats total_chars unique_fonts) blocks st1)
  else fst st1.

(** *** The document profiler *)

Definition form_keywords : list string :=
  ["application"; "form"; "advance"; "grant"; "ltc"].
Definition form_fields : list string :=
  ["name"; "designation"; "date"; "salary"; "grade"; "pay"; "station"].
Definition form_patterns : list string :=
  ["s.no"; "serial number"; "amount"; "details"; "remarks"].

(** [sum(1 for w in ws if w in s)] *)
Definition count_in (ws : list string) (s : string) : nat :=
  List.length (filter (fun w => contains w s) ws).

Definition is_form_document (blocks : list Block) (title : string) : bool :=
  let text_blocks := map (fun block => lower (text block)) blocks in
  let all_text := join " " text_blocks in
  let title_lower := lower title in
  if any_in form_keywords title_lower then
    let field_count := count_in form_fields all_text in
    let pattern_count := count_in form_patterns all_text in
    if (4 <=? field_count)%nat || (2 <=? pattern_count)%nat then true else false
  else false.

Inductive DocType : Type :=
| unknown | simple | complex | form | standard | flyer.
Inductive Complexity : Type := low | medium | high.
Inductive Strategy : Type :=
| minimal | span_preferred | block_preferred | hybrid.

Record DocInfo : Type := mkDocInfo {
  total_blocks : nat;
  total_chars : Z;
  unique_fonts : nat;
  font_size_range : Q;
  type : DocType;
  complexity : Complexity;
  recommended_strategy : Strategy
}.

Definition _analyze_document_type (blocks : list Block) (title : string)
    : DocInfo :=
  let total_chars := total_chars_of blocks in
  let unique_fonts := unique_fonts_of blocks in
  let font_sizes := map font_size blocks in
  let font_size_range :=
    match font_sizes with
    | [] => 0
    | _ :: _ => np_max font_sizes - np_min font_sizes
    end in
  let classify (t : DocType) (c : Complexity) (s : Strategy) :=
    mkDocInfo (List.length blocks) total_chars unique_fonts font_size_range t c s in
  if (total_chars <? 400)%Z && (List.length blocks <? 6)%nat then
    classify simple low span_preferred
  else if (15000 <? total_chars)%Z || (100 <? List.length blocks)%nat then
    classify complex high block_preferred
  else if is_form_document blocks title then
    classify form low minimal
  else if (6 <=? List.length blocks)%nat && (1000 <? total_chars)%Z then
    classify standard medium block_preferred
  else if (List.length blocks =? 6)%nat && (total_chars <? 500)%Z then
    classify flyer low block_preferred
  else
    classify standard medium hybrid.

(** *** The title selector *)

Definition first_page_blocks_of (blocks : list Block) : list Block :=
  filter (fun b => (page b =? 0)%nat) blocks.

Definition title_candidate_ok (txt : string) : bool :=
  (min_heading_length self <=? len txt)%nat
  && (word_count txt <=? 20)%nat
  && negb (re_match re_only_digits (strip txt))
  && negb (startswith (lower txt) "http")
  && negb (startswith (lower txt) "www.")
  && negb (endswith (lower txt) "address:")
  && negb (startswith (lower txt) "rsvp:")
  && negb (10 <? count_char "-" txt)%nat
  && negb (mem (lower txt) ["page"; "chapter"; "section"]).

Definition title_indicators : list string :=
  ["rfp"; "request"; "proposal"; "report"; "manual"; "guide"; "policy";
   "procedure"; "specification"; "document"].
Definition business_terms : list string :=
  ["parkway"; "avenue"; "street"; "road"; "drive"; "suite"; "floor"].
Definition legal_terms : list string :=
  ["copyright"; "document may be copied"; "acknowledged"; "proprietary"].

Definition title_score (block : Block) (txt : string) (font_stats : FontStats) : Q :=
  let score := 0 in
  let score :=
    score + (if Qltb 0 (median font_stats)
             then font_size block / median font_stats else 1) in
  let score := score + (if Qltb (y0 (bbox block)) 150 then 3 else 0) in
  let score := score + (if contains "bold" (lower (font block)) then 2 else 0) in
  let score :=
    score + (if istitle (text block) || isupper (text block) then 1 else 0) in
  let score :=
    if any_in title_indicators (lower txt) then score + 5 else score in
  let score :=
    if startswith txt "RFP:" || contains "Request for Proposal" txt
    then score + 10 else score in
  if any_in business_terms (lower txt) || any_in legal_terms (lower txt)
     || (15 <? word_count txt)%nat
  then score - 10 else score.

(** [max(candidates, key=lambda x: x[0])]: the first of the largest. *)
Definition max_by {A : Type} (key : A -> Q) (first : A) (others : list A) : A :=
  fold_left (fun best x => if Qltb (key best) (key x) then x else best)
    others first.

Definition non_title_indicators : list string :=
  ["shoes"; "climbing"; "required"; "closed"; "open"; "hours"].

Definition fallback_ok (txt : string) : bool :=
  negb (len txt =? 0)%nat
  && (word_count txt <=? 30)%nat
  && negb (10 <? count_char "-" txt)%nat
  && negb (startswith (lower txt) "rsvp:")
  && negb (startswith (lower txt) "www.")
  && negb (startswith (lower txt) "address:")
  && negb (any_in ["parkway"; "avenue"; "street"; "suite"; "forge"; "tn "]
             (lower txt)).

Definition flyer_candidate (candidate : string) : bool :=
  let l := lower candidate in
  contains "topjump" l || contains "party" l || contains "climbing" l
  || (contains "hope" l && contains "see" l) || contains "www." l.

Definition extract_title (blocks : list Block) (font_stats : FontStats) : string :=
  let first_page_blocks := first_page_blocks_of blocks in
  match first_page_blocks with
  | [] => "Untitled"
  | _ :: _ =>
      let candidates :=
        flat_map
          (fun block =>
             let txt := strip (text block) in
             if title_candidate_ok txt
             then [(title_score block txt font_stats, txt)] else [])
          first_page_blocks in
      match candidates with
      | c :: cs =>
          let best_title := snd (max_by fst c cs) in
          if any_in non_title_indicators (lower best_title) then ""
          else if negb (len (strip best_title) =? 0)%nat then best_title else ""
      | [] =>
          let fallback_candidates :=
            filter fallback_ok
              (map (fun block => strip (text block)) first_page_blocks) in
          match fallback_candidates with
          | [] => ""
          | first_candidate :: _ =>
              if existsb flyer_candidate fallback_candidates
              then "TopJump Party Invitation"
              else
                let all_text :=
                  join " " (map (fun block => lower (text block))
                              first_page_blocks) in
                if (contains "topjump" all_text
                    && (contains "party" all_text || contains "climbing" all_text))
                   || (contains "hope" all_text && contains "see" all_text
                       && contains "there" all_text)
                then "TopJump Party Invitation"
                else first_candidate
          end
      end
  end.

(** *** Hierarchy validation and deduplication *)

Definition build_flat_outline (outline : list Heading) : list OutlineEntry :=
  map (fun item => mkEntry (h_level item) (h_text item) (h_page item)) outline.

(** [heading["level"] = f"H{new_level}"] *)
Definition set_level (h : Heading) (new_level : nat) : Heading :=
  {| h_text := h_text h; h_level := H new_level; h_page := h_page h;
     h_font_size := h_font_size h; h_font := h_font h;
     h_confidence := h_confidence h; h_bbox := h_bbox h |}.

(** The loop of [_validate_hierarchy], from a given [last_level]. *)
Fixpoint validate_from (last_level : nat) (outline : list Heading)
    : list Heading :=
  match outline with
  | [] => []
  | heading :: rest =>
      let current_level := level_num (h_level heading) in
      if (last_level + 1 <? current_level)%nat && (0 <? last_level)%nat then
        let new_level := Nat.min current_level (last_level + 1) in
        set_level heading new_level :: validate_from new_level rest
      else heading :: validate_from current_level rest
  end.

Definition _validate_hierarchy (outline : list Heading) : list Heading :=
  if (List.length outline <=? 1)%nat then outline
  else validate_from 0 outline.

(** The sort key [(page, bbox[1])], the box defaulting to zeros. *)
Definition position_y (h : Heading) : Q :=
  match h_bbox h with Some b => y0 b | None => 0 end.
Definition position_le (a b : Heading) : bool :=
  if (h_page a <? h_page b)%nat then true
  else if (h_page b <? h_page a)%nat then false
  else Qleb (position_y a) (position_y b).

(** [text_groups[k].append(h)] on the [defaultdict(list)]. *)
Fixpoint group_append (k : string) (h : Heading)
    (text_groups : list (string * list Heading))
    : list (string * list Heading) :=
  match text_groups with
  | [] => [(k, [h])]
  | (k', hs) :: rest =>
      if String.eqb k k' then (k', hs ++ [h]) :: rest
      else (k', hs) :: group_append k h rest
  end.

(** [h.get("confidence", 0)] *)
Definition confidence_of (h : Heading) : Q :=
  match h_confidence h with Some c => c | None => 0 end.

Definition best_of_group (headings : list Heading) : list Heading :=
  match headings with
  | [] => []
  | [h] => [h]
  | h :: others => [max_by confidence_of h others]
  end.

(** The dictionary [text_groups] after the grouping loop. *)
Definition groups_of (outline : list Heading) : list (string * list Heading) :=
  fold_left (fun g heading => group_append (lower (h_text heading)) heading g)
    outline [].

Definition _remove_duplicates (outline : list Heading) : list Heading :=
  match outline with
  | [] => outline
  | _ :: _ =>
      let text_groups := groups_of outline in
      let deduplicated := flat_map (fun kv => best_of_group (snd kv)) text_groups in
      sort_by position_le deduplicated
  end.

(** The title filter of [_post_process_headings]. *)
Definition text_differs_from_title (title_lower heading_text : string) : bool :=
  let t := strip heading_text in
  negb (String.eqb (lower t) title_lower)
  && negb ((10 <? len t)%nat && contains (lower t) title_lower)
  && negb ((10 <? len title_lower)%nat && contains title_lower (lower t)).

Definition differs_from_title (title_lower : string) (h : Heading) : bool :=
  text_differs_from_title title_lower (h_text h).

Definition _post_process_headings (outline : list Heading) (title : string)
    (font_stats : FontStats) : list Heading :=
  match outline with
  | [] => outline
  | _ :: _ =>
      let outline :=
        if negb (len (strip title) =? 0)%nat
        then filter (differs_from_title (lower (strip title))) outline
        else outline in
      let outline := sort_by position_le outline in
      let outline := _validate_hierarchy outline in
      _remove_duplicates outline
  end.

(** *** The strategy selector *)

Definition meaningful_patterns : list string :=
  ["introduction"; "conclusion"; "summary"; "background"; "overview";
   "methodology"; "results"; "discussion"; "references"; "abstract";
   "pathway"; "options"; "requirements"; "hope"; "see you"; "there"].

Definition _has_meaningful_content (outline : list OutlineEntry) : bool :=
  match outline with
  | [] => false
  | _ :: _ =>
      let meaningful_count :=
        List.length
          (filter (fun item =>
                     (3 <? len (e_text item))%nat
                     && negb (isdigit (e_text item))
                     && any_in meaningful_patterns (lower (e_text item)))
                  outline) in
      Qleb (py_max 1 (of_nat (List.length outline) * 0.3)) (of_nat meaningful_count)
  end.

Inductive Method : Type := block_method | span_method.

Definition structural_patterns : list string :=
  ["introduction"; "conclusion"; "summary"; "overview"; "references";
   "table of contents"; "background"; "methodology"; "results"; "discussion"].

Definition has_level (l : Level) (outline : list OutlineEntry) : bool :=
  existsb (fun item => level_eqb (e_level item) l) outline.

Definition _calculate_outline_quality (outline : list OutlineEntry)
    (blocks : list Block) (title : string) (method : Method) : Q :=
  match outline with
  | [] => 0.0
  | _ :: _ =>
      let score := 0.0 in
      let score := score + of_nat (List.length outline) * 0.5 in
      let score := if has_level H1 outline then score + 2.0 else score in
      let score := if has_level H2 outline then score + 1.0 else score in
      let score := if has_level H3 outline then score + 0.5 else score in
      let score :=
        fold_left
          (fun sc item =>
             if any_in structural_patterns (lower (e_text item))
             then sc + 1.0 else sc)
          outline score in
      let score :=
        if Qltb (of_nat (List.length blocks) * 0.8) (of_nat (List.length outline))
        then score * 0.3 else score in
      let total_chars := total_chars_of blocks in
      let score :=
        match method with
        | span_method => if (total_chars <? 1000)%Z then score * 1.5 else score
        | block_method => score
        end in
      let score :=
        match method with
        | block_method => if (5000 <? total_chars)%Z then score * 1.2 else score
        | span_method => score
        end in
      match method with
      | span_method =>
          if existsb (fun item => contains "hope" (lower (e_text item))
                                  || contains "see you" (lower (e_text item)))
               outline
          then score + 3.0 else score
      | block_method => score
      end
  end.

Definition _select_best_extraction (block_outline span_outline : list OutlineEntry)
    (blocks : list Block) (title : string) : list OutlineEntry :=
  match block_outline, span_outline with
  | [], _ :: _ => span_outline
  | _ :: _, [] => block_outline
  | [], [] => []
  | _ :: _, _ :: _ =>
      let block_score :=
        _calculate_outline_quality block_outline blocks title block_method in
      let span_score :=
        _calculate_outline_quality span_outline blocks title span_method in
      if Qltb block_score span_score then span_outline else block_outline
  end.

(** [_smart_extraction_strategy]; the file is represented by its span
    stream, which is all that the span-level extractor reads of it. *)
Definition _smart_extraction_strategy (block_outline : list OutlineEntry)
    (blocks : list Block) (font_stats : FontStats) (title : string)
    (doc_info : DocInfo) (raw_spans : Exn + list Span) : list OutlineEntry :=
  let span_flat_outline (_ : unit) :=
    build_flat_outline
      (_post_process_headings
         (extract_span_level_headings nfkc raw_spans font_stats
            (custom_filters self))
         title font_stats) in
  match recommended_strategy doc_info with
  | minimal => []
  | span_preferred =>
      let spans := span_flat_outline tt in
      if _has_meaningful_content spans then spans else block_outline
  | block_preferred =>
      if (3 <=? List.length block_outline)%nat then block_outline
      else span_flat_outline tt
  | hybrid =>
      _select_best_extraction block_outline (span_flat_outline tt) blocks title
  end.

(** *** The pipeline *)

(** What the file system and the PDF library answer for one path. *)
Record PdfFile : Type := mkPdfFile {
  f_exists : bool;                (* os.path.exists *)
  f_open_error : option Exn;      (* fitz.open raises *)
  f_page_count : nat;
  f_needs_pass : bool;
  f_first_page_text : bool;       (* get_text on the first page succeeds *)
  f_blocks : Exn + list Block;    (* extract_text_blocks *)
  f_page_width : Q;
  f_spans : Exn + list Span;      (* the span stream *)
  f_hash : option string          (* _generate_file_hash *)
}.

(** [validate_pdf]; [None] stands for [(True, None)], [Some msg] for
    [(False, msg)]. *)
Definition validate_pdf (pdf_path : string) (file : PdfFile) : option string :=
  if negb (f_exists file) then Some "File does not exist"
  else if negb (endswith (lower pdf_path) ".pdf") then Some "File is not a PDF"
  else match f_open_error file with
       | Some e => Some (String.append "PDF validation error: " e)
       | None =>
           if (f_page_count file =? 0)%nat then Some "PDF has no pages"
           else if f_needs_pass file then Some "PDF is password protected"
           else if negb (f_first_page_text file)
                then Some "Cannot extract text from PDF"
           else None
       end.

(** The counters of [processing_stats]; the elapsed time is left out. *)
Record ProcessingStats : Type := mkStats {
  total_files : nat;
  successful_extractions : nat;
  failed_extractions : nat;
  total_headings : nat
}.

Definition count_file (st : ProcessingStats) : ProcessingStats :=
  mkStats (S (total_files st)) (successful_extractions st)
          (failed_extractions st) (total_headings st).
Definition count_failure (st : ProcessingStats) : ProcessingStats :=
  mkStats (total_files st) (successful_extractions st)
          (S (failed_extractions st)) (total_headings st).
Definition count_success (n : nat) (st : ProcessingStats) : ProcessingStats :=
  mkStats (total_files st) (S (successful_extractions st))
          (failed_extractions st) (total_headings st + n).

(** The result dictionary.  The optional metadata entry is left out of
    it; the step that computes the entry, which can raise, is
    [dominant_fonts]. *)
Record Output : Type := mkOutput {
  o_title : string;
  o_outline : list OutlineEntry
}.

(** A progress callback is any callable: it may raise. *)
Definition Callback : Type := option (string -> option Exn).

Definition bind {A B : Type} (m : Exn + A) (f : A -> Exn + B) : Exn + B :=
  match m with
  | inl e => inl e
  | inr a => f a
  end.

(** [if progress_callback: progress_callback(msg)] *)
Definition notify (progress_callback : Callback) (msg : string) : Exn + unit :=
  match progress_callback with
  | None => inr tt
  | Some f => match f msg with Some e => inl e | None => inr tt end
  end.

(** [dict(list(font_stats.get("common_fonts", {}).items())[:3])], of the
    metadata: a list has no method [items]. *)
Definition dominant_fonts (font_stats : FontStats) : Exn + list (string * nat) :=
  match common_fonts font_stats with
  | py_dict d => inr (firstn 3 d)
  | py_list _ => inl "'list' object has no attribute 'items'"
  end.

(** The metadata step of [extract_outline]: [extract_metadata] catches
    what it raises, so only the font analysis can fail. *)
Definition with_metadata (include_metadata : bool) (font_stats : FontStats)
    (output : Output) : Exn + Output :=
  if include_metadata
  then bind (dominant_fonts font_stats) (fun _ => inr output)
  else inr output.

(** The part of [extract_outline] between the validation and the update
    of the counters. *)
Definition outline_of_file (file : PdfFile) (include_metadata : bool)
    (progress_callback : Callback) : Exn + Output :=
  bind (notify progress_callback "Extracting text blocks...") (fun _ =>
  bind (f_blocks file) (fun blocks =>
  bind (notify progress_callback "Analyzing document structure...") (fun _ =>
  let page_width := f_page_width file in
  let font_stats := analyze_font_statistics blocks in
  bind (notify progress_callback "Performing multi-pass analysis...") (fun _ =>
  let outline := _multi_pass_heading_detection blocks font_stats page_width in
  bind (notify progress_callback "Extracting title...") (fun _ =>
  let title := extract_title blocks font_stats in
  let doc_info := _analyze_document_type blocks title in
  bind (notify progress_callback "Post-processing and validation...") (fun _ =>
  let outline := _post_process_headings outline title font_stats in
  if is_form_document blocks title then
    with_metadata include_metadata font_stats
      (mkOutput title (build_flat_outline outline))
  else
    let flat_outline := build_flat_outline outline in
    bind (notify progress_callback "Applying smart extraction strategy...")
      (fun _ =>
    with_metadata include_metadata font_stats
      (mkOutput title
         (_smart_extraction_strategy flat_outline blocks font_stats title
            doc_info (f_spans file)))))))))).

(** [extract_outline]: the result or the exception raised, and the
    counters afterwards. *)
Definition extract_outline (pdf_path : string) (file : PdfFile)
    (include_metadata : bool) (progress_callback : Callback)
    (stats : ProcessingStats) : (Exn + Output) * ProcessingStats :=
  let stats := count_file stats in
  let try_body : (Exn + Output) * ProcessingStats :=
    match validate_pdf pdf_path file with
    | Some error_msg =>
        (inl (String.append "Invalid PDF: " error_msg), count_failure stats)
    | None =>
        match outline_of_file file include_metadata progress_callback with
        | inl e => (inl e, stats)
        | inr output =>
            let stats := count_success (List.length (o_outline output)) stats in
            match notify progress_callback "Complete!" with
            | inl e => (inl e, stats)
            | inr _ => (inr output, stats)
            end
        end
    end in
  match try_body with
  | (inl e, stats) => (inl e, count_failure stats)
  | (inr output, stats) => (inr output, stats)
  end.

End Methods.

End Extractor.

(** ** processor.py *)

Module Processor.
Import PyStr PyNum Extractor.

Inductive Status : Type := success | error.

(** The dictionary returned by [process_single_pdf]. *)
Record Result : Type := mkResult {
  filename : string;
  status : Status;
  cached : option bool;
  error_message : option string;
  title : string;
  outline : list OutlineEntry
}.

(** A cache entry; its timestamp is left out. *)
Record CacheEntry : Type := mkCacheEntry {
  ce_hash : string;
  ce_result : Output
}.

(** The cache dictionary, keys in insertion order. *)
Definition Cache : Type := list (string * CacheEntry).

Fixpoint cache_get (k : string) (cache : Cache) : option CacheEntry :=
  match cache with
  | [] => None
  | (k', v) :: rest => if String.eqb k k' then Some v else cache_get k rest
  end.

(** [cache[k] = v] *)
Fixpoint cache_set (k : string) (v : CacheEntry) (cache : Cache) : Cache :=
  match cache with
  | [] => [(k, v)]
  | (k', v') :: rest =>
      if String.eqb k k' then (k', v) :: rest else (k', v') :: cache_set k v rest
  end.

(** [os.path.basename]: what follows the last slash. *)
Fixpoint basename_l (cur : list ascii) (l : list ascii) : list ascii :=
  match l with
  | [] => rev cur
  | c :: l' => if Ascii.eqb c "/" then basename_l [] l' else basename_l (c :: cur) l'
  end.
Definition basename (path : string) : string := str (basename_l [] (chars path)).

(** A usable file hash: [None] and the empty text are both false. *)
Definition truthy_hash (h : option string) : option string :=
  match h with
  | Some s => if (len s =? 0)%nat then None else Some s
  | None => None
  end.

Section Batch.
Variable nfkc : string -> string.
Variable extractor : PDFOutlineExtractor.

(** [_is_cached]; [Some r] stands for [(True, r)]. *)
Definition _is_cached (pdf_path : string) (file : PdfFile) (cache : Cache)
    : option Output :=
  if negb (enable_cache extractor) then None
  else match truthy_hash (f_hash file) with
       | None => None
       | Some file_hash =>
           match cache_get (basename pdf_path) cache with
           | Some entry =>
               if String.eqb (ce_hash entry) file_hash
               then Some (ce_result entry) else None
           | None => None
           end
       end.

Definition success_result (name : string) (was_cached : bool) (r : Output)
    : Result :=
  mkResult name success (Some was_cached) None (o_title r) (o_outline r).

Definition error_result (name : string) (error_msg : string) : Result :=
  mkResult name error None (Some error_msg) "" [].

(** The [try] block of [process_single_pdf] after a cache miss. *)
Definition process_uncached (pdf_path : string) (file : PdfFile) (cache : Cache)
    (include_metadata : bool) (progress_callback : Callback)
    (stats : ProcessingStats) : (Exn + Result) * Cache * ProcessingStats :=
  let name := basename pdf_path in
  match notify progress_callback
          (String.append "Processing " (String.append name "...")) with
  | inl e => (inl e, cache, stats)
  | inr _ =>
      match extract_outline nfkc extractor pdf_path file include_metadata
              progress_callback stats with
      | (inl e, stats) => (inl e, cache, stats)
      | (inr result, stats) =>
          let cache :=
            if enable_cache extractor then
              match truthy_hash (f_hash file) with
              | Some file_hash =>
                  cache_set name (mkCacheEntry file_hash result) cache
              | None => cache
              end
            else cache in
          (inr (success_result name false result), cache, stats)
      end
  end.

(** [process_single_pdf]: the returned dictionary, and the cache and
    the extractor's counters afterwards. *)
Definition process_single_pdf (pdf_path : string) (file : PdfFile)
    (cache : Cache) (include_metadata : bool) (progress_callback : Callback)
    (stats : ProcessingStats) : Result * Cache * ProcessingStats :=
  let name := basename pdf_path in
  let try_block : (Exn + Result) * Cache * ProcessingStats :=
    match _is_cached pdf_path file cache with
    | Some cached_result =>
        (inr (success_result name true cached_result), cache, stats)
    | None =>
        process_uncached pdf_path file cache include_metadata
          progress_callback stats
    end in
  match try_block with
  | (inr r, cache, stats) => (r, cache, stats)
  | (inl e, cache, stats) => (error_result name e, cache, stats)
  end.

(** The sequential loop of [process_pdfs_advanced], without its own
    progress messages: the list of results, in order. *)
Fixpoint process_sequential (world : string -> PdfFile) (pdf_paths : list string)
    (cache : Cache) (include_metadata : bool) (progress_callback : Callback)
    (stats : ProcessingStats) : list Result * Cache * ProcessingStats :=
  match pdf_paths with
  | [] => ([], cache, stats)
  | pdf_path :: rest =>
      let '(r, cache, stats) :=
        process_single_pdf pdf_path (world pdf_path) cache include_metadata
          progress_callback stats in
      let '(rs, cache, stats) :=
        process_sequential world rest cache include_metadata
          progress_callback stats in
      (r :: rs, cache, stats)
  end.
End Batch.

End Processor.

(** ** Exceptions outside class [Exception]

    The definitions above follow the program where everything that is
    raised is of class [Exception].  The progress callback is a callable
    of the caller, and it can raise outside that class as well: it may
    call [sys.exit], or the user interrupts it.  The functions that call
    the callback are given here once more, for such a callback; for a
    callback that raises within the class they agree with the ones above.
    An interrupt that arrives elsewhere than in the callback is not
    modelled. *)

Module Interrupts.
Import PyStr PyNum Analysis TextExtraction Extractor Processor.

(** A progress callback is any callable: it may raise anything. *)
Definition Callback : Type := option (string -> option Raised).


Definition bind {A B : Type} (m : Raised + A) (f : A -> Raised + B) : Raised + B :=
  match m with
  | inl r => inl r
  | inr a => f a
  end.

(** A step that raises within class [Exception]. *)
Definition within {A : Type} (m : Exn + A) : Raised + A :=
  match m with
  | inl e => inl (exception e)
  | inr a => inr a
  end.

(** [if progress_callback: progress_callback(msg)] *)
Definition notify (progress_callback : Callback) (msg : string) : Raised + unit :=
  match progress_callback with
  | None => inr tt
  | Some f => match f msg with Some r => inl r | None => inr tt end
  end.

Section Methods.
Variable nfkc : string -> string.
Variable self : PDFOutlineExtractor.

(** The part of [extract_outline] between the validation and the update
    of the counters. *)
Definition outline_of_file (file : PdfFile) (include_metadata : bool)
    (progress_callback : Callback) : Raised + Output :=
  bind (notify progress_callback "Extracting text blocks...") (fun _ =>
  bind (within (f_blocks file)) (fun blocks =>
  bind (notify progress_callback "Analyzing document structure...") (fun _ =>
  let page_width := f_page_width file in
  let font_stats := analyze_font_statistics blocks in
  bind (notify progress_callback "Performing multi-pass analysis...") (fun _ =>
  let outline :=
    _multi_pass_heading_detection nfkc self blocks font_stats page_width in
  bind (notify progress_callback "Extracting title...") (fun _ =>
  let title := extract_title self blocks font_stats in
  let doc_info := _analyze_document_type blocks title in
  bind (notify progress_callback "Post-processing and validation...") (fun _ =>
  let outline := _post_process_headings outline title font_stats in
  if is_form_document blocks title then
    within (with_metadata include_metadata font_stats
              (mkOutput title (build_flat_outline outline)))
  else
    let flat_outline := build_flat_outline outline in
    bind (notify progress_callback "Applying smart extraction strategy...")
      (fun _ =>
    within (with_metadata include_metadata font_stats
              (mkOutput title
                 (_smart_extraction_strategy nfkc self flat_outline blocks
                    font_stats title doc_info (f_spans file))))))))))).

(** [extract_outline]: its clause [except Exception] counts a failure and
    raises again; what is outside the class passes it uncounted. *)
Definition extract_outline (pdf_path : string) (file : PdfFile)
    (include_metadata : bool) (progress_callback : Callback)
    (stats : ProcessingStats) : (Raised + Output) * ProcessingStats :=
  let stats := count_file stats in
  let try_body : (Raised + Output) * ProcessingStats :=
    match validate_pdf pdf_path file with
    | Some error_msg =>
        (inl (exception (String.append "Invalid PDF: " error_msg)),
         count_failure stats)
    | None =>
        match outline_of_file file include_metadata progress_callback with
        | inl r => (inl r, stats)
        | inr output =>
            let stats := count_success (List.length (o_outline output)) stats in
            match notify progress_callback "Complete!" with
            | inl r => (inl r, stats)
            | inr _ => (inr output, stats)
            end
        end
    end in
  match try_body with
  | (inl (exception e), stats) => (inl (exception e), count_failure stats)
  | (inl (base_exception name), stats) => (inl (base_exception name), stats)
  | (inr output, stats) => (inr output, stats)
  end.

(** The [try] block of [process_single_pdf] after a cache miss. *)
Definition process_uncached (pdf_path : string) (file : PdfFile) (cache : Cache)
    (include_metadata : bool) (progress_callback : Callback)
    (stats : ProcessingStats) : (Raised + Result) * Cache * ProcessingStats :=
  let name := basename pdf_path in
  match notify progress_callback
          (String.append "Processing " (String.append name "...")) with
  | inl r => (inl r, cache, stats)
  | inr _ =>
      match extract_outline pdf_path file include_metadata progress_callback
              stats with
      | (inl r, stats) => (inl r, cache, stats)
      | (inr result, stats) =>
          let cache :=
            if enable_cache self then
              match truthy_hash (f_hash file) with
              | Some file_hash =>
                  cache_set name (mkCacheEntry file_hash result) cache
              | None => cache
              end
            else cache in
          (inr (success_result name false result), cache, stats)
      end
  end.

(** [process_single_pdf]: the returned dictionary, or what leaves the
    call, and the cache and the extractor's counters afterwards.  Its
    clause [except Exception] turns an exception of the class into the
    error result. *)
Definition process_single_pdf (pdf_path : string) (file : PdfFile)
    (cache : Cache) (include_metadata : bool) (progress_callback : Callback)
    (stats : ProcessingStats) : (Raised + Result) * Cache * ProcessingStats :=
  let name := basename pdf_path in
  let try_block : (Raised + Result) * Cache * ProcessingStats :=
    match _is_cached self pdf_path file cache with
    | Some cached_result =>
        (inr (success_result name true cached_result), cache, stats)
    | None =>
        process_uncached pdf_path file cache include_metadata
          progress_callback stats
    end in
  match try_block with
  | (inr r, cache, stats) => (inr r, cache, stats)
  | (inl (exception e), cache, stats) => (inr (error_result name e), cache, stats)
  | (inl (base_exception b), cache, stats) =>
      (inl (base_exception b), cache, stats)
  end.
End Methods.

End Interrupts.

(** * Inputs of the examples, and the properties in the specification's words *)

Module Inputs.
Import PyStr PyNum PyList Re Analysis TextExtraction Extractor.
Local Open Scope Q_scope.

(** A block on the second page only. *)
Definition second_page_block : Block :=
  mkBlock "Appendix" 12 "Arial" 0 1 (mkBBox 72 90 300 102).

(** The threshold ordering, in the words of the specification. *)
Definition thresholds_ordered (th : Thresholds) : Prop :=
  h2 th <= h1 th /\ h3 th <= h2 th.

(** Three lines of body text and one large banner. *)
Definition body_and_banner : list Block :=
  [ mkBlock "Quarterly results" 10 "Arial" 0 0 (mkBBox 72 100 500 110);
    mkBlock "Revenue grew in every region." 10 "Arial" 0 0 (mkBBox 72 120 500 130);
    mkBlock "Costs were flat." 10 "Arial" 0 0 (mkBBox 72 140 500 150);
    mkBlock "OUTLOOK" 48 "Arial" 0 0 (mkBBox 72 200 500 248) ].

(** Two spans of one line, the second one taller. *)
Definition span_hello : Span :=
  mkSpan "Hello" "Arial" 10 0 (mkBBox 0 10 50 20) 0.
Definition span_world : Span :=
  mkSpan "World" "Arial" 12 0 (mkBBox 55 11 100 23) 0.

(** Two spans of one line, the right one a point higher than the left
    one. *)
Definition span_left : Span :=
  mkSpan "Hello" "Arial" 10 0 (mkBBox 0 11 50 21) 0.
Definition span_right : Span :=
  mkSpan "World" "Arial" 10 0 (mkBBox 55 10 100 20) 0.

(** The union of the boxes of a group, in the words of the
    specification: the least x0 and y0 and the greatest x1 and y1 over
    the members. *)
Definition bbox_union (first : Span) (others : list Span) : BBox :=
  fold_left
    (fun b sp =>
       mkBBox (Qmin (x0 b) (x0 (s_bbox sp))) (Qmin (y0 b) (y0 (s_bbox sp)))
              (Qmax (x1 b) (x1 (s_bbox sp))) (Qmax (y1 b) (y1 (s_bbox sp))))
    others (s_bbox first).

(** The arithmetic mean of the sizes of a group. *)
Definition mean_size (group : list Span) : Q :=
  qsum (map s_size group) / of_nat (List.length group).

(** Level-monotonicity, in the words of the specification: each entry
    is at most one level deeper than the entry before it. *)
Fixpoint level_steps_ok (levels : list nat) : bool :=
  match levels with
  | prev :: (next :: _) as rest => (next <=? prev + 1)%nat && level_steps_ok rest
  | _ => true
  end.

Definition heading_levels (outline : list Heading) : list nat :=
  map (fun h => level_num (h_level h)) outline.

Definition outline_levels (outline : list OutlineEntry) : list nat :=
  map (fun e => level_num (e_level e)) outline.

(** A two-page report: a title, a sub-heading listed on the first page,
    a main heading, a line of body text, and on the second page the same
    sub-heading again, followed by a third-level heading. *)
Definition report_block (t : string) (sz : Q) (fnt : string) (p : nat) (y : Q)
    : Block :=
  mkBlock t sz fnt 0 p (mkBBox 72 y 500 (y + sz)).

Definition budget_report : list Block :=
  [ report_block "Annual Budget Report" 20 "Arial-Bold" 0 60;
    report_block "1.1 Budget Plan" 12 "Arial" 0 200;
    report_block "1. General Terms" 12 "Arial" 0 300;
    report_block "The terms apply to every unit." 10 "Arial" 0 330;
    report_block "1.1 Budget Plan" 12 "Arial" 1 80;
    report_block "1.1.1 Cost Detail" 12 "Arial" 1 200 ].

(** A readable two-page file with the given blocks and no spans. *)
Definition file_of_blocks (blocks : list Block) : PdfFile :=
  mkPdfFile true None 2 false true (inr blocks) 612 (inr []) (Some "0f3a").

(** On the ASCII texts of these inputs the NFKC normal form is the text
    itself. *)
Definition ascii_nfkc (s : string) : string := s.

(** What the block-level detector finds in the report. *)
Definition budget_headings : list Heading :=
  _multi_pass_heading_detection ascii_nfkc default_extractor budget_report
    (analyze_font_statistics budget_report) 612.

(** A list in the order of the positional sort. *)
Definition position_sorted (l : list Heading) : Prop :=
  StronglySorted (fun a b => position_le a b = true) l.

(** The key of the duplicate groups. *)
Definition group_key (h : Heading) : string := lower (h_text h).

(** Every group is non-empty and holds headings of its key only, all
    with the property [Q]. *)
Definition well_grouped (Q : Heading -> Prop) (g : list (string * list Heading))
    : Prop :=
  Forall (fun kv => snd kv <> []
                    /\ Forall (fun h => group_key h = fst kv /\ Q h) (snd kv)) g.

(** A one-block application and a six-block application form. *)
Definition short_application : list Block :=
  [ report_block "Application for name designation date salary" 12 "Arial" 0 100 ].

Definition application_form : list Block :=
  [ report_block "Application for Leave Travel Advance" 16 "Arial-Bold" 0 60;
    report_block "Terms and Conditions" 14 "Arial-Bold" 0 120;
    report_block "Name of the employee" 10 "Arial" 0 160;
    report_block "Designation" 10 "Arial" 0 180;
    report_block "Date of joining" 10 "Arial" 0 200;
    report_block "Basic salary" 10 "Arial" 0 220 ].

(** The corpus text of [is_form_document]. *)
Definition corpus (blocks : list Block) : string :=
  join " " (map (fun block => lower (text block)) blocks).

(** The premise of scenario C, for a document given by its blocks and
    read with the default extractor. *)
Definition scenario_C_applies (blocks : list Block) : Prop :=
  let title :=
    extract_title default_extractor blocks (analyze_font_statistics blocks) in
  contains "application" (lower title) = true
  /\ (4 <= count_in form_fields (corpus blocks))%nat.

(** The conclusion of scenario C, in the words of the specification. *)
Definition scenario_C_holds (blocks : list Block) : Prop :=
  let title :=
    extract_title default_extractor blocks (analyze_font_statistics blocks) in
  let doc_info := _analyze_document_type blocks title in
  type doc_info = form
  /\ recommended_strategy doc_info = minimal
  /\ exists title',
       fst (extract_outline ascii_nfkc default_extractor "form.pdf"
              (file_of_blocks blocks) false None (mkStats 0 0 0 0))
       = inr (mkOutput title' []).

(** A path at which there is no file. *)
Definition missing_file : PdfFile :=
  mkPdfFile false (Some "no such file") 0 false false (inl "no such file") 0
            (inl "no such file") None.


End Inputs.

(** * Further definitions for the properties of the code *)

Module Ranges.

(** A level that the output format knows: H1, H2 or H3. *)
Definition valid_level (l : Level) : Prop := l = H1 \/ l = H2 \/ l = H3.

(** What the consolidator appends for a group of spans: the span itself
    for a single one, the merged span for a longer group. *)
Definition merge_group (group : list Span) : list Span :=
  match group with
  | [] => []
  | [sp] => [sp]
  | first_span :: _ :: _ => [TextExtraction.consolidated_span first_span group]
  end.

(** A span that the font tests of the consolidator let into the group
    that starts at [first_span]. *)
Definition compatible (first_span sp : Span) : Prop :=
  s_page sp = s_page first_span
  /\ bold_bit (s_flags sp) = bold_bit (s_flags first_span)
  /\ PyStr.split_first "-" (s_font sp) = PyStr.split_first "-" (s_font first_span)
  /\ (PyNum.py_abs (s_size sp - s_size first_span) < 8)%Q.

(** A group in which every member is compatible with the first one. *)
Definition coherent_group (group : list Span) : Prop :=
  match group with
  | [] => False
  | first_span :: others => Forall (compatible first_span) others
  end.

(** The key under which the block-level detector remembers a heading. *)
Definition seen_key (h : Heading) : string * nat * Level :=
  (PyStr.lower (h_text h), h_page h, h_level h).

(** What the block-level detector records of a block in a heading. *)
Definition detected_from (blocks : list Block) (h : Heading) : Prop :=
  valid_level (h_level h)
  /\ (exists c, h_confidence h = Some c)
  /\ h_bbox h = None
  /\ exists b, In b blocks /\ h_page h = page b
                /\ h_font_size h = font_size b /\ h_font h = font b.

(** A heading that the noise filter of the extractor lets pass. *)
Definition passes_noise_filter (self : Extractor.PDFOutlineExtractor)
    (font_stats : FontStats) (h : Heading) : Prop :=
  Analysis.is_noise_with_confidence (h_text h) (h_font_size h) font_stats
    (Extractor.noise_patterns self) = false.

(** Three clusters labelled H1, H2, H3 whose minimum sizes do not
    increase from one to the next. *)
Definition ordered_clusters (clusters : list Cluster) : Prop :=
  match clusters with
  | [c1; c2; c3] =>
      c_level c1 = H1 /\ c_level c2 = H2 /\ c_level c3 = H3
      /\ (min_size c3 <= min_size c2)%Q /\ (min_size c2 <= min_size c1)%Q
      /\ (0 < min_size c3)%Q
  | _ => False
  end.

(** Two headings that agree in everything but, possibly, the level. *)
Definition same_but_level (a b : Heading) : Prop :=
  h_text a = h_text b /\ h_page a = h_page b /\ h_font_size a = h_font_size b
  /\ h_font a = h_font b /\ h_confidence a = h_confidence b
  /\ h_bbox a = h_bbox b.

(** The level of [b] is the one of [a], or a shallower one that is H2
    or deeper. *)
Definition level_kept_or_raised (a b : Heading) : Prop :=
  h_level b = h_level a
  \/ (2 <= level_num (h_level b) /\ level_num (h_level b) < level_num (h_level a))%nat.

(** No two whitespace characters in a row. *)
Fixpoint single_spaced (l : list ascii) : Prop :=
  match l with
  | a :: (b :: _) as rest =>
      ~ (PyStr.isspace_c a = true /\ PyStr.isspace_c b = true) /\ single_spaced rest
  | _ => True
  end.

Definition all_space (l : list ascii) : Prop :=
  Forall (fun c => PyStr.isspace_c c = true) l.

End Ranges.


(** ** processor.py: the batch loop and the reports *)

Module Batch.
Import PyStr PyNum Extractor Processor.
Local Open Scope Q_scope.


(** What [get_processing_stats] adds to a copy of the counters; an entry
    that the dictionary lacks is [None].  The time entries are left
    out. *)
Record StatsReport : Type := mkStatsReport {
  counters : ProcessingStats;
  success_rate : option Q;
  avg_headings_per_file : option Q
}.

Definition get_processing_stats (stats : ProcessingStats) : StatsReport :=
  if (0 <? total_files stats)%nat then
    mkStatsReport stats
      (Some (of_nat (successful_extractions stats) / of_nat (total_files stats) * 100))
      (Some (if (0 <? successful_extractions stats)%nat
             then of_nat (total_headings stats) / of_nat (successful_extractions stats)
             else 0))
  else mkStatsReport stats None None.


(** [result.get("cached", False)] *)
Definition was_cached (result : Result) : bool :=
  match cached result with Some b => b | None => false end.



Section Sequential.
Variable nfkc : string -> string.
Variable extractor : PDFOutlineExtractor.
Variable world : string -> PdfFile.


End Sequential.

Section Advanced.
Variable nfkc : string -> string.
Variable world : string -> PdfFile.

End Advanced.

(** The summary of [create_summary_report]; of the per-file listing the
    entry on metadata is left out, as results carry none here. *)
Inductive FileAnalysis : Type :=
| analysed (name : string) (file_title : string) (heading_count : nat)
    (from_cache : bool)
| not_analysed (name : string) (error_text : string).

Record Summary : Type := mkSummary {
  sm_total_files : nat;
  sm_successful_extractions : nat;
  sm_failed_extractions : nat;
  sm_cached_results : nat;
  sm_total_headings : nat;
  sm_files_with_no_headings : nat;
  sm_files_with_many_headings : nat;
  sm_avg_headings_per_file : Q;
  sm_success_rate : Q;
  sm_file_analysis : list FileAnalysis;
  sm_common_errors : list (string * nat)
}.

Definition is_success (r : Result) : bool :=
  match status r with success => true | error => false end.
Definition is_error (r : Result) : bool :=
  match status r with success => false | error => true end.

(** [sum(1 for r in results if test(r))] *)
Definition count_if (test : Result -> bool) (results : list Result) : nat :=
  List.length (filter test results).

(** [error.split(":")[0] if ":" in error else error] *)
Definition error_type_of (error_text : string) : string :=
  if contains ":" error_text then split_first ":" error_text else error_text.

(** [create_summary_report]; a failure to write the report is logged and
    the summary returned all the same. *)
Definition create_summary_report (results : list Result) : Summary :=
  let total_files := List.length results in
  let successful_extractions := count_if is_success results in
  let failed_extractions := count_if is_error results in
  let cached_results := count_if was_cached results in
  let total_headings :=
    fold_left Nat.add
      (map (fun r => List.length (outline r)) (filter is_success results)) 0%nat in
  let files_with_no_headings :=
    count_if (fun r => is_success r && (List.length (outline r) =? 0)%nat) results in
  let files_with_many_headings :=
    count_if (fun r => is_success r && (10 <? List.length (outline r))%nat) results in
  let avg_headings_per_file :=
    if (0 <? successful_extractions)%nat
    then of_nat total_headings / of_nat successful_extractions else 0 in
  let success_rate :=
    if (0 <? total_files)%nat
    then of_nat successful_extractions / of_nat total_files * 100 else 0 in
  let file_analysis :=
    map (fun result =>
           match status result with
           | success =>
               analysed (filename result) (title result)
                 (List.length (outline result)) (was_cached result)
           | error =>
               not_analysed (filename result)
                 (match error_message result with
                  | Some e => e
                  | None => "Unknown error"
                  end)
           end) results in
  let errors :=
    map (fun r => match error_message r with Some e => e | None => "" end)
      (filter is_error results) in
  let error_types :=
    fold_left (fun d error_text => incr (error_type_of error_text) d) errors [] in
  mkSummary total_files successful_extractions failed_extractions cached_results
    total_headings files_with_no_headings files_with_many_headings
    avg_headings_per_file success_rate file_analysis error_types.

Section BatchInput.
(** What the file system answers for a path: [None] where nothing
    exists, the size in bytes otherwise. *)
Variable stat : string -> option nat.

Definition validate_batch_input (pdf_paths : list string)
    : list string * list string :=
  fold_left
    (fun (acc : list string * list string) pdf_path =>
       let '(valid_paths, invalid_paths) := acc in
       match stat pdf_path with
       | None =>
           (valid_paths,
            invalid_paths ++ [String.append pdf_path ": File does not exist"])
       | Some size =>
           if negb (endswith (lower pdf_path) ".pdf") then
             (valid_paths,
              invalid_paths ++ [String.append pdf_path ": Not a PDF file"])
           else if (size =? 0)%nat then
             (valid_paths, invalid_paths ++ [String.append pdf_path ": Empty file"])
           else (valid_paths ++ [pdf_path], invalid_paths)
       end)
    pdf_paths ([], []).
End BatchInput.

(** The counters grow together: after one call of [process_single_pdf]
    at most one file more was counted, at most that many successes more,
    and at least that many successes and failures together. *)
Definition counters_step (stats stats' : ProcessingStats) : Prop :=
  (total_files stats <= total_files stats' <= S (total_files stats))%nat
  /\ (successful_extractions stats <= successful_extractions stats')%nat
  /\ (failed_extractions stats <= failed_extractions stats')%nat
  /\ (successful_extractions stats' + total_files stats
      <= successful_extractions stats + total_files stats')%nat
  /\ (total_files stats' + successful_extractions stats + failed_extractions stats
      <= total_files stats + successful_extractions stats'
         + failed_extractions stats')%nat.


(** The sum of the counts of a counting dictionary. *)
Definition total_count (d : list (string * nat)) : nat :=
  fold_left Nat.add (map snd d) 0%nat.

(** A path that [validate_batch_input] accepts. *)
Definition acceptable (stat : string -> option nat) (pdf_path : string) : bool :=
  match stat pdf_path with
  | None => false
  | Some size => endswith (lower pdf_path) ".pdf" && negb (size =? 0)%nat
  end.

End Batch.

(** * Properties *)

Import PyStr PyNum PyList Re Analysis TextExtraction Extractor Inputs.
Local Open Scope Q_scope.

(** ** The noise classifier *)

(** C9: the verdict of the noise classifier does not depend on the font
    size or on the font statistics; it is a function of the text and of
    the noise patterns alone. *)
Theorem noise_verdict_ignores_font :
  forall (txt : string) (noise_patterns : list string)
         (font_size font_size' : Q) (font_stats font_stats' : FontStats),
    is_noise_with_confidence txt font_size font_stats noise_patterns
    = is_noise_with_confidence txt font_size' font_stats' noise_patterns.
Proof. intros. reflexivity. Qed.

(** C6: the text www.example.com is noise, whatever the font size, the
    font statistics and the configured noise patterns. *)
Theorem www_example_com_is_noise :
  forall (font_size : Q) (font_stats : FontStats) (noise_patterns : list string),
    is_noise_with_confidence "www.example.com" font_size font_stats noise_patterns
    = true.
Proof.
  intros font_size font_stats noise_patterns.
  unfold is_noise_with_confidence.
  replace (strip "www.example.com") with "www.example.com" by (vm_compute; reflexivity).
  destruct (mem "www.example.com" noise_patterns); [reflexivity|].
  vm_compute. reflexivity.
Qed.

(** ** The title selector *)

(** C10: when no block lies on page 0, the title is the literal text
    Untitled, which is not the empty text. *)
Theorem extract_title_untitled :
  forall (self : PDFOutlineExtractor) (blocks : list Block) (font_stats : FontStats),
    (forall b, In b blocks -> page b <> 0%nat) ->
    extract_title self blocks font_stats = "Untitled"
    /\ extract_title self blocks font_stats <> "".
Proof.
  intros self blocks font_stats Hpage.
  assert (Hnone : first_page_blocks_of blocks = []).
  { unfold first_page_blocks_of.
    induction blocks as [|b bs IH]; [reflexivity|].
    simpl. destruct (Nat.eqb_spec (page b) 0) as [E|_].
    - exfalso. apply (Hpage b); [left; reflexivity | exact E].
    - apply IH. intros b' Hin. apply Hpage. right. exact Hin. }
  unfold extract_title. rewrite Hnone. split; [reflexivity | discriminate].
Qed.

Lemma extract_title_untitled_witness :
  extract_title default_extractor [second_page_block] default_font_stats = "Untitled"
  /\ extract_title default_extractor [second_page_block] default_font_stats <> "".
Proof.
  apply (extract_title_untitled default_extractor [second_page_block] default_font_stats).
  intros b [E | []]. subst b. simpl. discriminate.
Defined.

(** ** The confidence scorer *)



(** ** The font statistics *)

Lemma Qleb_le (a b : Q) : Qleb a b = true <-> a <= b.
Proof. unfold Qleb. apply Qle_bool_iff. Qed.

Lemma Qltb_lt (a b : Q) : Qltb a b = true <-> a < b.
Proof.
  unfold Qltb. split; intro Hab.
  - apply negb_true_iff in Hab.
    destruct (Qlt_le_dec a b) as [L|L]; [exact L|].
    apply Qle_bool_iff in L. rewrite L in Hab. discriminate.
  - apply negb_true_iff. apply not_true_is_false. intro L.
    apply Qle_bool_iff in L. exact (Qlt_not_le _ _ Hab L).
Qed.

Lemma Qltb_ge (a b : Q) : Qltb a b = false <-> b <= a.
Proof.
  unfold Qltb. rewrite negb_false_iff. apply Qle_bool_iff.
Qed.

Lemma py_max_l (a b : Q) : a <= py_max a b.
Proof.
  unfold py_max. destruct (Qltb a b) eqn:E.
  - apply Qltb_lt in E. apply Qlt_le_weak. exact E.
  - apply Qle_refl.
Qed.

Lemma py_max_r (a b : Q) : b <= py_max a b.
Proof.
  unfold py_max. destruct (Qltb a b) eqn:E.
  - apply Qle_refl.
  - apply Qltb_ge in E. exact E.
Qed.

Lemma py_max_lub (a b c : Q) : a <= c -> b <= c -> py_max a b <= c.
Proof. intros Ha Hb. unfold py_max. destruct (Qltb a b); assumption. Qed.

Lemma py_max_mono (a b a' b' : Q) :
  a <= a' -> b <= b' -> py_max a b <= py_max a' b'.
Proof.
  intros Ha Hb. apply py_max_lub.
  - apply Qle_trans with a'; [exact Ha | apply py_max_l].
  - apply Qle_trans with b'; [exact Hb | apply py_max_r].
Qed.

(** [sorted] returns a sorted list with the same elements. *)

Lemma insert_q_sorted (x : Q) (l : list Q) :
  StronglySorted Qle l -> StronglySorted Qle (insert_q x l).
Proof.
  induction l as [|y l IH]; intro Hs; simpl.
  - constructor; constructor.
  - inversion Hs as [|? ? Hl Hy]; subst.
    destruct (Qleb x y) eqn:E.
    + apply Qleb_le in E. constructor; [exact Hs|].
      constructor; [exact E|].
      apply Forall_impl with (P := Qle y); [|exact Hy].
      intros z Hz. apply Qle_trans with y; assumption.
    + assert (Hyx : y <= x).
      { destruct (Qlt_le_dec y x) as [L|L]; [apply Qlt_le_weak; exact L|].
        apply Qleb_le in L. rewrite L in E. discriminate. }
      constructor; [apply IH; exact Hl|].
      clear IH Hs Hl E.
      induction l as [|z l IHl]; simpl.
      * constructor; [exact Hyx | constructor].
      * inversion Hy; subst.
        destruct (Qleb x z); constructor; auto.
Qed.

Lemma sorted_q_sorted (l : list Q) : StronglySorted Qle (sorted_q l).
Proof.
  induction l as [|x l IH]; simpl; [constructor|].
  apply insert_q_sorted. exact IH.
Qed.

Lemma insert_q_Forall (P : Q -> Prop) (x : Q) (l : list Q) :
  P x -> Forall P l -> Forall P (insert_q x l).
Proof.
  intros Hx. induction l as [|y l IH]; intro Hl; simpl.
  - constructor; [exact Hx | constructor].
  - inversion Hl; subst. destruct (Qleb x y); constructor; auto.
Qed.

Lemma sorted_q_Forall (P : Q -> Prop) (l : list Q) :
  Forall P l -> Forall P (sorted_q l).
Proof.
  induction 1 as [|x l Hx Hl IH]; simpl; [constructor|].
  apply insert_q_Forall; assumption.
Qed.

Lemma insert_q_length (x : Q) (l : list Q) :
  List.length (insert_q x l) = S (List.length l).
Proof.
  induction l as [|y l IH]; simpl; [reflexivity|].
  destruct (Qleb x y); simpl; [reflexivity | rewrite IH; reflexivity].
Qed.

Lemma sorted_q_length (l : list Q) : List.length (sorted_q l) = List.length l.
Proof.
  induction l as [|x l IH]; simpl; [reflexivity|].
  rewrite insert_q_length, IH. reflexivity.
Qed.

Lemma sorted_nth_le (s : list Q) :
  StronglySorted Qle s ->
  forall i j, (i <= j)%nat -> (j < List.length s)%nat -> nth_q s i <= nth_q s j.
Proof.
  unfold nth_q. induction 1 as [|x s Hs IH Hx]; intros i j Hij Hj.
  - simpl in Hj. lia.
  - destruct i as [|i], j as [|j]; simpl in *.
    + apply Qle_refl.
    + rewrite Forall_forall in Hx. apply Hx. apply nth_In. lia.
    + lia.
    + apply IH; lia.
Qed.

Lemma Forall_nth_q (P : Q -> Prop) (s : list Q) (i : nat) :
  Forall P s -> (i < List.length s)%nat -> P (nth_q s i).
Proof.
  intros Hall Hi. rewrite Forall_forall in Hall. apply Hall.
  unfold nth_q. apply nth_In. exact Hi.
Qed.


Lemma interp_bounds (a b gamma : Q) :
  a <= b -> 0 <= gamma -> gamma <= 1 ->
  a <= a + (b - a) * gamma /\ a + (b - a) * gamma <= b.
Proof. intros Hab H0 H1. split; nra. Qed.

Lemma interp_mono (a b g1 g2 : Q) :
  a <= b -> g1 <= g2 -> a + (b - a) * g1 <= a + (b - a) * g2.
Proof. intros Hab Hg. nra. Qed.

Lemma of_nat_floor (x : Q) :
  0 <= x -> of_nat (Z.to_nat (Qfloor x)) = inject_Z (Qfloor x).
Proof.
  intro Hx. unfold of_nat. rewrite Z2Nat.id; [reflexivity|].
  change 0%Z with (Qfloor 0). apply Qfloor_resp_le. exact Hx.
Qed.

Lemma floor_to_nat_le (x : Q) (m : nat) :
  0 <= x -> x <= of_nat m -> (Z.to_nat (Qfloor x) <= m)%nat.
Proof.
  intros H0 Hm.
  assert (Hf : (Qfloor x <= Z.of_nat m)%Z).
  { rewrite <- (Qfloor_Z (Z.of_nat m)). apply Qfloor_resp_le. exact Hm. }
  lia.
Qed.

Lemma floor_to_nat_mono (x y : Q) :
  x <= y -> (Z.to_nat (Qfloor x) <= Z.to_nat (Qfloor y))%nat.
Proof.
  intro Hxy. pose proof (Qfloor_resp_le x y Hxy). lia.
Qed.

Lemma of_nat_nonneg (n : nat) : 0 <= of_nat n.
Proof.
  unfold of_nat. change 0 with (inject_Z 0). rewrite <- Zle_Qle. lia.
Qed.

Lemma of_nat_S (n : nat) : of_nat (S n) == of_nat n + 1.
Proof.
  unfold of_nat. rewrite Nat2Z.inj_succ. unfold Z.succ.
  rewrite inject_Z_plus. reflexivity.
Qed.

(** The interpolated percentile lies between its two neighbours. *)
Lemma np_percentile_between (s : list Q) (q : Q) :
  StronglySorted Qle s -> s <> [] -> 0 <= q -> q <= 100 ->
  let pos := (q / 100) * of_nat (List.length s - 1) in
  let lo := Z.to_nat (Qfloor pos) in
  let hi := Nat.min (lo + 1) (List.length s - 1) in
  (lo <= List.length s - 1)%nat
  /\ nth_q s lo <= np_percentile s q
  /\ np_percentile s q <= nth_q s hi.
Proof.
  intros Hs Hne H0 H100 pos lo hi.
  assert (Hlen : (0 < List.length s)%nat) by (destruct s; [congruence | simpl; lia]).
  assert (HM := of_nat_nonneg (List.length s - 1)).
  assert (Hr0 : 0 <= q / 100) by (apply Qle_shift_div_l; [reflexivity | lra]).
  assert (Hr1 : q / 100 <= 1) by (apply Qle_shift_div_r; [reflexivity | lra]).
  assert (Hpos0 : 0 <= pos) by (unfold pos; nra).
  assert (HposM : pos <= of_nat (List.length s - 1)) by (unfold pos; nra).
  assert (Hlo : (lo <= List.length s - 1)%nat)
    by (apply floor_to_nat_le; assumption).
  assert (Hg0 : 0 <= pos - of_nat lo).
  { unfold lo. rewrite of_nat_floor by exact Hpos0.
    pose proof (Qfloor_le pos). lra. }
  assert (Hg1 : pos - of_nat lo <= 1).
  { unfold lo. rewrite of_nat_floor by exact Hpos0.
    pose proof (Qlt_floor pos) as L. rewrite inject_Z_plus in L.
    change (inject_Z 1) with 1 in L. lra. }
  assert (Hord : nth_q s lo <= nth_q s hi).
  { apply sorted_nth_le; [exact Hs| |]; unfold hi; lia. }
  split; [exact Hlo|].
  unfold np_percentile. fold pos. fold lo. fold hi.
  apply interp_bounds; assumption.
Qed.

(** [np.percentile] is monotone in the percentage. *)
Lemma np_percentile_mono (s : list Q) (q1 q2 : Q) :
  StronglySorted Qle s -> s <> [] -> 0 <= q1 -> q1 <= q2 -> q2 <= 100 ->
  np_percentile s q1 <= np_percentile s q2.
Proof.
  intros Hs Hne H0 H12 H100.
  assert (Hlen : (0 < List.length s)%nat) by (destruct s; [congruence | simpl; lia]).
  assert (Hq1 : q1 <= 100) by lra.
  assert (Hq2 : 0 <= q2) by lra.
  destruct (np_percentile_between s q1 Hs Hne H0 Hq1) as [Hlo1 [_ Hup1]].
  destruct (np_percentile_between s q2 Hs Hne Hq2 H100) as [Hlo2 [Hdn2 _]].
  assert (HM := of_nat_nonneg (List.length s - 1)).
  set (pos1 := (q1 / 100) * of_nat (List.length s - 1)) in *.
  set (pos2 := (q2 / 100) * of_nat (List.length s - 1)) in *.
  assert (Hr : q1 / 100 <= q2 / 100)
    by (unfold Qdiv; apply Qmult_le_compat_r; [exact H12 | discriminate]).
  assert (Hpos : pos1 <= pos2) by (unfold pos1, pos2; nra).
  assert (Hlo : (Z.to_nat (Qfloor pos1) <= Z.to_nat (Qfloor pos2))%nat)
    by (apply floor_to_nat_mono; exact Hpos).
  destruct (Nat.eq_dec (Z.to_nat (Qfloor pos1)) (Z.to_nat (Qfloor pos2))) as [E|NE].
  - unfold np_percentile. fold pos1. fold pos2. rewrite <- E.
    set (lo := Z.to_nat (Qfloor pos1)) in *.
    set (hi := Nat.min (lo + 1) (List.length s - 1)) in *.
    assert (Hord : nth_q s lo <= nth_q s hi).
    { apply sorted_nth_le; [exact Hs| |]; unfold hi; lia. }
    apply interp_mono; [exact Hord|].
    unfold Qminus. apply Qplus_le_compat; [exact Hpos | apply Qle_refl].
  - apply Qle_trans with
      (nth_q s (Nat.min (Z.to_nat (Qfloor pos1) + 1) (List.length s - 1)));
      [exact Hup1|].
    apply Qle_trans with (nth_q s (Z.to_nat (Qfloor pos2))); [|exact Hdn2].
    apply sorted_nth_le; [exact Hs| |]; lia.
Qed.

(** The median of positive sizes is positive. *)
Lemma np_median_pos (l : list Q) :
  l <> [] -> Forall (fun x => 0 < x) l -> 0 < np_median l.
Proof.
  intros Hne Hall.
  assert (Hlen : (0 < List.length (sorted_q l))%nat).
  { rewrite sorted_q_length. destruct l; [congruence | simpl; lia]. }
  assert (Hs := sorted_q_Forall _ _ Hall).
  unfold np_median.
  set (s := sorted_q l) in *. set (n := List.length s) in *.
  assert (Hdiv : (n / 2 < n)%nat) by (apply Nat.div_lt; lia).
  destruct (Nat.even n).
  - assert (A : 0 < nth_q s (n / 2 - 1)) by (apply (Forall_nth_q _ _ _ Hs); lia).
    assert (B : 0 < nth_q s (n / 2)) by (apply (Forall_nth_q _ _ _ Hs); lia).
    apply Qlt_shift_div_l; [reflexivity | lra].
  - apply (Forall_nth_q _ _ _ Hs). lia.
Qed.

(** C2, as stated, fails: three blocks of size 10 and one of size 48 have
    median 10 and mean 19.5, so h1 = 15 and h2 = 13 while
    h3 = 19.5 * 0.85 = 16.575. *)
Lemma thresholds_not_ordered :
  ~ thresholds_ordered (heading_thresholds (analyze_font_statistics body_and_banner)).
Proof.
  unfold thresholds_ordered. intros [_ H32].
  vm_compute in H32. apply H32. reflexivity.
Qed.

Lemma adaptive_thresholds_ordered (font_sizes s : list Q) (med lo hi : Q) :
  StronglySorted Qle s -> s <> [] -> 0 < med ->
  let '(t1, t2, _) :=
    adaptive_thresholds font_sizes (map (np_percentile s) [25; 50; 75; 90; 95])
      med lo hi in
  t2 <= t1.
Proof.
  intros Hs Hne Hmed. unfold adaptive_thresholds.
  change (nth_q (map (np_percentile s) [25; 50; 75; 90; 95]) 4)
    with (np_percentile s 95).
  change (nth_q (map (np_percentile s) [25; 50; 75; 90; 95]) 3)
    with (np_percentile s 90).
  change (nth_q (map (np_percentile s) [25; 50; 75; 90; 95]) 2)
    with (np_percentile s 75).
  change (nth_q (map (np_percentile s) [25; 50; 75; 90; 95]) 1)
    with (np_percentile s 50).
  assert (P1 : np_percentile s 50 <= np_percentile s 75)
    by (apply np_percentile_mono; [assumption | assumption | | |]; discriminate).
  assert (P2 : np_percentile s 75 <= np_percentile s 90)
    by (apply np_percentile_mono; [assumption | assumption | | |]; discriminate).
  assert (P3 : np_percentile s 90 <= np_percentile s 95)
    by (apply np_percentile_mono; [assumption | assumption | | |]; discriminate).
  destruct (_ && _); [|destruct (_ && _)];
    (apply py_max_mono; [assumption | lra]).
Qed.

(** C2, amended: h1 is never below h2.  Without any positive size the
    thresholds are the constants 16, 14 and 12; otherwise h3 is the floor
    computed from the mean, which is at least 7.5 whatever h1 and h2
    are. *)
Theorem heading_thresholds_shape :
  forall blocks : list Block,
    let font_stats := analyze_font_statistics blocks in
    let th := heading_thresholds font_stats in
    h2 th <= h1 th
    /\ (existsb (fun b => Qltb 0 (font_size b)) blocks = false ->
        th = mkThresholds 16 14 12)
    /\ (existsb (fun b => Qltb 0 (font_size b)) blocks = true ->
        h3 th = h3_floor (mean font_stats) /\ 7.5 <= h3 th).
Proof.
  intros blocks font_stats th. subst th font_stats.
  unfold analyze_font_statistics.
  assert (Hall : Forall (fun x => 0 < x)
                   (filter (fun sz => Qltb 0 sz) (map font_size blocks))).
  { apply Forall_forall. intros x Hx. apply filter_In in Hx.
    apply Qltb_lt. apply Hx. }
  assert (Hex : existsb (fun b => Qltb 0 (font_size b)) blocks
                = negb (match filter (fun sz => Qltb 0 sz) (map font_size blocks)
                        with [] => true | _ => false end)).
  { clear Hall. induction blocks as [|b bs IH]; [reflexivity|].
    simpl. destruct (Qltb 0 (font_size b)); [reflexivity | exact IH]. }
  destruct (filter (fun sz => Qltb 0 sz) (map font_size blocks)) as [|x l] eqn:E.
  - simpl. split; [discriminate|]. split; [reflexivity|].
    rewrite Hex. discriminate.
  - set (sizes := x :: l) in *.
    assert (Hne : sizes <> []) by discriminate.
    assert (Hmed : 0 < np_median sizes) by (apply np_median_pos; assumption).
    split; [|split].
    + cbn [heading_thresholds]. unfold make_heading_thresholds, make_size_clusters.
      destruct (3 <? distinct_q sizes)%nat.
      * pose proof (adaptive_thresholds_ordered sizes (sorted_q sizes)
                      (np_median sizes) (np_min sizes) (np_max sizes)
                      (sorted_q_sorted sizes)) as Had.
        destruct (adaptive_thresholds _ _ _ _ _) as [[t1 t2] t3].
        cbn [h1 h2 min_size]. apply Had; [|exact Hmed].
        intro Hnil. apply (f_equal (@List.length Q)) in Hnil.
        rewrite sorted_q_length in Hnil. discriminate.
      * cbn [h1 h2 min_size]. lra.
    + rewrite Hex. discriminate.
    + intros _. cbn [heading_thresholds mean]. unfold make_heading_thresholds.
      cbn [h3]. split; [reflexivity|].
      unfold h3_floor. destruct (Qltb 12 (np_mean sizes)).
      * apply Qle_trans with 8.0; [discriminate | apply py_max_r].
      * apply py_max_r.
Qed.

Lemma heading_thresholds_shape_witness :
  let th := heading_thresholds (analyze_font_statistics body_and_banner) in
  h2 th <= h1 th /\ h3 th = h3_floor (mean (analyze_font_statistics body_and_banner))
  /\ 7.5 <= h3 th.
Proof.
  destruct (heading_thresholds_shape body_and_banner) as [A [_ C]].
  split; [exact A | apply C; reflexivity].
Defined.

(** ** The span consolidator *)

(** How a merged span is built from its group: the size is the mean of
    the members, the box takes its left edge, its top and its bottom
    from the first member and its right edge from the last one. *)
Lemma consolidated_span_fields (first_span : Span) (group : list Span) :
  let c := consolidated_span first_span group in
  s_size c = mean_size group
  /\ x0 (s_bbox c) = x0 (s_bbox first_span)
  /\ y0 (s_bbox c) = y0 (s_bbox first_span)
  /\ x1 (s_bbox c) = x1 (s_bbox (last group first_span))
  /\ y1 (s_bbox c) = y1 (s_bbox first_span).
Proof. repeat split. Qed.

(** C7, on two spans of one line where the second is taller: they are
    merged, the merged size is the mean 11 of the sizes 10 and 12, but
    the merged box ends at the bottom 20 of the first span, while the
    union of the two boxes ends at 23. *)
Theorem consolidated_bbox_misses_union :
  let merged := consolidated_span span_hello [span_hello; span_world] in
  consolidate_adjacent_spans [span_world; span_hello] = [merged]
  /\ s_text merged = "Hello World"
  /\ s_size merged = mean_size [span_hello; span_world]
  /\ s_size merged == 11
  /\ s_bbox merged = mkBBox 0 10 100 20
  /\ bbox_union span_hello [span_world] = mkBBox 0 10 100 23
  /\ ~ y1 (s_bbox merged) == y1 (bbox_union span_hello [span_world]).
Proof.
  cbv zeta.
  split; [vm_compute; reflexivity|].
  split; [vm_compute; reflexivity|].
  split; [reflexivity|].
  split; [vm_compute; reflexivity|].
  split; [vm_compute; reflexivity|].
  split; [vm_compute; reflexivity|].
  vm_compute. discriminate.
Qed.

(** When the right span of a line starts a point higher it sorts first:
    the merged box then runs from x0 = 55 to x1 = 50, neither the
    leftmost nor the rightmost edge of the group. *)
Lemma consolidated_bbox_inverted :
  let merged := consolidated_span span_right [span_right; span_left] in
  consolidate_adjacent_spans [span_left; span_right] = [merged]
  /\ s_bbox merged = mkBBox 55 10 50 20
  /\ bbox_union span_right [span_left] = mkBBox 0 10 100 21.
Proof.
  cbv zeta.
  split; [vm_compute; reflexivity|].
  split; vm_compute; reflexivity.
Qed.

(** ** Hierarchy validation and deduplication *)

Lemma validate_from_steps_ok (outline : list Heading) :
  Forall (fun h => (1 <= level_num (h_level h))%nat) outline ->
  forall last_level : nat,
    (1 <= last_level)%nat ->
    level_steps_ok (last_level :: heading_levels (validate_from last_level outline))
    = true.
Proof.
  induction 1 as [|heading rest Hh Hrest IH]; intros last_level Hlast.
  - reflexivity.
  - cbn [validate_from].
    destruct ((last_level + 1 <? level_num (h_level heading))%nat
              && (0 <? last_level)%nat) eqn:E.
    + apply andb_true_iff in E. destruct E as [E _]. apply Nat.ltb_lt in E.
      replace (Nat.min (level_num (h_level heading)) (last_level + 1))
        with (last_level + 1)%nat by lia.
      specialize (IH (last_level + 1)%nat ltac:(lia)).
      unfold heading_levels in *. cbn [map set_level h_level level_num].
      cbn [level_steps_ok]. rewrite Nat.leb_refl. exact IH.
    + assert (Hle : (level_num (h_level heading) <= last_level + 1)%nat).
      { apply andb_false_iff in E. destruct E as [E|E].
        - apply Nat.ltb_ge in E. exact E.
        - apply Nat.ltb_ge in E. lia. }
      specialize (IH (level_num (h_level heading)) Hh).
      unfold heading_levels in *. cbn [map].
      cbn [level_steps_ok]. apply Nat.leb_le in Hle. rewrite Hle. exact IH.
Qed.

(** What [_validate_hierarchy] itself achieves: on headings of level H1
    or deeper its result is level-monotone. *)
Lemma validate_hierarchy_steps_ok (outline : list Heading) :
  Forall (fun h => (1 <= level_num (h_level h))%nat) outline ->
  level_steps_ok (heading_levels (_validate_hierarchy outline)) = true.
Proof.
  intro Hall. unfold _validate_hierarchy.
  destruct outline as [|h [|h' rest]]; try reflexivity.
  cbn [List.length Nat.leb]. 
  inversion Hall as [|? ? Hh Hrest]; subst.
  cbn [validate_from].
  replace ((0 + 1 <? level_num (h_level h))%nat && (0 <? 0)%nat) with false
    by (rewrite andb_false_r; reflexivity).
  pose proof (validate_from_steps_ok (h' :: rest) Hrest (level_num (h_level h)) Hh)
    as Hs.
  exact Hs.
Qed.

(** C3, on the two-page report: the pipeline returns three entries of
    levels 2, 1 and 3, so the last entry is two levels below the one
    before it. *)
Theorem final_outline_level_jump :
  let final :=
    [ mkEntry H2 "1.1 Budget Plan" 0;
      mkEntry H1 "1. General Terms" 0;
      mkEntry H3 "1.1.1 Cost Detail" 1 ] in
  fst (extract_outline ascii_nfkc default_extractor "report.pdf"
         (file_of_blocks budget_report) false None (mkStats 0 0 0 0))
  = inr (mkOutput "Annual Budget Report" final)
  /\ level_steps_ok (outline_levels final) = false.
Proof.
  cbv zeta. split; [vm_compute; reflexivity | reflexivity].
Qed.

(** C4, on the headings detected in the same report: a second run of the
    post-processing changes the result of the first, lowering the last
    entry from H3 to H2. *)
Theorem post_processing_not_idempotent :
  let font_stats := analyze_font_statistics budget_report in
  let once :=
    _post_process_headings budget_headings "Annual Budget Report" font_stats in
  let twice := _post_process_headings once "Annual Budget Report" font_stats in
  map h_level once = [H2; H1; H3]
  /\ map h_level twice = [H2; H1; H2]
  /\ twice <> once.
Proof.
  intros font_stats once twice.
  assert (L1 : map h_level once = [H2; H1; H3]) by (vm_compute; reflexivity).
  assert (L2 : map h_level twice = [H2; H1; H2]) by (vm_compute; reflexivity).
  clearbody twice once.
  split; [exact L1|]. split; [exact L2|].
  intro E. rewrite E, L1 in L2. discriminate.
Qed.

(** ** Post-processing a second time *)

Section StableSort.
Context {A : Type}.
Variable le : A -> A -> bool.
Hypothesis le_total : forall a b, le a b = true \/ le b a = true.
Hypothesis le_trans : forall a b c, le a b = true -> le b c = true -> le a c = true.

Let sorted := StronglySorted (fun a b => le a b = true).

Lemma insert_by_Forall (P : A -> Prop) (x : A) (l : list A) :
  P x -> Forall P l -> Forall P (insert_by le x l).
Proof.
  intros Hx Hl. induction Hl as [|y l Hy Hl IH]; simpl.
  - constructor; [exact Hx | constructor].
  - destruct (le x y); constructor; auto.
Qed.

Lemma insert_by_sorted (x : A) (l : list A) :
  sorted l -> sorted (insert_by le x l).
Proof.
  unfold sorted. induction 1 as [|y l Hl IH Hy]; simpl.
  - constructor; constructor.
  - destruct (le x y) eqn:E.
    + constructor; [constructor; assumption|].
      constructor; [exact E|].
      apply Forall_impl with (P := fun b => le y b = true); [|exact Hy].
      intros b Hb. apply le_trans with y; assumption.
    + constructor; [exact IH|].
      apply insert_by_Forall; [|exact Hy].
      destruct (le_total x y) as [L|L]; [congruence | exact L].
Qed.

Lemma sort_by_sorted (l : list A) : sorted (sort_by le l).
Proof.
  induction l as [|x l IH]; simpl; [constructor|].
  apply insert_by_sorted. exact IH.
Qed.

Lemma sort_by_Forall (P : A -> Prop) (l : list A) :
  Forall P l -> Forall P (sort_by le l).
Proof.
  induction 1 as [|x l Hx Hl IH]; simpl; [constructor|].
  apply insert_by_Forall; assumption.
Qed.

Lemma insert_by_perm (x : A) (l : list A) : Permutation (x :: l) (insert_by le x l).
Proof.
  induction l as [|y l IH]; simpl; [apply Permutation_refl|].
  destruct (le x y); [apply Permutation_refl|].
  apply perm_trans with (y :: x :: l); [apply perm_swap|].
  apply perm_skip. exact IH.
Qed.

Lemma sort_by_perm (l : list A) : Permutation l (sort_by le l).
Proof.
  induction l as [|x l IH]; simpl; [apply perm_nil|].
  apply perm_trans with (x :: sort_by le l); [apply perm_skip; exact IH|].
  apply insert_by_perm.
Qed.

(** Sorting a sorted list returns it. *)
Lemma sort_by_of_sorted (l : list A) : sorted l -> sort_by le l = l.
Proof.
  unfold sorted. induction 1 as [|x l Hl IH Hx]; simpl; [reflexivity|].
  rewrite IH. destruct l as [|y l']; [reflexivity|].
  simpl. inversion Hx as [|? ? Hxy _]; subst. rewrite Hxy. reflexivity.
Qed.

End StableSort.

Lemma position_le_total (a b : Heading) :
  position_le a b = true \/ position_le b a = true.
Proof.
  unfold position_le.
  destruct (Nat.ltb_spec (h_page a) (h_page b)) as [L|L]; [left; reflexivity|].
  destruct (Nat.ltb_spec (h_page b) (h_page a)) as [L'|L']; [right; reflexivity|].
  destruct (Qlt_le_dec (position_y b) (position_y a)) as [Q|Q].
  - right. apply Qleb_le. apply Qlt_le_weak. exact Q.
  - left. apply Qleb_le. exact Q.
Qed.

Lemma position_le_trans (a b c : Heading) :
  position_le a b = true -> position_le b c = true -> position_le a c = true.
Proof.
  unfold position_le.
  destruct (Nat.ltb_spec (h_page a) (h_page b)) as [L1|L1];
  destruct (Nat.ltb_spec (h_page b) (h_page c)) as [L2|L2];
  destruct (Nat.ltb_spec (h_page a) (h_page c)) as [L3|L3];
  try reflexivity; try lia;
  destruct (Nat.ltb_spec (h_page b) (h_page a)) as [L4|L4];
  destruct (Nat.ltb_spec (h_page c) (h_page b)) as [L5|L5];
  destruct (Nat.ltb_spec (h_page c) (h_page a)) as [L6|L6];
  try discriminate; try lia.
  intros H1 H2. apply Qleb_le in H1. apply Qleb_le in H2. apply Qleb_le.
  apply Qle_trans with (position_y b); assumption.
Qed.

(** [_validate_hierarchy] changes levels only. *)
Lemma validate_from_shape (outline : list Heading) :
  forall last_level,
    Forall2 (fun a b => h_text a = h_text b /\ h_page a = h_page b
                        /\ h_bbox a = h_bbox b)
      outline (validate_from last_level outline).
Proof.
  induction outline as [|h rest IH]; intro last_level; [constructor|].
  cbn [validate_from]. destruct (_ && _); constructor; auto.
Qed.

Lemma validate_hierarchy_shape (outline : list Heading) :
  Forall2 (fun a b => h_text a = h_text b /\ h_page a = h_page b
                      /\ h_bbox a = h_bbox b)
    outline (_validate_hierarchy outline).
Proof.
  unfold _validate_hierarchy. destruct (_ <=? _)%nat.
  - induction outline; constructor; auto.
  - apply validate_from_shape.
Qed.

Lemma shape_position_le (a a' b b' : Heading) :
  h_page a = h_page a' /\ h_bbox a = h_bbox a' ->
  h_page b = h_page b' /\ h_bbox b = h_bbox b' ->
  position_le a b = position_le a' b'.
Proof.
  intros [Pa Ba] [Pb Bb]. unfold position_le, position_y.
  rewrite Pa, Ba, Pb, Bb. reflexivity.
Qed.

Lemma shape_sorted (l l' : list Heading) :
  Forall2 (fun a b => h_text a = h_text b /\ h_page a = h_page b
                      /\ h_bbox a = h_bbox b) l l' ->
  position_sorted l -> position_sorted l'.
Proof.
  unfold position_sorted. induction 1 as [|a a' l l' Haa Hll IH]; intro Hs.
  - constructor.
  - inversion Hs as [|? ? Hl Ha]; subst. constructor; [apply IH; exact Hl|].
    clear IH Hs Hl. induction Hll as [|b b' l l' Hbb Hll IH]; [constructor|].
    inversion Ha; subst. constructor; [|apply IH; assumption].
    rewrite <- (shape_position_le a a' b b'); [assumption| |];
      [destruct Haa as [_ [? ?]] | destruct Hbb as [_ [? ?]]]; auto.
Qed.

Lemma shape_text_Forall (P : string -> Prop) (l l' : list Heading) :
  Forall2 (fun a b => h_text a = h_text b /\ h_page a = h_page b
                      /\ h_bbox a = h_bbox b) l l' ->
  Forall (fun h => P (h_text h)) l -> Forall (fun h => P (h_text h)) l'.
Proof.
  induction 1 as [|a a' l l' [Ht _] Hll IH]; intro Hall; [constructor|].
  inversion Hall; subst. constructor; [rewrite <- Ht; assumption | auto].
Qed.

(** A run of [validate_from] on a level-monotone list returns it. *)
Lemma validate_from_of_monotone (outline : list Heading) :
  forall last_level,
    level_steps_ok (last_level :: heading_levels outline) = true ->
    validate_from last_level outline = outline.
Proof.
  induction outline as [|h rest IH]; intros last_level Hok; [reflexivity|].
  unfold heading_levels in Hok. cbn [map level_steps_ok] in Hok.
  apply andb_true_iff in Hok. destruct Hok as [Hstep Hrest].
  apply Nat.leb_le in Hstep.
  cbn [validate_from].
  replace ((last_level + 1 <? level_num (h_level h))%nat) with false
    by (symmetry; apply Nat.ltb_ge; exact Hstep).
  cbn [andb]. f_equal. apply IH. exact Hrest.
Qed.

Lemma validate_hierarchy_of_monotone (outline : list Heading) :
  level_steps_ok (heading_levels outline) = true ->
  _validate_hierarchy outline = outline.
Proof.
  intro Hok. unfold _validate_hierarchy.
  destruct (_ <=? _)%nat; [reflexivity|].
  destruct outline as [|h rest]; [reflexivity|].
  cbn [validate_from]. rewrite andb_false_r.
  f_equal. apply validate_from_of_monotone. exact Hok.
Qed.

Lemma group_append_keys_in (k x : string) (h : Heading)
    (g : list (string * list Heading)) :
  In x (map fst (group_append k h g)) -> x = k \/ In x (map fst g).
Proof.
  induction g as [|[k' hs] rest IH]; simpl.
  - intros [E|[]]. left. symmetry. exact E.
  - destruct (String.eqb_spec k k') as [E|NE]; simpl.
    + intros [E'|Hin]; right; [left; exact E' | right; exact Hin].
    + intros [E'|Hin]; [right; left; exact E'|].
      destruct (IH Hin) as [E'|Hin']; [left; exact E' | right; right; exact Hin'].
Qed.

Lemma group_append_keys (k : string) (h : Heading)
    (g : list (string * list Heading)) :
  NoDup (map fst g) -> NoDup (map fst (group_append k h g)).
Proof.
  induction g as [|[k' hs] rest IH]; simpl; intro Hnd.
  - constructor; [intros [] | constructor].
  - inversion Hnd as [|? ? Hnotin Hrest]; subst.
    destruct (String.eqb_spec k k') as [E|NE]; simpl.
    + constructor; assumption.
    + constructor; [|apply IH; exact Hrest].
      intro Hin. destruct (group_append_keys_in _ _ _ _ Hin) as [E|Hin'].
      * apply NE. symmetry. exact E.
      * apply Hnotin. exact Hin'.
Qed.

Lemma group_append_well (Q : Heading -> Prop) (h : Heading)
    (g : list (string * list Heading)) :
  Q h -> well_grouped Q g -> well_grouped Q (group_append (group_key h) h g).
Proof.
  intros Hq. unfold well_grouped.
  induction 1 as [|[k' hs] rest [Hne Hall] Hrest IH]; simpl.
  - constructor; [|constructor]. simpl. split; [discriminate|].
    constructor; [split; [reflexivity | exact Hq] | constructor].
  - simpl in Hne, Hall.
    destruct (String.eqb_spec (group_key h) k') as [E|NE].
    + constructor; [|exact Hrest]. simpl. split.
      * destruct hs; discriminate.
      * apply Forall_app. split; [exact Hall|].
        constructor; [split; [exact E | exact Hq] | constructor].
    + constructor; [split; assumption | exact IH].
Qed.

Lemma groups_of_invariant (Q : Heading -> Prop) (outline : list Heading) :
  Forall Q outline ->
  NoDup (map fst (groups_of outline)) /\ well_grouped Q (groups_of outline).
Proof.
  unfold groups_of.
  assert (Hgen : forall l acc,
             Forall Q l -> NoDup (map fst acc) -> well_grouped Q acc ->
             NoDup (map fst (fold_left
                      (fun g heading => group_append (lower (h_text heading)) heading g)
                      l acc))
             /\ well_grouped Q (fold_left
                      (fun g heading => group_append (lower (h_text heading)) heading g)
                      l acc)).
  { induction l as [|h l IH]; intros acc Hall Hnd Hwell; [split; assumption|].
    inversion Hall; subst. cbn [fold_left]. apply IH.
    - assumption.
    - apply group_append_keys. exact Hnd.
    - apply (group_append_well Q h acc); assumption. }
  intro Hall. apply Hgen; [exact Hall | constructor | constructor].
Qed.

Lemma max_by_In {A : Type} (key : A -> Q) (others : list A) :
  forall first, In (max_by key first others) (first :: others).
Proof.
  unfold max_by. induction others as [|x others IH]; intro first.
  - left. reflexivity.
  - cbn [fold_left]. destruct (Qltb (key first) (key x)).
    + right. apply IH.
    + destruct (IH first) as [E|Hin]; [left; exact E | right; right; exact Hin].
Qed.

Lemma best_of_group_In (hs : list Heading) :
  hs <> [] -> exists b, best_of_group hs = [b] /\ In b hs.
Proof.
  destruct hs as [|h [|h' rest]]; intro Hne.
  - congruence.
  - exists h. split; [reflexivity | left; reflexivity].
  - exists (max_by confidence_of h (h' :: rest)). split; [reflexivity|].
    apply max_by_In.
Qed.

Lemma deduplicated_keys (Q : Heading -> Prop) (g : list (string * list Heading)) :
  well_grouped Q g ->
  map group_key (flat_map (fun kv => best_of_group (snd kv)) g) = map fst g
  /\ Forall Q (flat_map (fun kv => best_of_group (snd kv)) g).
Proof.
  unfold well_grouped. induction 1 as [|[k hs] rest [Hne Hall] Hrest [IHk IHq]].
  - split; [reflexivity | constructor].
  - simpl in Hne, Hall. cbn [flat_map snd].
    destruct (best_of_group_In hs Hne) as [b [Eb Hin]]. rewrite Eb.
    rewrite Forall_forall in Hall. destruct (Hall b Hin) as [Hk Hq].
    cbn [app map fst]. split.
    + rewrite Hk, IHk. reflexivity.
    + constructor; assumption.
Qed.

(** What one run of [_remove_duplicates] guarantees. *)
Lemma remove_duplicates_result (Q : Heading -> Prop) (outline : list Heading) :
  Forall Q outline ->
  position_sorted (_remove_duplicates outline)
  /\ NoDup (map group_key (_remove_duplicates outline))
  /\ Forall Q (_remove_duplicates outline).
Proof.
  intro Hall. destruct outline as [|h rest] eqn:E.
  - repeat split; constructor.
  - rewrite <- E in *. clear E.
    assert (Hdef : _remove_duplicates outline
                   = match outline with
                     | [] => outline
                     | _ :: _ =>
                         sort_by position_le
                           (flat_map (fun kv => best_of_group (snd kv))
                              (groups_of outline))
                     end) by reflexivity.
    destruct (groups_of_invariant Q outline Hall) as [Hnd Hwell].
    destruct (deduplicated_keys Q _ Hwell) as [Hkeys Hq].
    rewrite Hdef. destruct outline as [|h0 rest0]; [repeat split; constructor|].
    split; [|split].
    + apply sort_by_sorted; [apply position_le_total | apply position_le_trans].
    + apply Permutation_NoDup
        with (l := map group_key
                     (flat_map (fun kv => best_of_group (snd kv))
                        (groups_of (h0 :: rest0)))).
      * apply Permutation_map. apply sort_by_perm.
      * rewrite Hkeys. exact Hnd.
    + apply sort_by_Forall. exact Hq.
Qed.

Lemma group_append_fresh (k : string) (h : Heading)
    (g : list (string * list Heading)) :
  ~ In k (map fst g) -> group_append k h g = g ++ [(k, [h])].
Proof.
  induction g as [|[k' hs] rest IH]; simpl; intro Hfresh; [reflexivity|].
  destruct (String.eqb_spec k k') as [E|NE].
  - exfalso. apply Hfresh. left. symmetry. exact E.
  - rewrite IH; [reflexivity|]. intro Hin. apply Hfresh. right. exact Hin.
Qed.

Lemma groups_of_distinct (outline : list Heading) :
  NoDup (map group_key outline) ->
  groups_of outline = map (fun h => (group_key h, [h])) outline.
Proof.
  unfold groups_of.
  assert (Hgen : forall l acc,
             NoDup (map group_key (acc ++ l)) ->
             fold_left
               (fun g heading => group_append (lower (h_text heading)) heading g)
               l (map (fun h => (group_key h, [h])) acc)
             = map (fun h => (group_key h, [h])) (acc ++ l)).
  { induction l as [|h l IH]; intros acc Hnd.
    - rewrite app_nil_r. reflexivity.
    - cbn [fold_left]. fold (group_key h).
      rewrite group_append_fresh.
      + replace (map (fun h0 => (group_key h0, [h0])) acc ++ [(group_key h, [h])])
          with (map (fun h0 => (group_key h0, [h0])) (acc ++ [h]))
          by (rewrite map_app; reflexivity).
        rewrite IH; rewrite <- app_assoc; [reflexivity | exact Hnd].
      + rewrite map_map. cbn [fst].
        rewrite map_app in Hnd. cbn [map] in Hnd.
        apply NoDup_remove_2 in Hnd. intro Hin. apply Hnd.
        apply in_or_app. left. exact Hin. }
  intro Hnd. apply (Hgen outline []). exact Hnd.
Qed.

(** On a sorted list without duplicate texts [_remove_duplicates] is the
    identity. *)
Lemma remove_duplicates_of_distinct (outline : list Heading) :
  position_sorted outline -> NoDup (map group_key outline) ->
  _remove_duplicates outline = outline.
Proof.
  intros Hs Hnd. destruct outline as [|h rest]; [reflexivity|].
  set (l := h :: rest) in *.
  change (_remove_duplicates l)
    with (sort_by position_le
            (flat_map (fun kv => best_of_group (snd kv)) (groups_of l))).
  rewrite (groups_of_distinct l Hnd).
  assert (Hflat : flat_map (fun kv => best_of_group (snd kv))
                    (map (fun h0 => (group_key h0, [h0])) l) = l).
  { clear. induction l as [|h0 l IH]; [reflexivity|].
    cbn [map flat_map snd best_of_group app]. rewrite IH. reflexivity. }
  rewrite Hflat. apply sort_by_of_sorted. exact Hs.
Qed.

(** The post-processing stage is idempotent exactly where the defect of
    the deduplication order does not show: whenever the result of the
    first run is level-monotone, a second run returns it unchanged. *)
Theorem post_processing_idempotent_when_monotone :
  forall (outline : list Heading) (title : string) (font_stats : FontStats),
    let once := _post_process_headings outline title font_stats in
    level_steps_ok (heading_levels once) = true ->
    _post_process_headings once title font_stats = once.
Proof.
  intros outline title font_stats once Hmono.
  set (text_ok := fun t : string =>
         if negb (len (strip title) =? 0)%nat
         then text_differs_from_title (lower (strip title)) t = true
         else True).
  set (title_ok := fun h : Heading => text_ok (h_text h)).
  assert (Hfacts : position_sorted once
                   /\ NoDup (map group_key once) /\ Forall title_ok once).
  { subst once. unfold _post_process_headings.
    destruct outline as [|h rest]; [repeat split; constructor|].
    apply remove_duplicates_result.
    apply (shape_text_Forall text_ok _ _ (validate_hierarchy_shape _)).
    apply sort_by_Forall. unfold text_ok.
    destruct (negb (len (strip title) =? 0)%nat).
    - apply Forall_forall. intros x Hx. apply filter_In in Hx.
      destruct Hx as [_ Hx]. exact Hx.
    - apply Forall_forall. intros; exact I. }
  destruct Hfacts as [Hsorted [Hnd Hok]].
  clearbody once.
  destruct once as [|h rest]; [reflexivity|].
  set (l := h :: rest) in *.
  change (_post_process_headings l title font_stats)
    with (_remove_duplicates
            (_validate_hierarchy
               (sort_by position_le
                  (if negb (len (strip title) =? 0)%nat
                   then filter (differs_from_title (lower (strip title))) l
                   else l)))).
  clearbody l.
  assert (Hfilter : (if negb (len (strip title) =? 0)%nat
                     then filter (differs_from_title (lower (strip title))) l
                     else l) = l).
  { unfold title_ok, text_ok in Hok.
    destruct (negb (len (strip title) =? 0)%nat); [|reflexivity].
    clear - Hok. induction Hok as [|x l Hx Hl IH]; [reflexivity|].
    cbn [filter].
    change (differs_from_title (lower (strip title)) x)
      with (text_differs_from_title (lower (strip title)) (h_text x)).
    rewrite Hx, IH. reflexivity. }
  rewrite Hfilter.
  rewrite (sort_by_of_sorted position_le l Hsorted).
  rewrite (validate_hierarchy_of_monotone l Hmono).
  apply remove_duplicates_of_distinct; assumption.
Qed.

(** ** The document profiler and the pipeline *)

(** C1, as stated, fails in two ways.  The one-block application has the
    premise of scenario C but is classified simple, not form.  The
    six-block application form is classified form with strategy minimal,
    yet its final outline holds the two headings that were found. *)
Lemma scenario_C_fails :
  (scenario_C_applies short_application /\ ~ scenario_C_holds short_application)
  /\ (scenario_C_applies application_form /\ ~ scenario_C_holds application_form).
Proof.
  split; split.
  - split; vm_compute; [reflexivity | lia].
  - intros [Htype _]. vm_compute in Htype. discriminate.
  - split; vm_compute; [reflexivity | lia].
  - intros [_ [_ [title' Hout]]]. vm_compute in Hout. discriminate.
Qed.

Lemma form_premise_detected (self : PDFOutlineExtractor) (blocks : list Block)
    (title : string) :
  contains "application" (lower title) = true ->
  (4 <= count_in form_fields (corpus blocks))%nat ->
  is_form_document blocks title = true.
Proof.
  intros Htitle Hfields. unfold is_form_document, any_in, form_keywords.
  cbn [existsb]. rewrite Htitle. cbn [orb].
  fold (corpus blocks).
  apply Nat.leb_le in Hfields. rewrite Hfields. reflexivity.
Qed.

(** The metadata step on computed statistics: it fails exactly when no
    block has a positive size. *)
Lemma dominant_fonts_of_statistics (blocks : list Block) :
  dominant_fonts (analyze_font_statistics blocks)
  = if existsb (fun b => Qltb 0 (font_size b)) blocks
    then inr (firstn 3 (fold_left (fun d b => incr (font b) d) blocks []))
    else inl "'list' object has no attribute 'items'".
Proof.
  unfold analyze_font_statistics.
  assert (Hex : existsb (fun b => Qltb 0 (font_size b)) blocks
                = negb (match filter (fun sz => Qltb 0 sz) (map font_size blocks)
                        with [] => true | _ => false end)).
  { induction blocks as [|b bs IH]; [reflexivity|].
    simpl. destruct (Qltb 0 (font_size b)); [reflexivity | exact IH]. }
  rewrite Hex.
  destruct (filter (fun sz => Qltb 0 sz) (map font_size blocks)); reflexivity.
Qed.

(** C1, amended: a document whose title contains the word application
    and whose corpus holds at least four of the form-field words is a
    form document for [is_form_document].  The profiler gives it type
    form and strategy minimal when it is neither simple (under 400
    characters and under 6 blocks) nor complex (over 15000 characters or
    over 100 blocks), the two classes tested first.  Its final outline is
    the post-processed outline of the block-level detector, flattened:
    the strategy selector is not applied to form documents.  That outline
    is returned unless the metadata are asked for and no block has a
    positive font size: the metadata step then raises, the default
    statistics holding a list where it expects a dictionary. *)
Theorem form_document_outline :
  forall (nfkc : string -> string) (self : PDFOutlineExtractor)
         (pdf_path : string) (file : PdfFile) (include_metadata : bool)
         (stats : ProcessingStats) (blocks : list Block),
    validate_pdf pdf_path file = None ->
    f_blocks file = inr blocks ->
    let font_stats := analyze_font_statistics blocks in
    let title := extract_title self blocks font_stats in
    contains "application" (lower title) = true ->
    (4 <= count_in form_fields (corpus blocks))%nat ->
    is_form_document blocks title = true
    /\ (((400 <= total_chars_of blocks)%Z \/ (6 <= List.length blocks)%nat) ->
        (total_chars_of blocks <= 15000)%Z ->
        (List.length blocks <= 100)%nat ->
        type (_analyze_document_type blocks title) = form
        /\ recommended_strategy (_analyze_document_type blocks title) = minimal)
    /\ fst (extract_outline nfkc self pdf_path file include_metadata None stats)
       = if include_metadata
            && negb (existsb (fun b => Qltb 0 (font_size b)) blocks)
         then inl "'list' object has no attribute 'items'"
         else inr (mkOutput title
                     (build_flat_outline
                        (_post_process_headings
                           (_multi_pass_heading_detection nfkc self blocks
                              font_stats (f_page_width file))
                           title font_stats))).
Proof.
  intros nfkc self pdf_path file include_metadata stats blocks Hvalid Hblocks
         font_stats title Htitle Hfields.
  assert (Hform : is_form_document blocks title = true)
    by (apply (form_premise_detected self); assumption).
  split; [exact Hform|]. split.
  - intros Hsize Hchars Hcount. unfold _analyze_document_type.
    assert (Hsimple : (total_chars_of blocks <? 400)%Z
                      && (List.length blocks <? 6)%nat = false).
    { apply andb_false_iff. destruct Hsize as [Hs|Hs].
      - left. apply Z.ltb_ge. exact Hs.
      - right. apply Nat.ltb_ge. exact Hs. }
    assert (Hcomplex : (15000 <? total_chars_of blocks)%Z
                       || (100 <? List.length blocks)%nat = false).
    { apply orb_false_iff. split.
      - apply Z.ltb_ge. exact Hchars.
      - apply Nat.ltb_ge. exact Hcount. }
    rewrite Hsimple, Hcomplex, Hform. split; reflexivity.
  - unfold extract_outline. rewrite Hvalid.
    unfold outline_of_file. cbn [notify bind]. rewrite Hblocks. cbn [bind].
    fold font_stats. fold title. rewrite Hform.
    unfold with_metadata. destruct include_metadata; [|reflexivity].
    unfold font_stats at 1. rewrite dominant_fonts_of_statistics.
    destruct (existsb (fun b => Qltb 0 (font_size b)) blocks); reflexivity.
Qed.

Lemma form_document_outline_witness :
  scenario_C_applies application_form
  /\ fst (extract_outline ascii_nfkc default_extractor "form.pdf"
            (file_of_blocks application_form) false None (mkStats 0 0 0 0))
     = inr (mkOutput "Application for Leave Travel Advance"
              [ mkEntry H2 "Terms and Conditions" 0;
                mkEntry H3 "Basic salary" 0 ]).
Proof.
  assert (Hprem : scenario_C_applies application_form)
    by (split; vm_compute; [reflexivity | lia]).
  split; [exact Hprem|].
  destruct Hprem as [Htitle Hfields].
  destruct (form_document_outline ascii_nfkc default_extractor "form.pdf"
              (file_of_blocks application_form) false (mkStats 0 0 0 0)
              application_form eq_refl eq_refl Htitle Hfields)
    as [_ [_ Hout]].
  rewrite Hout. vm_compute. reflexivity.
Defined.

(** ** Batch processing *)

Import Processor.

(** The counters do not influence what [extract_outline] returns. *)
Lemma extract_outline_result_stats (nfkc : string -> string)
    (self : PDFOutlineExtractor) (pdf_path : string) (file : PdfFile)
    (include_metadata : bool) (cb : Callback) (stats stats' : ProcessingStats) :
  fst (extract_outline nfkc self pdf_path file include_metadata cb stats)
  = fst (extract_outline nfkc self pdf_path file include_metadata cb stats').
Proof.
  unfold extract_outline.
  destruct (validate_pdf pdf_path file); [reflexivity|].
  destruct (outline_of_file nfkc self file include_metadata cb); [reflexivity|].
  destruct (notify cb "Complete!"); reflexivity.
Qed.

(** Nor do they influence the result and the cache of
    [process_single_pdf]. *)
Lemma process_single_pdf_stats (nfkc : string -> string)
    (extractor : PDFOutlineExtractor) (pdf_path : string) (file : PdfFile)
    (cache : Cache) (include_metadata : bool) (cb : Callback)
    (stats stats' : ProcessingStats) :
  fst (process_single_pdf nfkc extractor pdf_path file cache include_metadata cb stats)
  = fst (process_single_pdf nfkc extractor pdf_path file cache include_metadata cb stats').
Proof.
  unfold process_single_pdf.
  destruct (_is_cached extractor pdf_path file cache); [reflexivity|].
  unfold process_uncached.
  destruct (notify cb _); [reflexivity|].
  pose proof (extract_outline_result_stats nfkc extractor pdf_path file
                include_metadata cb stats stats') as Hres.
  destruct (extract_outline nfkc extractor pdf_path file include_metadata cb stats)
    as [[e|r] st];
  destruct (extract_outline nfkc extractor pdf_path file include_metadata cb stats')
    as [[e'|r'] st']; simpl in Hres; try discriminate;
  inversion Hres; subst; reflexivity.
Qed.

Lemma process_sequential_stats (nfkc : string -> string)
    (extractor : PDFOutlineExtractor) (world : string -> PdfFile)
    (pdf_paths : list string) (include_metadata : bool) (cb : Callback) :
  forall (cache : Cache) (stats stats' : ProcessingStats),
    fst (process_sequential nfkc extractor world pdf_paths cache include_metadata
           cb stats)
    = fst (process_sequential nfkc extractor world pdf_paths cache include_metadata
             cb stats').
Proof.
  induction pdf_paths as [|p rest IH]; intros cache stats stats'; [reflexivity|].
  cbn [process_sequential].
  pose proof (process_single_pdf_stats nfkc extractor p (world p) cache
                include_metadata cb stats stats') as H1.
  destruct (process_single_pdf nfkc extractor p (world p) cache include_metadata
              cb stats) as [[r c] st].
  destruct (process_single_pdf nfkc extractor p (world p) cache include_metadata
              cb stats') as [[r' c'] st'].
  simpl in H1. inversion H1; subst r' c'.
  specialize (IH c st st').
  destruct (process_sequential nfkc extractor world rest c include_metadata cb st)
    as [[rs c1] st1].
  destruct (process_sequential nfkc extractor world rest c include_metadata cb st')
    as [[rs' c1'] st1'].
  simpl in IH. inversion IH; subst. reflexivity.
Qed.

(** Where everything that is raised is of class [Exception]: when the
    document is not served from the cache and [extract_outline] raises,
    the result is the structured error result -- status error, a
    message, empty title, empty outline -- and the cache is left as it
    was; in a sequential batch the results of the remaining documents,
    and the cache after them, are then the ones of a batch without the
    failed document. *)
Theorem process_single_pdf_isolates_failure :
  forall (nfkc : string -> string) (extractor : PDFOutlineExtractor)
         (world : string -> PdfFile) (pdf_path : string) (rest : list string)
         (cache : Cache) (include_metadata : bool) (cb : Callback)
         (stats : ProcessingStats) (e : Exn),
    _is_cached extractor pdf_path (world pdf_path) cache = None ->
    fst (extract_outline nfkc extractor pdf_path (world pdf_path)
           include_metadata cb stats) = inl e ->
    exists (msg : string) (stats' : ProcessingStats),
      process_single_pdf nfkc extractor pdf_path (world pdf_path) cache
        include_metadata cb stats
      = (error_result (basename pdf_path) msg, cache, stats')
      /\ status (error_result (basename pdf_path) msg) = error
      /\ title (error_result (basename pdf_path) msg) = ""
      /\ outline (error_result (basename pdf_path) msg) = []
      /\ fst (process_sequential nfkc extractor world (pdf_path :: rest) cache
                include_metadata cb stats)
         = (error_result (basename pdf_path) msg
              :: fst (fst (process_sequential nfkc extractor world rest cache
                             include_metadata cb stats)),
            snd (fst (process_sequential nfkc extractor world rest cache
                        include_metadata cb stats))).
Proof.
  intros nfkc extractor world pdf_path rest cache include_metadata cb stats e
         Hmiss Hfail.
  assert (Hone : exists msg stats',
             process_single_pdf nfkc extractor pdf_path (world pdf_path) cache
               include_metadata cb stats
             = (error_result (basename pdf_path) msg, cache, stats')).
  { unfold process_single_pdf. rewrite Hmiss. unfold process_uncached.
    destruct (notify cb _) as [e0|[]].
    - exists e0, stats. reflexivity.
    - destruct (extract_outline nfkc extractor pdf_path (world pdf_path)
                  include_metadata cb stats) as [[e1|r] st]; simpl in Hfail.
      + exists e1, st. reflexivity.
      + discriminate. }
  destruct Hone as [msg [stats' Hone]].
  exists msg, stats'. split; [exact Hone|].
  split; [reflexivity|]. split; [reflexivity|]. split; [reflexivity|].
  cbn [process_sequential]. rewrite Hone.
  rewrite (surjective_pairing
             (fst (process_sequential nfkc extractor world rest cache
                     include_metadata cb stats))).
  rewrite <- (process_sequential_stats nfkc extractor world rest include_metadata
                cb cache stats' stats).
  destruct (process_sequential nfkc extractor world rest cache include_metadata
              cb stats') as [[rs c] st]. reflexivity.
Qed.

Lemma process_single_pdf_isolates_failure_witness :
  exists (msg : string) (stats' : ProcessingStats),
    process_single_pdf ascii_nfkc default_extractor "missing.pdf" missing_file []
      false None (mkStats 0 0 0 0)
    = (error_result "missing.pdf" msg, [], stats').
Proof.
  destruct (process_single_pdf_isolates_failure ascii_nfkc default_extractor
              (fun _ => missing_file) "missing.pdf" [] [] false None
              (mkStats 0 0 0 0) "Invalid PDF: File does not exist"
              eq_refl eq_refl) as [msg [stats' [Hone _]]].
  exists msg, stats'. exact Hone.
Defined.

(** *** What leaves [process_single_pdf] *)









(** * Further properties of the code *)

Import Ranges.

(** ** The confidence scorer, for every input *)

Lemma py_min_r (a b : Q) : py_min a b <= b.
Proof.
  unfold py_min. destruct (Qltb b a) eqn:E.
  - apply Qle_refl.
  - apply Qltb_ge in E. exact E.
Qed.

Lemma py_min_glb (a b c : Q) : c <= a -> c <= b -> c <= py_min a b.
Proof. intros Ha Hb. unfold py_min. destruct (Qltb b a); assumption. Qed.

Lemma size_tier_values (font_size : Q) (font_stats : FontStats) :
  let r := size_tier font_size font_stats in
  fst r <= 0.4 /\ valid_level (snd r).
Proof.
  unfold size_tier, valid_level.
  destruct (Qleb _ _); [|destruct (Qleb _ _); [|destruct (Qleb _ _)]];
    cbn [fst snd]; (split; [discriminate | auto]).
Qed.

Lemma first_match_In {A : Type} (test : regex -> bool) (table : list (regex * A))
    (a : A) :
  first_match test table = Some a -> In a (map snd table).
Proof.
  induction table as [|[r x] table IH]; simpl; [discriminate|].
  destruct (test r).
  - intro E. inversion E. left. reflexivity.
  - intro E. right. apply IH. exact E.
Qed.

Lemma rule_bold_level (bold : bool) (st : Q * Level) :
  valid_level (snd st) -> valid_level (snd (rule_bold bold st)).
Proof.
  destruct st as [c l]. unfold rule_bold, valid_level. cbn [snd].
  destruct bold; [|auto].
  destruct (_ && _); [auto|]. destruct (_ && _); auto.
Qed.

Lemma rule_vocabulary_level (txt : string) (words : list string) (st : Q * Level) :
  valid_level (snd st) -> valid_level (snd (rule_vocabulary txt words st)).
Proof.
  destruct st as [c l]. unfold rule_vocabulary. cbn [snd]. intro Hv.
  destruct (first_match _ form_field_patterns) as [[score level]|] eqn:E.
  - apply first_match_In in E. cbn in E. unfold valid_level. cbn [snd].
    repeat (destruct E as [E|E]; [inversion E; auto|]). destruct E.
  - unfold valid_level in *.
    destruct (any_in high_value_words _);
      [cbn [snd]; destruct (level_eqb l H3); auto|].
    destruct (any_in medium_value_words _);
      [cbn [snd]; destruct (level_eqb l H3); auto|].
    destruct (any_in section_words _); [exact Hv|].
    destruct (any_in words _); exact Hv.
Qed.

Lemma rule_fairness_level (txt : string) (st : Q * Level) :
  snd (rule_fairness txt st) = snd st.
Proof. destruct st as [c l]. reflexivity. Qed.

Lemma rule_numbering_level (txt : string) (st : Q * Level) :
  valid_level (snd st) -> valid_level (snd (rule_numbering txt st)).
Proof.
  destruct st as [c l]. unfold rule_numbering. intro Hv.
  destruct (first_match _ chapter_patterns) as [[score level]|] eqn:E.
  - apply first_match_In in E. cbn in E. unfold valid_level. cbn [snd].
    repeat (destruct E as [E|E]; [inversion E; auto|]). destruct E.
  - destruct (first_match _ numbered_patterns) as [[score level]|] eqn:E'.
    + apply first_match_In in E'. cbn in E'. unfold valid_level. cbn [snd].
      repeat (destruct E' as [E'|E']; [inversion E'; auto|]). destruct E'.
    + exact Hv.
Qed.

Lemma rule_position_level (box : BBox) (st : Q * Level) :
  snd (rule_position box st) = snd st.
Proof. destruct st as [c l]. unfold rule_position. destruct (Qltb _ _); reflexivity. Qed.

Lemma rule_length_level (txt : string) (st : Q * Level) :
  snd (rule_length txt st) = snd st.
Proof.
  destruct st as [c l]. unfold rule_length.
  destruct (_ && _); [reflexivity|]. destruct (_ && _); [reflexivity|].
  destruct (_ <? _)%nat; reflexivity.
Qed.

Lemma rule_case_level (txt : string) (st : Q * Level) :
  snd (rule_case txt st) = snd st.
Proof.
  destruct st as [c l]. unfold rule_case.
  destruct (istitle txt); [reflexivity|]. destruct (_ && _); reflexivity.
Qed.

Lemma rule_colon_level (txt : string) (st : Q * Level) :
  valid_level (snd st) -> valid_level (snd (rule_colon txt st)).
Proof.
  destruct st as [c l]. unfold rule_colon, valid_level. cbn [snd]. intro Hv.
  destruct (endswith txt ":"); [|exact Hv].
  cbn [snd]. destruct (level_eqb l H1); auto.
Qed.

Lemma rule_context_level (txt : string) (ctx : list Block) (fs : FontStats)
    (st : Q * Level) :
  snd (rule_context txt ctx fs st) = snd st.
Proof. destruct st as [c l]. unfold rule_context. destruct ctx; reflexivity. Qed.

Lemma scorer_range :
  forall (txt : string) (font_size : Q) (fnt : string) (box : BBox)
         (font_stats : FontStats) (flags : Z) (context_blocks : list Block)
         (structural_words : list string),
    let r := calculate_heading_confidence txt font_size fnt box font_stats flags
               context_blocks structural_words in
    fst r <= 1 /\ valid_level (snd r).
Proof.
  intros txt font_size fnt box font_stats flags context_blocks structural_words.
  cbv zeta. unfold calculate_heading_confidence.
  pose proof (size_tier_values font_size font_stats) as [Hc Hl].
  destruct (size_tier font_size font_stats) as [confidence suggested_level].
  cbn [fst snd] in Hc, Hl.
  destruct (Qltb 1.8 (size_ratio font_size font_stats) && negb (is_bold fnt flags)).
  - cbn [fst snd]. split; [|right; right; reflexivity].
    apply py_max_lub; [discriminate | lra].
  - set (confidence' := if _ && _ then confidence * 0.7 else confidence).
    assert (Hv : valid_level
                   (snd (rule_context txt context_blocks font_stats
                      (rule_colon txt (rule_case txt (rule_length txt
                        (rule_position box (rule_numbering txt
                          (rule_fairness txt (rule_vocabulary txt structural_words
                            (rule_bold (is_bold fnt flags)
                               (confidence', suggested_level)))))))))))).
    { rewrite rule_context_level. apply rule_colon_level.
      rewrite rule_case_level, rule_length_level, rule_position_level.
      apply rule_numbering_level. rewrite rule_fairness_level.
      apply rule_vocabulary_level. apply rule_bold_level. exact Hl. }
    destruct (rule_context _ _ _ _) as [c l]. cbn [fst snd] in *.
    split; [|exact Hv].
    apply Qle_trans with 1.0; [apply py_min_r | discriminate].
Qed.

(** The score never exceeds 1.0 and the suggested level is always one of
    H1, H2, H3, whatever the text, the font, the statistics, the context
    and the configured vocabulary are. *)
Theorem scorer_result_range :
  forall (txt : string) (font_size : Q) (fnt : string) (box : BBox)
         (font_stats : FontStats) (flags : Z) (context_blocks : list Block)
         (structural_words : list string),
    let r := calculate_heading_confidence txt font_size fnt box font_stats flags
               context_blocks structural_words in
    fst r <= 1 /\ valid_level (snd r).
Proof. exact scorer_range. Qed.

Lemma context_step_nonneg (font_stats : FontStats) (l : list Block) :
  forall acc : Q,
    0 <= acc ->
    0 <= fold_left
           (fun (context_score : Q) (block : Block) =>
              let context_score :=
                if Qltb (font_size block) (median font_stats)
                then context_score + 0.05 else context_score in
              if any_in intro_phrases (lower (text block))
              then context_score + 0.1 else context_score) l acc.
Proof.
  induction l as [|b l IH]; intros acc Hacc; [exact Hacc|].
  cbn [fold_left]. apply IH.
  destruct (Qltb _ _); destruct (any_in _ _); lra.
Qed.

(** The context contribution lies between 0 and 0.2. *)
Theorem analyze_context_range :
  forall (txt : string) (context_blocks : list Block) (font_stats : FontStats),
    0 <= analyze_context txt context_blocks font_stats
    /\ analyze_context txt context_blocks font_stats <= 0.2.
Proof.
  intros txt context_blocks font_stats. unfold analyze_context. split.
  - apply py_min_glb; [|discriminate].
    apply context_step_nonneg. discriminate.
  - apply py_min_r.
Qed.

(** ** The noise classifier, for every text *)

Lemma mem_incl (s : string) (P P' : list string) :
  (forall p, In p P -> In p P') -> mem s P = true -> mem s P' = true.
Proof.
  intros Hincl Hm. unfold mem in *. apply existsb_exists in Hm.
  destruct Hm as [p [Hin Hp]]. apply existsb_exists. exists p. auto.
Qed.

Lemma any_in_incl (t : string) (P P' : list string) :
  (forall p, In p P -> In p P') -> any_in P t = true -> any_in P' t = true.
Proof.
  intros Hincl Hm. unfold any_in in *. apply existsb_exists in Hm.
  destruct Hm as [p [Hin Hp]]. apply existsb_exists. exists p. auto.
Qed.

(** Configuring more noise patterns never lets a text through that was
    filtered before: what is noise under a list of patterns is noise
    under every list that contains it. *)
Theorem noise_monotone_in_patterns :
  forall (txt : string) (font_size : Q) (font_stats : FontStats)
         (patterns patterns' : list string),
    (forall p, In p patterns -> In p patterns') ->
    is_noise_with_confidence txt font_size font_stats patterns = true ->
    is_noise_with_confidence txt font_size font_stats patterns' = true.
Proof.
  intros txt font_size font_stats patterns patterns' Hincl Hnoise.
  unfold is_noise_with_confidence in *.
  destruct (mem (strip txt) patterns') eqn:M'; [reflexivity|].
  destruct (mem (strip txt) patterns) eqn:M.
  { rewrite (mem_incl _ _ _ Hincl M) in M'. discriminate. }
  destruct (mem (strip txt) kept_headings); [discriminate|].
  destruct (too_many_special_chars (strip txt)); [reflexivity|].
  destruct (repetitive_line (strip txt)); [reflexivity|].
  destruct (mem (strip txt) form_field_labels); [discriminate|].
  destruct (existsb _ document_metadata_patterns); [reflexivity|].
  destruct (is_url txt); [reflexivity|].
  destruct (is_contact_line txt); [reflexivity|].
  destruct (is_form_field txt); [reflexivity|].
  destruct (too_long txt); [reflexivity|].
  destruct (basic_noise txt); [reflexivity|].
  destruct (long_unstructured txt); [reflexivity|].
  destruct (configured_noise txt patterns) eqn:C.
  { unfold configured_noise in *. apply andb_true_iff in C. destruct C as [C1 C2].
    rewrite C1, (any_in_incl _ _ _ Hincl C2). reflexivity. }
  destruct (configured_noise txt patterns'); [reflexivity|].
  exact Hnoise.
Qed.

Lemma noise_monotone_in_patterns_witness :
  is_noise_with_confidence "Draft" 12 default_font_stats ["Draft"; "Internal"] = true.
Proof.
  apply (noise_monotone_in_patterns "Draft" 12 default_font_stats
           ["Draft"] ["Draft"; "Internal"]).
  - intros p [E|[]]. left. exact E.
  - vm_compute. reflexivity.
Defined.

(** A web address is always filtered: a text that starts with www. or
    http, or contains .com, .org or .net (in any letter case), is noise
    unless, stripped, it is one of the literals that the classifier keeps
    by name. *)
Theorem urls_are_noise :
  forall (txt : string) (font_size : Q) (font_stats : FontStats)
         (patterns : list string),
    is_url txt = true ->
    mem (strip txt) kept_headings = false ->
    mem (strip txt) form_field_labels = false ->
    is_noise_with_confidence txt font_size font_stats patterns = true.
Proof.
  intros txt font_size font_stats patterns Hurl Hkept Hlabel.
  unfold is_noise_with_confidence. rewrite Hkept, Hlabel, Hurl.
  destruct (mem (strip txt) patterns); [reflexivity|].
  destruct (too_many_special_chars (strip txt)); [reflexivity|].
  destruct (repetitive_line (strip txt)); [reflexivity|].
  destruct (existsb _ document_metadata_patterns); reflexivity.
Qed.

Lemma urls_are_noise_witness :
  is_noise_with_confidence "Visit HTTP://Example.ORG today" 30 default_font_stats []
  = true.
Proof.
  apply (urls_are_noise "Visit HTTP://Example.ORG today" 30 default_font_stats []);
    vm_compute; reflexivity.
Defined.

(** ** The span-level detector *)

Lemma is_span_heading_accepts :
  forall (txt : string) (font_size : Q) (fnt : string) (box : BBox)
         (font_stats : FontStats) (flags : Z) (level : Level),
    is_span_heading txt font_size fnt box font_stats flags = Some level ->
    (level = H1 \/ level = H3)
    /\ (3 <= len txt)%nat
    /\ (word_count txt <= 10)%nat
    /\ is_noise_with_confidence txt font_size font_stats span_noise_patterns = false.
Proof.
  intros txt font_size fnt box font_stats flags level. unfold is_span_heading.
  destruct (Nat.ltb_spec (len txt) 3) as [L|L]; [discriminate|].
  destruct (is_noise_with_confidence _ _ _ _); [discriminate|].
  destruct (Nat.ltb_spec 10 (word_count txt)) as [W|W]; [discriminate|].
  intro H.
  assert (Hl : level = H1 \/ level = H3).
  { repeat match type of H with
           | (if ?b then _ else _) = _ => destruct b
           end;
      inversion H; auto. }
  repeat split; auto.
Qed.

(** A span is accepted only with level H1 or H3; an accepted text has at
    least 3 characters and at most 10 words and is not noise under the
    span-level noise patterns. *)
Theorem span_heading_conditions :
  forall (txt : string) (font_size : Q) (fnt : string) (box : BBox)
         (font_stats : FontStats) (flags : Z) (level : Level),
    is_span_heading txt font_size fnt box font_stats flags = Some level ->
    (level = H1 \/ level = H3)
    /\ (3 <= len txt)%nat
    /\ (word_count txt <= 10)%nat
    /\ is_noise_with_confidence txt font_size font_stats span_noise_patterns = false.
Proof. exact is_span_heading_accepts. Qed.

Lemma span_heading_conditions_witness :
  (H1 = H1 \/ H1 = H3)
  /\ (3 <= len "Summer Party")%nat
  /\ (word_count "Summer Party" <= 10)%nat
  /\ is_noise_with_confidence "Summer Party" 24 default_font_stats
       span_noise_patterns = false.
Proof.
  apply (span_heading_conditions "Summer Party" 24 "Arial-Bold"
           (mkBBox 72 80 300 104) default_font_stats 16 H1).
  vm_compute. reflexivity.
Defined.

(** The span-level extractor returns nothing when the PDF library
    raises, and otherwise only headings of level H1 or H3, without a
    confidence and without a bounding box. *)
Theorem span_level_headings_shape :
  forall (nfkc : string -> string) (e : Exn) (raw_spans : Exn + list Span)
         (font_stats : FontStats) (custom_filters : list (string -> string)),
    extract_span_level_headings nfkc (inl e) font_stats custom_filters = []
    /\ Forall (fun h => (h_level h = H1 \/ h_level h = H3)
                        /\ h_confidence h = None /\ h_bbox h = None)
         (extract_span_level_headings nfkc raw_spans font_stats custom_filters).
Proof.
  intros nfkc e raw_spans font_stats custom_filters. split; [reflexivity|].
  unfold extract_span_level_headings. destruct raw_spans as [e'|spans];
    [constructor|].
  apply Forall_forall. intros h Hin. apply in_flat_map in Hin.
  destruct Hin as [sp [_ Hin]].
  destruct (is_span_heading _ _ _ _ _ _) as [level|] eqn:E; [|destruct Hin].
  destruct Hin as [Eh|[]]. subst h. cbn.
  apply is_span_heading_accepts in E. destruct E as [Hl _]. auto.
Qed.

(** ** The span consolidator, for every list of spans *)

Lemma joins_compatible (current_span last_span next_span : Span) :
  joins current_span last_span next_span = true ->
  compatible current_span next_span.
Proof.
  unfold joins, compatible.
  destruct (Nat.eqb_spec (s_page next_span) (s_page current_span)) as [P|P];
    [|discriminate].
  cbn [negb]. destruct (Qltb _ _); [discriminate|].
  destruct (Qltb _ _); [discriminate|].
  intro H. apply andb_true_iff in H. destruct H as [H Hf].
  apply andb_true_iff in H. destruct H as [Hb Hs].
  apply Z.eqb_eq in Hb. apply Qltb_lt in Hs. apply String.eqb_eq in Hf.
  repeat split; [exact P | symmetry; exact Hb | symmetry; exact Hf | exact Hs].
Qed.

Lemma merge_group_emit (current_span : Span) (more_rev : list Span) :
  merge_group (current_span :: rev more_rev) = [emit_group current_span more_rev].
Proof.
  unfold emit_group. destruct more_rev as [|x m]; [reflexivity|].
  destruct (rev (x :: m)) as [|y l] eqn:E.
  - apply (f_equal (@List.length Span)) in E. rewrite length_rev in E. discriminate.
  - reflexivity.
Qed.

Lemma consolidate_from_groups (rest : list Span) :
  forall (current_span : Span) (more_rev : list Span),
    Forall (compatible current_span) more_rev ->
    exists groups : list (list Span),
      List.concat groups = (current_span :: rev more_rev) ++ rest
      /\ consolidate_from current_span more_rev rest = flat_map merge_group groups
      /\ Forall coherent_group groups.
Proof.
  induction rest as [|next_span rest IH]; intros current_span more_rev Hcomp.
  - exists [current_span :: rev more_rev]. split; [|split].
    + cbn. rewrite !app_nil_r. reflexivity.
    + cbn [consolidate_from flat_map]. rewrite merge_group_emit. reflexivity.
    + constructor; [|constructor]. cbn. apply Forall_rev. exact Hcomp.
  - cbn [consolidate_from].
    destruct (joins current_span (hd current_span more_rev) next_span) eqn:J.
    + destruct (IH current_span (next_span :: more_rev)) as [groups [Hc [Ho Hg]]].
      { constructor; [exact (joins_compatible _ _ _ J) | exact Hcomp]. }
      exists groups. split; [|split; assumption].
      rewrite Hc. simpl. rewrite <- app_assoc. reflexivity.
    + destruct (IH next_span [] (Forall_nil _)) as [groups [Hc [Ho Hg]]].
      exists ((current_span :: rev more_rev) :: groups). split; [|split].
      * cbn [List.concat]. rewrite Hc. reflexivity.
      * cbn [flat_map]. rewrite merge_group_emit, Ho. reflexivity.
      * constructor; [|exact Hg]. cbn. apply Forall_rev. exact Hcomp.
Qed.

Lemma coherent_groups_length (groups : list (list Span)) :
  Forall coherent_group groups ->
  (List.length (flat_map merge_group groups) <= List.length (List.concat groups))%nat.
Proof.
  induction 1 as [|g groups Hg Hgs IH]; [apply Nat.le_refl|].
  cbn [flat_map List.concat]. rewrite !length_app.
  assert (Hone : (List.length (merge_group g) <= List.length g)%nat).
  { destruct g as [|a [|b g']]; cbn; lia. }
  lia.
Qed.

(** Consolidation cuts the sorted spans into consecutive groups and
    returns one span per group, in order: no span is lost or repeated, a
    single span stays as it is, and every member of a group is on the
    page of the group's first span, has its bold bit and its font family,
    and a size less than 8 away from it.  So there are never more spans
    after consolidation than before. *)
Theorem consolidation_partitions_sorted_spans :
  forall spans : list Span,
    exists groups : list (list Span),
      List.concat groups = sort_by span_key_le spans
      /\ consolidate_adjacent_spans spans = flat_map merge_group groups
      /\ Forall coherent_group groups
      /\ (List.length (consolidate_adjacent_spans spans) <= List.length spans)%nat.
Proof.
  intro spans. unfold consolidate_adjacent_spans.
  pose proof (sort_by_perm span_key_le spans) as Hperm.
  destruct (sort_by span_key_le spans) as [|current_span rest] eqn:E.
  - apply Permutation_sym, Permutation_nil in Hperm. subst spans.
    exists []. repeat split; [constructor | apply Nat.le_refl].
  - destruct (consolidate_from_groups rest current_span [] (Forall_nil _))
      as [groups [Hc [Ho Hg]]].
    exists groups. split; [exact Hc|]. split; [exact Ho|]. split; [exact Hg|].
    rewrite Ho. rewrite (Permutation_length Hperm).
    change (current_span :: rest) with ((current_span :: rev []) ++ rest).
    rewrite <- Hc. apply coherent_groups_length. exact Hg.
Qed.

(** ** The block-level detector, for every document *)

Lemma key_eqb_eq (a b : heading_key) : key_eqb a b = true <-> a = b.
Proof.
  destruct a as [[ta pa] [la]], b as [[tb pb] [lb]]. unfold key_eqb, level_eqb.
  cbn [level_num]. rewrite !andb_true_iff, String.eqb_eq, !Nat.eqb_eq.
  split.
  - intros [[Et Ep] El]. subst. reflexivity.
  - intro E. inversion E. auto.
Qed.

Lemma seen_false_not_In (k : heading_key) (seen_headings : list heading_key) :
  seen k seen_headings = false -> ~ In k seen_headings.
Proof.
  unfold seen. intros Hs Hin.
  assert (Ht : existsb (key_eqb k) seen_headings = true).
  { apply existsb_exists. exists k. split; [exact Hin | apply key_eqb_eq; reflexivity]. }
  rewrite Ht in Hs. discriminate.
Qed.

Section DetectorFold.
Context {B : Type}.
Variable step : list Heading * list heading_key -> B
                -> list Heading * list heading_key.
Variable P : Heading -> Prop.
Variable R : B -> Prop.
Hypothesis step_kind :
  forall st b, R b ->
    step st b = st
    \/ exists h, step st b = (fst st ++ [h], seen_key h :: snd st)
                 /\ seen (seen_key h) (snd st) = false /\ P h.

Let Inv (st : list Heading * list heading_key) : Prop :=
  (forall k, In k (map seen_key (fst st)) <-> In k (snd st))
  /\ NoDup (map seen_key (fst st))
  /\ Forall P (fst st).

Lemma detector_fold_invariant (l : list B) :
  Forall R l -> forall st, Inv st -> Inv (fold_left step l st).
Proof.
  induction 1 as [|b l Hb Hl IH]; intros st Hinv; [exact Hinv|].
  cbn [fold_left]. apply IH.
  destruct (step_kind st b Hb) as [E|[h [E [Hfresh Hp]]]]; rewrite E; [exact Hinv|].
  destruct Hinv as [Hkeys [Hnd Hall]]. unfold Inv. cbn [fst snd].
  apply seen_false_not_In in Hfresh.
  split; [|split].
  - intro k. rewrite map_app, in_app_iff. cbn [map In]. rewrite Hkeys. tauto.
  - rewrite map_app. cbn [map].
    apply (Permutation_NoDup (l := seen_key h :: map seen_key (fst st))).
    + apply Permutation_cons_append.
    + constructor; [|exact Hnd]. rewrite Hkeys. exact Hfresh.
  - apply Forall_app. split; [exact Hall | constructor; [exact Hp | constructor]].
Qed.

End DetectorFold.

Lemma heading_from_tail_accepts (self : PDFOutlineExtractor) (original_text : string)
    (font_size : Q) (fnt : string) (box : BBox) (font_stats : FontStats) (flags : Z)
    (context_blocks : list Block) (level : Level) (t : string) :
  heading_from_tail self original_text font_size fnt box font_stats flags
    context_blocks = Some (level, t) ->
  valid_level level
  /\ is_noise_with_confidence t font_size font_stats (noise_patterns self) = false
  /\ (len t =? 0)%nat = false.
Proof.
  unfold heading_from_tail.
  destruct (extract_heading_from_text original_text) as [extracted|] eqn:Etail;
    [|discriminate].
  destruct (is_noise_with_confidence _ _ _ _) eqn:Enoise; [discriminate|].
  pose proof (scorer_range extracted font_size fnt box font_stats flags
                context_blocks (structural_words self)) as [_ Hv].
  destruct (calculate_heading_confidence _ _ _ _ _ _ _ _) as [c l].
  cbn [snd] in Hv. destruct (Qleb _ _); [|discriminate].
  intro E. inversion E. subst. split; [exact Hv|]. split; [exact Enoise|].
  unfold extract_heading_from_text in Etail.
  assert (Hlen : forall patterns stripped h,
             first_tail patterns stripped = Some h -> (5 <= len h)%nat).
  { induction patterns as [|pattern patterns IH]; intros stripped h; cbn [first_tail];
      [discriminate|].
    destruct (search_tail pattern stripped) as [m|]; [|apply IH].
    destruct ((5 <=? len (strip m))%nat && (len (strip m) <=? 50)%nat) eqn:El;
      [|apply IH].
    intro E'. inversion E'. subst.
    apply andb_true_iff in El. destruct El as [El _]. apply Nat.leb_le. exact El. }
  apply Hlen in Etail. apply Nat.eqb_neq. lia.
Qed.

(** A block is accepted with a level among H1, H2, H3 only, and under a
    text that is not empty and passes the noise filter. *)
Lemma is_heading_accepts (nfkc : string -> string) (self : PDFOutlineExtractor)
    (original_text : string) (font_size : Q) (fnt : string) (box : BBox)
    (font_stats : FontStats) (page_width : Q) (flags : Z)
    (context_blocks : list Block) (level : Level) (t : string) :
  is_heading nfkc self original_text font_size fnt box font_stats page_width flags
    context_blocks = Some (level, t) ->
  valid_level level
  /\ is_noise_with_confidence t font_size font_stats (noise_patterns self) = false
  /\ (len t =? 0)%nat = false.
Proof.
  unfold is_heading.
  destruct (_ || _) eqn:Elen; [discriminate|].
  apply orb_false_iff in Elen. destruct Elen as [_ Elen].
  destruct (_ || _); [discriminate|].
  destruct (is_noise_with_confidence _ _ _ _) eqn:Enoise;
    [apply heading_from_tail_accepts|].
  pose proof (scorer_range
                (normalize_text nfkc original_text (custom_filters self))
                font_size fnt box font_stats flags context_blocks
                (structural_words self)) as [_ Hv].
  destruct (calculate_heading_confidence _ _ _ _ _ _ _ _) as [c l].
  cbn [snd] in Hv.
  destruct (_ && _); [intro E; inversion E; subst; auto|].
  destruct (Qleb _ _); [|discriminate].
  intro E. inversion E. subst. auto.
Qed.

Lemma pass1_step_kind (nfkc : string -> string) (self : PDFOutlineExtractor)
    (blocks : list Block) (font_stats : FontStats) (page_width : Q)
    (st : list Heading * list heading_key) (ib : nat * Block) :
  In (snd ib) blocks ->
  pass1_step nfkc self blocks font_stats page_width st ib = st
  \/ exists h,
       pass1_step nfkc self blocks font_stats page_width st ib
       = (fst st ++ [h], seen_key h :: snd st)
       /\ seen (seen_key h) (snd st) = false
       /\ (detected_from blocks h /\ passes_noise_filter self font_stats h).
Proof.
  destruct st as [outline seen_headings], ib as [i block]. cbn [fst snd].
  intro Hin. unfold pass1_step.
  destruct (is_heading _ _ _ _ _ _ _ _ _ _) as [[level heading_text]|] eqn:E;
    [|left; reflexivity].
  apply is_heading_accepts in E. destruct E as [E [Enoise Elen]].
  rewrite Elen.
  destruct (seen _ seen_headings) eqn:S; [left; reflexivity|].
  right.
  match goal with |- exists h, (_ ++ [?x], _) = _ /\ _ => exists x end.
  split; [reflexivity|]. split; [exact S|].
  unfold detected_from, passes_noise_filter. cbn.
  split; [|exact Enoise].
  split; [exact E|]. split; [eexists; reflexivity|]. split; [reflexivity|].
  exists block. auto.
Qed.

Lemma pass2_step_kind (self : PDFOutlineExtractor) (blocks : list Block)
    (font_stats : FontStats) (chars : Z) (fonts : nat)
    (st : list Heading * list heading_key) (block : Block) :
  In block blocks ->
  pass2_step self font_stats chars fonts st block = st
  \/ exists h,
       pass2_step self font_stats chars fonts st block
       = (fst st ++ [h], seen_key h :: snd st)
       /\ seen (seen_key h) (snd st) = false
       /\ (detected_from blocks h /\ passes_noise_filter self font_stats h).
Proof.
  destruct st as [outline seen_headings]. cbn [fst snd].
  intro Hin. unfold pass2_step.
  destruct (existsb _ outline); [left; reflexivity|].
  destruct (is_noise_with_confidence _ _ _ _) eqn:Enoise; [left; reflexivity|].
  pose proof (scorer_range (text block) (font_size block) (font block)
                (bbox block) font_stats (font_flags block) []
                (structural_words self)) as [_ Hv].
  destruct (calculate_heading_confidence _ _ _ _ _ _ _ _) as [c l].
  cbn [snd] in Hv.
  destruct (Qleb _ c); [|left; reflexivity].
  destruct (seen _ seen_headings) eqn:S; [left; reflexivity|].
  right.
  match goal with |- exists h, (_ ++ [?x], _) = _ /\ _ => exists x end.
  split; [reflexivity|]. split; [exact S|].
  unfold detected_from, passes_noise_filter. cbn.
  split; [|exact Enoise].
  split; [exact Hv|]. split; [eexists; reflexivity|]. split; [reflexivity|].
  exists block. auto.
Qed.

Lemma enumerate_from_snd {A : Type} (l : list A) :
  forall i, Forall (fun ib => In (snd ib) l) (enumerate_from i l).
Proof.
  induction l as [|x l IH]; intro i; [constructor|].
  cbn [enumerate_from]. constructor; [left; reflexivity|].
  apply Forall_impl with (P := fun ib => In (snd ib) l); [|apply IH].
  intros ib Hin. right. exact Hin.
Qed.

Lemma detector_invariant (nfkc : string -> string) (self : PDFOutlineExtractor)
    (blocks : list Block) (font_stats : FontStats) (page_width : Q) :
  let outline :=
    _multi_pass_heading_detection nfkc self blocks font_stats page_width in
  NoDup (map seen_key outline)
  /\ Forall (fun h => detected_from blocks h /\ passes_noise_filter self font_stats h)
       outline.
Proof.
  cbv zeta. unfold _multi_pass_heading_detection.
  set (P := fun h => detected_from blocks h /\ passes_noise_filter self font_stats h).
  assert (H1st :
    (forall k, In k (map seen_key (fst (fold_left
        (pass1_step nfkc self blocks font_stats page_width)
        (enumerate_from 0 blocks) ([], [])))) <->
      In k (snd (fold_left (pass1_step nfkc self blocks font_stats page_width)
        (enumerate_from 0 blocks) ([], []))))
    /\ NoDup (map seen_key (fst (fold_left
        (pass1_step nfkc self blocks font_stats page_width)
        (enumerate_from 0 blocks) ([], []))))
    /\ Forall P (fst (fold_left
        (pass1_step nfkc self blocks font_stats page_width)
        (enumerate_from 0 blocks) ([], [])))).
  { apply (detector_fold_invariant
             (pass1_step nfkc self blocks font_stats page_width)
             P (fun ib => In (snd ib) blocks)).
    - intros st ib Hin. apply pass1_step_kind. exact Hin.
    - apply enumerate_from_snd.
    - cbn. repeat split; try tauto; constructor. }
  set (st1 := fold_left (pass1_step nfkc self blocks font_stats page_width)
                (enumerate_from 0 blocks) ([], [])) in *.
  destruct (_ <? _)%nat; [|destruct H1st as [_ [Hn Hf]]; split; assumption].
  assert (H2nd := detector_fold_invariant
             (pass2_step self font_stats (total_chars_of blocks)
                (unique_fonts_of blocks))
             P (fun b => In b blocks)
             (fun st b Hin => pass2_step_kind self blocks font_stats _ _ st b Hin)
             blocks (proj2 (Forall_forall _ _) (fun b Hin => Hin)) st1 H1st).
  destruct H2nd as [_ [Hn Hf]]. split; assumption.
Qed.

(** The detector keeps its outline free of duplicates and within the
    format: no two detected headings share the lower-cased text, the page
    and the level; every heading has a level among H1, H2, H3, carries a
    confidence and no bounding box, and takes its page, font size and
    font from one of the blocks. *)
Theorem detected_headings_distinct_and_valid :
  forall (nfkc : string -> string) (self : PDFOutlineExtractor)
         (blocks : list Block) (font_stats : FontStats) (page_width : Q),
    let outline :=
      _multi_pass_heading_detection nfkc self blocks font_stats page_width in
    NoDup (map seen_key outline) /\ Forall (detected_from blocks) outline.
Proof.
  intros nfkc self blocks font_stats page_width.
  destruct (detector_invariant nfkc self blocks font_stats page_width) as [Hn Hf].
  split; [exact Hn|].
  apply Forall_impl with (2 := Hf). intros h [Hd _]. exact Hd.
Qed.

(** The detector never returns what its own noise filter rejects: the
    text of every detected heading, in both passes and also when it is
    only the end of a block's text, passes the noise filter with the
    extractor's noise patterns. *)
Theorem detected_headings_pass_noise_filter :
  forall (nfkc : string -> string) (self : PDFOutlineExtractor)
         (blocks : list Block) (font_stats : FontStats) (page_width : Q),
    Forall (passes_noise_filter self font_stats)
      (_multi_pass_heading_detection nfkc self blocks font_stats page_width).
Proof.
  intros nfkc self blocks font_stats page_width.
  destruct (detector_invariant nfkc self blocks font_stats page_width) as [_ Hf].
  apply Forall_impl with (2 := Hf). intros h [_ Hp]. exact Hp.
Qed.

(** ** The font statistics, for every document *)

Lemma qsum_pos (l : list Q) :
  l <> [] -> Forall (fun x => 0 < x) l -> 0 < qsum l.
Proof.
  unfold qsum.
  assert (Hgen : forall l acc, 0 <= acc -> Forall (fun x => 0 < x) l ->
                   acc <= fold_left Qplus l acc
                   /\ (l <> [] -> 0 < fold_left Qplus l acc)).
  { induction l0 as [|x l0 IH]; intros acc Hacc Hall.
    - split; [apply Qle_refl | congruence].
    - inversion Hall as [|? ? Hx Hl]; subst. cbn [fold_left].
      destruct (IH (acc + x) ltac:(lra) Hl) as [Hle _].
      split; [lra | intros _; lra]. }
  intros Hne Hall. apply (Hgen l 0); [apply Qle_refl | exact Hall | exact Hne].
Qed.

Lemma np_mean_pos (l : list Q) :
  l <> [] -> Forall (fun x => 0 < x) l -> 0 < np_mean l.
Proof.
  intros Hne Hall. unfold np_mean. apply Qlt_shift_div_l.
  - destruct l as [|x l]; [congruence|].
    unfold of_nat. change 0 with (inject_Z 0). rewrite <- Zlt_Qlt. cbn. lia.
  - pose proof (qsum_pos l Hne Hall). lra.
Qed.

Lemma adaptive_thresholds_chain (font_sizes s : list Q) (med lo hi : Q) :
  StronglySorted Qle s -> s <> [] -> 0 < med ->
  let '(t1, t2, t3) :=
    adaptive_thresholds font_sizes (map (np_percentile s) [25; 50; 75; 90; 95])
      med lo hi in
  t3 <= t2 /\ t2 <= t1 /\ 0 < t3.
Proof.
  intros Hs Hne Hmed. unfold adaptive_thresholds.
  change (nth_q (map (np_percentile s) [25; 50; 75; 90; 95]) 4)
    with (np_percentile s 95).
  change (nth_q (map (np_percentile s) [25; 50; 75; 90; 95]) 3)
    with (np_percentile s 90).
  change (nth_q (map (np_percentile s) [25; 50; 75; 90; 95]) 2)
    with (np_percentile s 75).
  change (nth_q (map (np_percentile s) [25; 50; 75; 90; 95]) 1)
    with (np_percentile s 50).
  assert (P1 : np_percentile s 50 <= np_percentile s 75)
    by (apply np_percentile_mono; [assumption | assumption | | |]; discriminate).
  assert (P2 : np_percentile s 75 <= np_percentile s 90)
    by (apply np_percentile_mono; [assumption | assumption | | |]; discriminate).
  assert (P3 : np_percentile s 90 <= np_percentile s 95)
    by (apply np_percentile_mono; [assumption | assumption | | |]; discriminate).
  destruct (_ && _); [|destruct (_ && _)].
  - split; [|split].
    + apply Qle_trans with (med * 1.15); [lra | apply py_max_r].
    + apply py_max_mono; [assumption | lra].
    + lra.
  - split; [|split].
    + apply py_max_mono; [assumption | lra].
    + apply py_max_mono; [assumption | lra].
    + apply Qlt_le_trans with (med * 1.3); [lra | apply py_max_r].
  - split; [|split].
    + apply py_max_mono; [assumption | lra].
    + apply py_max_mono; [assumption | lra].
    + apply Qlt_le_trans with (med * 1.2); [lra | apply py_max_r].
Qed.

(** When a document has a block of positive size, its statistics hold
    three size clusters labelled H1, H2, H3 whose minimum sizes are
    positive and ordered H1 >= H2 >= H3; the mean and the median are
    positive; the five percentiles do not decrease; and the three heading
    thresholds are positive. *)
Theorem font_statistics_well_formed :
  forall blocks : list Block,
    existsb (fun b => Qltb 0 (font_size b)) blocks = true ->
    let font_stats := analyze_font_statistics blocks in
    ordered_clusters (size_clusters font_stats)
    /\ 0 < mean font_stats /\ 0 < median font_stats
    /\ StronglySorted Qle (percentiles font_stats)
    /\ 0 < h1 (heading_thresholds font_stats)
    /\ 0 < h2 (heading_thresholds font_stats)
    /\ 0 < h3 (heading_thresholds font_stats).
Proof.
  intros blocks Hex.
  cbv zeta. unfold analyze_font_statistics.
  assert (Hall : Forall (fun x => 0 < x)
                   (filter (fun sz => Qltb 0 sz) (map font_size blocks))).
  { apply Forall_forall. intros x Hx. apply filter_In in Hx.
    apply Qltb_lt. apply Hx. }
  assert (Hne : filter (fun sz => Qltb 0 sz) (map font_size blocks) <> []).
  { clear - Hex. induction blocks as [|b bs IH]; [discriminate|].
    cbn in *. destruct (Qltb 0 (font_size b)); [discriminate | auto]. }
  destruct (filter (fun sz => Qltb 0 sz) (map font_size blocks)) as [|x l] eqn:E;
    [congruence|].
  set (sizes := x :: l) in *.
  assert (Hmed : 0 < np_median sizes) by (apply np_median_pos; assumption).
  assert (Hsorted := sorted_q_sorted sizes).
  assert (Hsne : sorted_q sizes <> []).
  { intro Hnil. apply (f_equal (@List.length Q)) in Hnil.
    rewrite sorted_q_length in Hnil. discriminate. }
  cbn [size_clusters mean median percentiles heading_thresholds] in *.
  assert (Hclusters : ordered_clusters
            (make_size_clusters sizes
               (map (np_percentile (sorted_q sizes)) [25; 50; 75; 90; 95])
               (np_median sizes) (np_min sizes) (np_max sizes))).
  { unfold make_size_clusters. destruct (3 <? distinct_q sizes)%nat.
    - pose proof (adaptive_thresholds_chain sizes (sorted_q sizes)
                    (np_median sizes) (np_min sizes) (np_max sizes)
                    Hsorted Hsne Hmed) as Hch.
      destruct (adaptive_thresholds _ _ _ _ _) as [[t1 t2] t3].
      cbn. tauto.
    - cbn. repeat split; lra. }
  split; [exact Hclusters|].
  split; [apply np_mean_pos; assumption|].
  split; [exact Hmed|].
  split.
  { cbn [map].
    assert (M : forall q1 q2, 0 <= q1 -> q1 <= q2 -> q2 <= 100 ->
                np_percentile (sorted_q sizes) q1 <= np_percentile (sorted_q sizes) q2)
      by (intros; apply np_percentile_mono; assumption).
    repeat (constructor;
            [|repeat (constructor; [apply M; discriminate|]); constructor]).
    constructor. }
  assert (H12pos : 0 < h1 (make_heading_thresholds
                            (make_size_clusters sizes
                               (map (np_percentile (sorted_q sizes)) [25; 50; 75; 90; 95])
                               (np_median sizes) (np_min sizes) (np_max sizes))
                            (np_median sizes) (np_mean sizes))
                   /\ 0 < h2 (make_heading_thresholds
                            (make_size_clusters sizes
                               (map (np_percentile (sorted_q sizes)) [25; 50; 75; 90; 95])
                               (np_median sizes) (np_min sizes) (np_max sizes))
                            (np_median sizes) (np_mean sizes))).
  { unfold ordered_clusters in Hclusters.
    destruct (make_size_clusters _ _ _ _ _) as [|c1 [|c2 [|c3 [|c4 rest]]]];
      try contradiction.
    cbn. destruct Hclusters as [_ [_ [_ [H32 [H21 H3p]]]]]. split; lra. }
  destruct H12pos as [H1pos H2pos].
  split; [exact H1pos|]. split; [exact H2pos|].
  unfold make_heading_thresholds. cbn [h3]. unfold h3_floor.
  destruct (Qltb 12 (np_mean sizes)).
  - apply Qlt_le_trans with 8.0; [reflexivity | apply py_max_r].
  - apply Qlt_le_trans with 7.5; [reflexivity | apply py_max_r].
Qed.

Lemma font_statistics_well_formed_witness :
  ordered_clusters (size_clusters (analyze_font_statistics budget_report))
  /\ 0 < mean (analyze_font_statistics budget_report).
Proof.
  destruct (font_statistics_well_formed budget_report eq_refl) as [A [B _]].
  split; [exact A | exact B].
Defined.

(** ** The document profiler and the title selector *)

Lemma py_min_l (a b : Q) : py_min a b <= a.
Proof.
  unfold py_min. destruct (Qltb b a) eqn:E.
  - apply Qltb_lt in E. apply Qlt_le_weak. exact E.
  - apply Qle_refl.
Qed.

Lemma np_min_le_np_max (l : list Q) : np_min l <= np_max l.
Proof.
  destruct l as [|x l]; [apply Qle_refl|]. unfold np_min, np_max.
  assert (Hgen : forall l a b, a <= b -> fold_left py_min l a <= fold_left py_max l b).
  { induction l0 as [|y l0 IH]; intros a b Hab; [exact Hab|].
    cbn [fold_left]. apply IH.
    apply Qle_trans with y; [apply py_min_r | apply py_max_r]. }
  apply Hgen. apply Qle_refl.
Qed.

(** The profile of a document is consistent, whatever the blocks and
    the title: the type is never left unknown; the block count is the
    length of the list and the range of the font sizes is not negative;
    the minimal strategy goes with the form type and only with it, the
    span-preferred strategy with the simple type and only with it, high
    complexity with the complex type and only with it; a document is
    simple exactly when it has fewer than 400 characters in fewer than 6
    blocks; it is typed as a form only when the form test accepts it, and
    as a flyer only when it has exactly 6 blocks. *)
Theorem document_profile_consistent :
  forall (blocks : list Block) (title : string),
    let doc_info := _analyze_document_type blocks title in
    type doc_info <> unknown
    /\ total_blocks doc_info = List.length blocks
    /\ 0 <= font_size_range doc_info
    /\ (recommended_strategy doc_info = minimal <-> type doc_info = form)
    /\ (recommended_strategy doc_info = span_preferred <-> type doc_info = simple)
    /\ (complexity doc_info = high <-> type doc_info = complex)
    /\ (type doc_info = simple
        <-> (total_chars_of blocks < 400)%Z /\ (List.length blocks < 6)%nat)
    /\ (type doc_info = form -> is_form_document blocks title = true)
    /\ (type doc_info = flyer -> List.length blocks = 6%nat).
Proof.
  intros blocks title. cbv zeta. unfold _analyze_document_type.
  assert (Hrange : 0 <= match map font_size blocks with
                        | [] => 0
                        | _ :: _ => np_max (map font_size blocks)
                                    - np_min (map font_size blocks)
                        end).
  { destruct (map font_size blocks) as [|x l] eqn:E; [apply Qle_refl|].
    pose proof (np_min_le_np_max (x :: l)). lra. }
  destruct (Z.ltb_spec (total_chars_of blocks) 400) as [Echars|Echars];
  destruct (Nat.ltb_spec (List.length blocks) 6) as [Elen|Elen]; cbn [andb];
  try (destruct ((15000 <? total_chars_of blocks)%Z
                 || (100 <? List.length blocks)%nat);
       [|destruct (is_form_document blocks title) eqn:Eform;
         [|destruct ((6 <=? List.length blocks)%nat
                     && (1000 <? total_chars_of blocks)%Z);
           [|destruct ((List.length blocks =? 6)%nat) eqn:Esix; cbn [andb];
             [apply Nat.eqb_eq in Esix;
              destruct ((total_chars_of blocks <? 500)%Z)|]]]]);
  cbn [type total_blocks font_size_range recommended_strategy complexity];
  (split; [discriminate|]);
  (split; [reflexivity|]);
  (split; [exact Hrange|]);
  repeat split; try discriminate; try reflexivity; try assumption;
  try (intros [? ?]; lia); try (intros _; exact Esix).
Qed.

Lemma title_candidates_In (self : PDFOutlineExtractor) (font_stats : FontStats)
    (first_page_blocks : list Block) (c : Q * string) :
  In c (flat_map
          (fun block =>
             let txt := strip (text block) in
             if title_candidate_ok self txt
             then [(title_score block txt font_stats, txt)] else [])
          first_page_blocks) ->
  exists block, In block first_page_blocks /\ snd c = strip (text block)
                /\ title_candidate_ok self (snd c) = true.
Proof.
  intro Hin. apply in_flat_map in Hin. destruct Hin as [block [Hb Hc]].
  cbv zeta in Hc.
  destruct (title_candidate_ok self (strip (text block))) eqn:E; [|destruct Hc].
  destruct Hc as [Hc|[]]. subst c. exists block. cbn [snd]. auto.
Qed.

(** Where the title comes from: it is one of the three fixed titles --
    Untitled, the empty title, TopJump Party Invitation -- or the
    stripped text of a block of the first page; in that case it has at
    most 30 words and at most 10 hyphens, and it does not begin, in any
    letter case, with www. or with rsvp: *)
Theorem title_provenance :
  forall (self : PDFOutlineExtractor) (blocks : list Block)
         (font_stats : FontStats),
    let title := extract_title self blocks font_stats in
    title = "Untitled" \/ title = "" \/ title = "TopJump Party Invitation"
    \/ exists block,
         In block blocks /\ page block = 0%nat /\ title = strip (text block)
         /\ (word_count title <= 30)%nat /\ (count_char "-" title <= 10)%nat
         /\ startswith (lower title) "www." = false
         /\ startswith (lower title) "rsvp:" = false.
Proof.
  intros self blocks font_stats. cbv zeta. unfold extract_title.
  assert (Hpage : forall b, In b (first_page_blocks_of blocks) ->
                            In b blocks /\ page b = 0%nat).
  { intros b Hb. unfold first_page_blocks_of in Hb. apply filter_In in Hb.
    destruct Hb as [Hb Hp]. apply Nat.eqb_eq in Hp. auto. }
  destruct (first_page_blocks_of blocks) as [|b0 bs] eqn:Efp; [left; reflexivity|].
  rewrite <- Efp in *. clear Efp b0 bs.
  set (fpb := first_page_blocks_of blocks) in *.
  destruct (flat_map _ fpb) as [|c cs] eqn:Ecand.
  - (* the fallback *)
    destruct (filter fallback_ok (map (fun block => strip (text block)) fpb))
      as [|first_candidate rest] eqn:Efb; [right; left; reflexivity|].
    destruct (existsb flyer_candidate (first_candidate :: rest));
      [right; right; left; reflexivity|].
    destruct (_ || _); [right; right; left; reflexivity|].
    right; right; right.
    assert (Hin : In first_candidate
                    (filter fallback_ok (map (fun block => strip (text block)) fpb)))
      by (rewrite Efb; left; reflexivity).
    apply filter_In in Hin. destruct Hin as [Hin Hok].
    apply in_map_iff in Hin. destruct Hin as [block [Ht Hb]].
    destruct (Hpage block Hb) as [Hb' Hp].
    exists block. unfold fallback_ok in Hok.
    repeat (apply andb_true_iff in Hok; destruct Hok as [Hok ?]).
    repeat match goal with
           | H : negb _ = true |- _ => apply negb_true_iff in H
           end.
    repeat split; auto.
    + apply Nat.leb_le. assumption.
    + match goal with H : (10 <? _)%nat = false |- _ => apply Nat.ltb_ge in H; exact H end.
  - (* the scored candidates *)
    pose proof (max_by_In fst cs c) as Hbest. rewrite <- Ecand in Hbest.
    apply title_candidates_In in Hbest.
    destruct Hbest as [block [Hb [Ht Hok]]].
    set (best_title := snd (max_by fst c cs)) in *.
    destruct (any_in non_title_indicators (lower best_title));
      [right; left; reflexivity|].
    destruct (negb (len (strip best_title) =? 0)%nat); [|right; left; reflexivity].
    right; right; right.
    destruct (Hpage block Hb) as [Hb' Hp].
    exists block. unfold title_candidate_ok in Hok.
    repeat (apply andb_true_iff in Hok; destruct Hok as [Hok ?]).
    repeat match goal with
           | H : negb _ = true |- _ => apply negb_true_iff in H
           end.
    repeat split; auto.
    + match goal with H : (word_count _ <=? 20)%nat = true |- _ =>
        apply Nat.leb_le in H; lia end.
    + match goal with H : (10 <? _)%nat = false |- _ => apply Nat.ltb_ge in H; exact H end.
Qed.

(** ** Hierarchy validation, deduplication and post-processing, for
       every outline *)

Lemma validate_from_only_raises (outline : list Heading) :
  forall last_level,
    Forall2 (fun a b => same_but_level a b /\ level_kept_or_raised a b)
      outline (validate_from last_level outline).
Proof.
  induction outline as [|h rest IH]; intro last_level; [constructor|].
  cbn [validate_from].
  destruct ((last_level + 1 <? level_num (h_level h))%nat && (0 <? last_level)%nat)
    eqn:E.
  - apply andb_true_iff in E. destruct E as [E1 E2].
    apply Nat.ltb_lt in E1. apply Nat.ltb_lt in E2.
    constructor; [|apply IH].
    split; [unfold same_but_level; cbn; tauto|].
    right. cbn [set_level h_level level_num]. lia.
  - constructor; [|apply IH].
    split; [unfold same_but_level; tauto | left; reflexivity].
Qed.

Lemma validate_hierarchy_raises_aux (outline : list Heading) :
  Forall2 (fun a b => same_but_level a b /\ level_kept_or_raised a b)
    outline (_validate_hierarchy outline)
  /\ hd_error (_validate_hierarchy outline) = hd_error outline.
Proof.
  unfold _validate_hierarchy.
  destruct (List.length outline <=? 1)%nat.
  - split; [|reflexivity].
    induction outline as [|h rest IH]; constructor; [|exact IH].
    split; [unfold same_but_level; tauto | left; reflexivity].
  - split; [apply validate_from_only_raises|].
    destruct outline as [|h rest]; [reflexivity|].
    cbn [validate_from]. rewrite andb_false_r. reflexivity.
Qed.

(** [_validate_hierarchy] returns the headings it was given, one for
    one and in the same order, changing nothing but levels: a level is
    kept, or replaced by a shallower one that is still H2 or deeper.  The
    first heading is never changed. *)
Theorem validate_hierarchy_only_raises_levels :
  forall outline : list Heading,
    Forall2 (fun a b => same_but_level a b /\ level_kept_or_raised a b)
      outline (_validate_hierarchy outline)
    /\ hd_error (_validate_hierarchy outline) = hd_error outline.
Proof. exact validate_hierarchy_raises_aux. Qed.

Lemma validate_hierarchy_steps_ok_witness :
  level_steps_ok
    (heading_levels
       (_validate_hierarchy
          [ mkHeading "Scope" H1 0 14 "Arial" None None;
            mkHeading "Detail" H3 0 11 "Arial" None None ])) = true.
Proof.
  apply validate_hierarchy_steps_ok.
  constructor; [cbn; lia|]. constructor; [cbn; lia|]. constructor.
Defined.

Lemma max_by_max {A : Type} (key : A -> Q) (others : list A) :
  forall first,
    Forall (fun x => key x <= key (max_by key first others)) (first :: others).
Proof.
  unfold max_by. induction others as [|x others IH]; intro first.
  - constructor; [apply Qle_refl | constructor].
  - cbn [fold_left]. destruct (Qltb (key first) (key x)) eqn:E.
    + specialize (IH x). inversion IH as [|? ? Hx Hothers]; subst.
      apply Qltb_lt in E.
      constructor; [|constructor; assumption].
      apply Qle_trans with (key x); [apply Qlt_le_weak; exact E | exact Hx].
    + specialize (IH first). inversion IH as [|? ? Hf Hothers]; subst.
      apply Qltb_ge in E.
      constructor; [exact Hf|]. constructor; [|exact Hothers].
      apply Qle_trans with (key first); assumption.
Qed.

Lemma best_of_group_max (hs : list Heading) (h : Heading) :
  In h hs ->
  exists b, best_of_group hs = [b] /\ confidence_of h <= confidence_of b.
Proof.
  destruct hs as [|h0 [|h1 rest]]; intro Hin.
  - destruct Hin.
  - destruct Hin as [E|[]]. subst. exists h. split; [reflexivity | apply Qle_refl].
  - exists (max_by confidence_of h0 (h1 :: rest)). split; [reflexivity|].
    pose proof (max_by_max confidence_of (h1 :: rest) h0) as Hmax.
    rewrite Forall_forall in Hmax. apply Hmax. exact Hin.
Qed.

Lemma group_append_member (k : string) (h : Heading)
    (g : list (string * list Heading)) :
  (exists hs, In (k, hs) (group_append k h g) /\ In h hs)
  /\ (forall k' hs x, In (k', hs) g -> In x hs ->
        exists hs', In (k', hs') (group_append k h g) /\ In x hs').
Proof.
  induction g as [|[k0 hs0] rest [IHnew IHold]]; cbn [group_append].
  - split.
    + exists [h]. split; left; reflexivity.
    + intros k' hs x [].
  - destruct (String.eqb_spec k k0) as [E|NE].
    + subst k0. split.
      * exists (hs0 ++ [h]). split; [left; reflexivity|].
        apply in_or_app. right. left. reflexivity.
      * intros k' hs x [E|Hin] Hx.
        -- inversion E; subst. exists (hs ++ [h]).
           split; [left; reflexivity | apply in_or_app; left; exact Hx].
        -- exists hs. split; [right; exact Hin | exact Hx].
    + split.
      * destruct IHnew as [hs [Hin Hh]]. exists hs. split; [right; exact Hin | exact Hh].
      * intros k' hs x [E|Hin] Hx.
        -- exists hs. split; [left; exact E | exact Hx].
        -- destruct (IHold k' hs x Hin Hx) as [hs' [Hin' Hx']].
           exists hs'. split; [right; exact Hin' | exact Hx'].
Qed.

Lemma groups_of_member (outline : list Heading) (h : Heading) :
  In h outline ->
  exists hs, In (group_key h, hs) (groups_of outline) /\ In h hs.
Proof.
  unfold groups_of.
  assert (Hgen : forall l acc,
             (In h l \/ exists hs, In (group_key h, hs) acc /\ In h hs) ->
             exists hs,
               In (group_key h, hs)
                  (fold_left
                     (fun g heading => group_append (lower (h_text heading)) heading g)
                     l acc)
               /\ In h hs).
  { induction l as [|x l IH]; intros acc Hcase.
    - destruct Hcase as [[]|Hacc]. exact Hacc.
    - cbn [fold_left]. apply IH.
      destruct Hcase as [[E|Hin]|[hs [Hin Hh]]].
      + subst x. right.
        exact (proj1 (group_append_member (lower (h_text h)) h acc)).
      + left. exact Hin.
      + right.
        exact (proj2 (group_append_member (lower (h_text x)) x acc)
                 (group_key h) hs h Hin Hh). }
  intro Hin. apply Hgen. left. exact Hin.
Qed.

(** What [_remove_duplicates] returns, for every outline: headings of
    the outline, in the order of the positional sort, no two of them
    with the same text up to letter case. *)
Theorem remove_duplicates_sound :
  forall outline : list Heading,
    let result := _remove_duplicates outline in
    position_sorted result
    /\ NoDup (map group_key result)
    /\ incl result outline.
Proof.
  intros outline result.
  destruct (remove_duplicates_result (fun h => In h outline) outline)
    as [Hs [Hnd Hall]].
  - apply Forall_forall. auto.
  - split; [exact Hs|]. split; [exact Hnd|].
    intros r Hr. rewrite Forall_forall in Hall. apply Hall. exact Hr.
Qed.

(** [_remove_duplicates] loses no text and keeps the most confident
    heading of each: every heading of the outline is represented in the
    result by a heading of the same text up to letter case, whose
    confidence -- counted as 0 where it is absent -- is at least its
    own. *)
Theorem remove_duplicates_keeps_best :
  forall outline : list Heading,
    Forall (fun h => exists r, In r (_remove_duplicates outline)
                               /\ group_key r = group_key h
                               /\ confidence_of h <= confidence_of r)
      outline.
Proof.
  intro outline. apply Forall_forall. intros h Hin.
  destruct (groups_of_member outline h Hin) as [hs [Hg Hh]].
  destruct (best_of_group_max hs h Hh) as [b [Eb Hconf]].
  destruct (groups_of_invariant (fun _ => True) outline) as [_ Hwell];
    [apply Forall_forall; auto|].
  unfold well_grouped in Hwell. rewrite Forall_forall in Hwell.
  destruct (Hwell _ Hg) as [Hne Hkeys]. cbn [fst snd] in Hkeys.
  destruct (best_of_group_In hs Hne) as [b' [Eb' Hb']].
  assert (b' = b) by congruence. subst b'.
  rewrite Forall_forall in Hkeys. destruct (Hkeys b Hb') as [Hk _].
  exists b. split; [|split; [exact Hk | exact Hconf]].
  destruct outline as [|h0 rest]; [destruct Hin|].
  set (l := h0 :: rest) in *.
  change (_remove_duplicates l)
    with (sort_by position_le
            (flat_map (fun kv => best_of_group (snd kv)) (groups_of l))).
  apply (Permutation_in b (sort_by_perm position_le _)).
  apply in_flat_map. exists (group_key h, hs). split; [exact Hg|].
  cbn [snd]. rewrite Eb. left. reflexivity.
Qed.

Lemma len_zero (s : string) : (len s =? 0)%nat = true <-> s = "".
Proof.
  unfold len. destruct s; cbn; split; intro E; try reflexivity; discriminate.
Qed.

Lemma Forall2_Forall_r {A B : Type} (R : A -> B -> Prop) (P : A -> Prop)
    (Q : B -> Prop) (l : list A) (l' : list B) :
  Forall2 R l l' -> Forall P l -> (forall a b, P a -> R a b -> Q b) ->
  Forall Q l'.
Proof.
  intros H2 Hl Himp. induction H2 as [|a b l l' Hab Hll IH]; [constructor|].
  inversion Hl; subst. constructor; [apply (Himp a b); assumption | auto].
Qed.

Lemma Forall2_length_eq {A B : Type} (R : A -> B -> Prop) (l : list A)
    (l' : list B) :
  Forall2 R l l' -> List.length l' = List.length l.
Proof. induction 1; cbn; congruence. Qed.

(** What the post-processing stage returns, for every outline, title
    and font statistics: the result is in the order of the positional
    sort and holds no two headings of the same text up to letter case;
    each of its headings is a heading of the input whose level was kept
    or raised, nothing else being changed; when the title is not blank no
    heading of the result has the title as its text, up to letter case and
    surrounding blanks; and the result is not longer than the input. *)
Theorem post_processed_outline_sound :
  forall (outline : list Heading) (title : string) (font_stats : FontStats),
    let result := _post_process_headings outline title font_stats in
    position_sorted result
    /\ NoDup (map group_key result)
    /\ Forall (fun r => exists h, In h outline /\ same_but_level h r
                                  /\ level_kept_or_raised h r) result
    /\ (strip title <> "" ->
        Forall (fun r => lower (strip (h_text r)) <> lower (strip title)) result)
    /\ (List.length result <= List.length outline)%nat.
Proof.
  intros outline title font_stats result. subst result.
  destruct outline as [|h0 rest].
  { cbn. repeat split; try constructor. }
  set (outline := h0 :: rest).
  set (l1 := if negb (len (strip title) =? 0)%nat
             then filter (differs_from_title (lower (strip title))) outline
             else outline).
  set (l2 := sort_by position_le l1).
  set (l3 := _validate_hierarchy l2).
  change (_post_process_headings outline title font_stats)
    with (_remove_duplicates l3).
  set (title_ok := fun h : Heading =>
         strip title <> "" -> lower (strip (h_text h)) <> lower (strip title)).
  assert (H1 : Forall (fun h => In h outline /\ title_ok h) l1).
  { subst l1. apply Forall_forall. intros h Hh.
    destruct (len (strip title) =? 0)%nat eqn:E; cbn [negb] in Hh.
    - split; [exact Hh|]. intro Hne. apply len_zero in E. contradiction.
    - apply filter_In in Hh. destruct Hh as [Hin Hd]. split; [exact Hin|].
      intros _. unfold differs_from_title, text_differs_from_title in Hd.
      apply andb_true_iff in Hd. destruct Hd as [Hd _].
      apply andb_true_iff in Hd. destruct Hd as [Hd _].
      apply negb_true_iff in Hd. apply String.eqb_neq in Hd. exact Hd. }
  assert (Hlen1 : (List.length l1 <= List.length outline)%nat).
  { subst l1. destruct (negb _); [apply filter_length_le | apply Nat.le_refl]. }
  assert (H2 : Forall (fun h => In h outline /\ title_ok h) l2)
    by (apply sort_by_Forall; exact H1).
  assert (Hlen2 : List.length l2 = List.length l1)
    by (symmetry; apply Permutation_length; apply sort_by_perm).
  destruct (validate_hierarchy_raises_aux l2) as [Hshape _].
  fold l3 in Hshape.
  assert (Hlen3 : List.length l3 = List.length l2)
    by (apply (Forall2_length_eq _ _ _ Hshape)).
  set (Q := fun r : Heading =>
         (exists h, In h outline /\ same_but_level h r /\ level_kept_or_raised h r)
         /\ title_ok r).
  assert (H3 : Forall (fun r => Q r /\ In r l3) l3).
  { apply Forall_forall. intros r Hr. split; [|exact Hr]. revert r Hr.
    apply Forall_forall.
    apply (Forall2_Forall_r _ _ Q _ _ Hshape H2).
    intros a b [Ha Hok] [Hsame Hlevel]. split.
    - exists a. auto.
    - unfold title_ok in *. destruct Hsame as [Ht _]. rewrite <- Ht. exact Hok. }
  destruct (remove_duplicates_result _ l3 H3) as [Hs [Hnd Hall]].
  split; [exact Hs|]. split; [exact Hnd|].
  split; [|split].
  - apply Forall_impl with (2 := Hall). intros r [[Hr _] _]. exact Hr.
  - intro Hne. apply Forall_impl with (2 := Hall).
    intros r [[_ Hr] _]. apply Hr. exact Hne.
  - apply Nat.le_trans with (List.length l3); [|lia].
    apply NoDup_incl_length.
    + apply NoDup_map_inv with (f := group_key). exact Hnd.
    + intros r Hr. rewrite Forall_forall in Hall. apply (Hall r Hr).
Qed.

Lemma post_processing_idempotent_when_monotone_witness :
  let outline :=
    [ mkHeading "Scope" H1 0 14 "Arial" None None;
      mkHeading "Detail" H3 0 11 "Arial" None None;
      mkHeading "scope" H2 1 12 "Arial" (Some 0.5) None ] in
  let font_stats := default_font_stats in
  let once := _post_process_headings outline "Plan" font_stats in
  _post_process_headings once "Plan" font_stats = once.
Proof.
  intros outline font_stats once.
  apply (post_processing_idempotent_when_monotone outline "Plan" font_stats).
  vm_compute. reflexivity.
Defined.

(** ** Text normalisation and the heading at the end of a block *)

Lemma chars_str (l : list ascii) : chars (str l) = l.
Proof. apply list_ascii_of_string_of_list_ascii. Qed.

Lemma str_chars (s : string) : str (chars s) = s.
Proof. apply string_of_list_ascii_of_string. Qed.

Lemma collapse_ws_l_spaced (l : list ascii) :
  forall in_ws : bool,
    single_spaced (collapse_ws_l in_ws l)
    /\ Forall (fun c => isspace_c c = true -> c = " "%char) (collapse_ws_l in_ws l)
    /\ (in_ws = true ->
        match collapse_ws_l in_ws l with
        | c :: _ => isspace_c c = false
        | [] => True
        end).
Proof.
  induction l as [|c l IH]; intro in_ws.
  - cbn. repeat split; auto.
  - cbn [collapse_ws_l]. destruct (isspace_c c) eqn:Ec.
    + destruct in_ws.
      * apply IH.
      * destruct (IH true) as [Hs [Hall Hhead]]. split; [|split].
        -- cbn [single_spaced].
           destruct (collapse_ws_l true l) as [|d rest] eqn:E; [exact I|].
           split; [|exact Hs]. intros [_ Hd].
           specialize (Hhead eq_refl). cbn in Hhead. congruence.
        -- constructor; [reflexivity | exact Hall].
        -- discriminate.
    + destruct (IH false) as [Hs [Hall _]]. split; [|split].
      * cbn [single_spaced].
        destruct (collapse_ws_l false l) as [|d rest] eqn:E; [exact I|].
        split; [|exact Hs]. intros [Hc _]. congruence.
      * constructor; [intro Hc; congruence | exact Hall].
      * intros _. exact Ec.
Qed.

(** Without custom filters a normalised text has its whitespace
    normalised, whatever the Unicode normal form does: every whitespace
    character of the result is a plain space, and no two of them are
    adjacent. *)
Theorem normalize_text_single_spaced :
  forall (nfkc : string -> string) (txt : string),
    let result := normalize_text nfkc txt [] in
    single_spaced (chars result)
    /\ Forall (fun c => isspace_c c = true -> c = " "%char) (chars result).
Proof.
  intros nfkc txt. cbv zeta. unfold normalize_text. cbn [fold_left].
  unfold collapse_ws. rewrite chars_str.
  destruct (collapse_ws_l_spaced (chars (nfkc (strip txt))) false) as [Hs [Hall _]].
  split; assumption.
Qed.

Lemma lstrip_l_decomp (l : list ascii) :
  exists a, l = a ++ lstrip_l l /\ all_space a.
Proof.
  induction l as [|c l [a [E Ha]]].
  - exists []. split; [reflexivity | constructor].
  - cbn [lstrip_l]. destruct (isspace_c c) eqn:Ec.
    + exists (c :: a). split; [cbn; congruence | constructor; assumption].
    + exists []. split; [reflexivity | constructor].
Qed.

Lemma strip_decomp (s : string) :
  exists a b, chars s = a ++ chars (strip s) ++ b /\ all_space a /\ all_space b.
Proof.
  unfold strip. rewrite chars_str.
  destruct (lstrip_l_decomp (chars s)) as [a [Ea Ha]].
  destruct (lstrip_l_decomp (rev (lstrip_l (chars s)))) as [b [Eb Hb]].
  exists a, (rev b). split; [|split; [exact Ha | apply Forall_rev; exact Hb]].
  rewrite <- rev_app_distr, <- Eb, rev_involutive. exact Ea.
Qed.

Lemma search_tail_l_suffix (r : regex) (s : list ascii) :
  forall prev m, search_tail_l r prev s = Some m -> exists pre, s = pre ++ m.
Proof.
  induction s as [|c s IH]; intros prev m; cbn [search_tail_l].
  - destruct (run r prev [] accept); [|discriminate].
    intro E. inversion E. exists []. reflexivity.
  - destruct (run r prev (c :: s) accept).
    + intro E. inversion E. exists []. reflexivity.
    + intro E. destruct (IH _ _ E) as [pre Hpre].
      exists (c :: pre). cbn. congruence.
Qed.

Lemma first_tail_found (patterns : list regex) (stripped h : string) :
  first_tail patterns stripped = Some h ->
  (5 <= len h <= 50)%nat
  /\ exists pre m, chars stripped = pre ++ m /\ h = strip (str m).
Proof.
  induction patterns as [|pattern patterns IH]; cbn [first_tail]; [discriminate|].
  unfold search_tail.
  destruct (search_tail_l pattern None (chars stripped)) as [m|] eqn:Em;
    cbn [option_map]; [|exact IH].
  destruct ((5 <=? len (strip (str m)))%nat && (len (strip (str m)) <=? 50)%nat)
    eqn:Elen; [|exact IH].
  intro E. inversion E. subst h.
  apply andb_true_iff in Elen. destruct Elen as [L1 L2].
  apply Nat.leb_le in L1. apply Nat.leb_le in L2.
  split; [lia|].
  destruct (search_tail_l_suffix _ _ _ _ Em) as [pre Hpre].
  exists pre, m. split; [exact Hpre | reflexivity].
Qed.

(** A heading taken from the end of a text block has between 5 and 50
    characters, and it is the end of the block's text: the text is
    something, then the heading, then whitespace only. *)
Theorem tail_heading_is_text_end :
  forall txt h : string,
    extract_heading_from_text txt = Some h ->
    (5 <= len h <= 50)%nat
    /\ exists pre suf, chars txt = pre ++ chars h ++ suf /\ all_space suf.
Proof.
  intros txt h Hh. unfold extract_heading_from_text in Hh.
  destruct (first_tail_found _ _ _ Hh) as [Hlen [pre [m [Hpre Hm]]]].
  split; [exact Hlen|].
  destruct (strip_decomp txt) as [a [b [Etxt [Ha Hb]]]].
  destruct (strip_decomp (str m)) as [a' [b' [Em [Ha' Hb']]]].
  rewrite chars_str in Em. rewrite <- Hm in Em.
  exists (a ++ pre ++ a'), (b' ++ b). split.
  - rewrite Etxt, Hpre, Em. repeat rewrite <- app_assoc. reflexivity.
  - apply Forall_app. split; assumption.
Qed.

Lemma tail_heading_is_text_end_witness :
  (5 <= len "HOPE TO SEE YOU THERE!" <= 50)%nat
  /\ exists pre suf,
       chars "Bring socks and water. HOPE TO SEE YOU THERE! "
       = pre ++ chars "HOPE TO SEE YOU THERE!" ++ suf /\ all_space suf.
Proof.
  apply (tail_heading_is_text_end
           "Bring socks and water. HOPE TO SEE YOU THERE! "
           "HOPE TO SEE YOU THERE!").
  vm_compute. reflexivity.
Defined.

(** ** The quality score and the choice between two outlines *)

Lemma structural_bonus_ge (outline : list OutlineEntry) :
  forall score : Q,
    score <= fold_left
               (fun sc item =>
                  if any_in structural_patterns (lower (e_text item))
                  then sc + 1.0 else sc)
               outline score.
Proof.
  induction outline as [|item outline IH]; intro score; [apply Qle_refl|].
  cbn [fold_left]. destruct (any_in _ _).
  - apply Qle_trans with (score + 1.0); [lra | apply IH].
  - apply IH.
Qed.

(** The quality score of an outline is at least 0.15 for each of its
    entries, so it is positive for every outline that is not empty; the
    empty outline scores 0. *)
Theorem outline_quality_lower_bound :
  forall (outline : list OutlineEntry) (blocks : list Block) (title : string)
         (method : Method),
    let quality := _calculate_outline_quality outline blocks title method in
    of_nat (List.length outline) * 0.15 <= quality
    /\ match outline with
       | [] => quality == 0
       | _ :: _ => 0 < quality
       end.
Proof.
  intros outline blocks title method. cbv zeta.
  destruct outline as [|e rest].
  { cbn. split; [discriminate | reflexivity]. }
  set (outline := e :: rest).
  assert (Hn : 1 <= of_nat (List.length outline)).
  { unfold of_nat. change 1 with (inject_Z 1). rewrite <- Zle_Qle.
    subst outline. cbn [List.length]. lia. }
  assert (Hq : of_nat (List.length outline) * 0.15
               <= _calculate_outline_quality outline blocks title method).
  { unfold _calculate_outline_quality. subst outline. cbv beta iota zeta.
    set (outline := e :: rest) in *.
    set (n := of_nat (List.length outline)) in *.
    set (s1 := if has_level H1 outline then 0.0 + n * 0.5 + 2.0 else 0.0 + n * 0.5).
    assert (B1 : n * 0.5 <= s1) by (subst s1; destruct (has_level H1 outline); lra).
    set (s2 := if has_level H2 outline then s1 + 1.0 else s1).
    assert (B2 : n * 0.5 <= s2) by (subst s2; destruct (has_level H2 outline); lra).
    set (s3 := if has_level H3 outline then s2 + 0.5 else s2).
    assert (B3 : n * 0.5 <= s3) by (subst s3; destruct (has_level H3 outline); lra).
    pose proof (structural_bonus_ge outline s3) as B4.
    set (s4 := fold_left _ outline s3) in *.
    set (s5 := if Qltb (of_nat (List.length blocks) * 0.8) n then s4 * 0.3 else s4).
    assert (B5 : n * 0.15 <= s5) by (subst s5; destruct (Qltb _ n); lra).
    destruct method.
    - destruct (5000 <? total_chars_of blocks)%Z; lra.
    - set (s6 := if (total_chars_of blocks <? 1000)%Z then s5 * 1.5 else s5).
      assert (B6 : n * 0.15 <= s6)
        by (subst s6; destruct (total_chars_of blocks <? 1000)%Z; lra).
      destruct (existsb _ outline); lra. }
  split; [exact Hq | lra].
Qed.

(** The choice between the block outline and the span outline returns
    one of the two: the other one when one is empty, and otherwise the
    span outline exactly when its quality is strictly the higher, so that
    a tie goes to the block outline.  The choice is empty only when both
    are. *)
Theorem select_best_returns_better_argument :
  forall (block_outline span_outline : list OutlineEntry) (blocks : list Block)
         (title : string),
    let chosen := _select_best_extraction block_outline span_outline blocks title in
    let block_score :=
      _calculate_outline_quality block_outline blocks title block_method in
    let span_score :=
      _calculate_outline_quality span_outline blocks title span_method in
    (block_outline = [] -> chosen = span_outline)
    /\ (span_outline = [] -> chosen = block_outline)
    /\ (block_outline <> [] -> span_outline <> [] ->
        (block_score < span_score -> chosen = span_outline)
        /\ (span_score <= block_score -> chosen = block_outline))
    /\ (chosen = [] <-> block_outline = [] /\ span_outline = []).
Proof.
  intros block_outline span_outline blocks title. cbv zeta.
  unfold _select_best_extraction.
  destruct block_outline as [|b bs]; destruct span_outline as [|s ss].
  - repeat split; auto; congruence.
  - repeat split; auto; try congruence; try discriminate.
    intros [_ E]. discriminate.
  - repeat split; auto; try congruence; try discriminate.
    intros [E _]. discriminate.
  - set (block_score := _calculate_outline_quality (b :: bs) blocks title block_method).
    set (span_score := _calculate_outline_quality (s :: ss) blocks title span_method).
    split; [discriminate|]. split; [discriminate|]. split.
    + intros _ _. destruct (Qltb block_score span_score) eqn:E.
      * apply Qltb_lt in E. split; [reflexivity | intro; lra].
      * apply Qltb_ge in E. split; [intro; lra | reflexivity].
    + destruct (Qltb block_score span_score); split;
        try discriminate; intros [E _]; discriminate.
Qed.

(** ** The counters of the extractor *)

Import Batch.

Lemma extract_outline_cases (nfkc : string -> string) (self : PDFOutlineExtractor)
    (pdf_path : string) (file : PdfFile) (include_metadata : bool)
    (cb : Callback) (stats : ProcessingStats) :
  let r := extract_outline nfkc self pdf_path file include_metadata cb stats in
  total_files (snd r) = S (total_files stats)
  /\ (total_headings stats <= total_headings (snd r))%nat
  /\ match fst r with
     | inr output =>
         validate_pdf pdf_path file = None
         /\ successful_extractions (snd r) = S (successful_extractions stats)
         /\ failed_extractions (snd r) = failed_extractions stats
         /\ total_headings (snd r)
            = (total_headings stats + List.length (o_outline output))%nat
     | inl e =>
         match validate_pdf pdf_path file with
         | Some error_msg =>
             e = String.append "Invalid PDF: " error_msg
             /\ failed_extractions (snd r) = (failed_extractions stats + 2)%nat
             /\ successful_extractions (snd r) = successful_extractions stats
             /\ total_headings (snd r) = total_headings stats
         | None =>
             failed_extractions (snd r) = S (failed_extractions stats)
             /\ ((successful_extractions (snd r) = successful_extractions stats
                  /\ total_headings (snd r) = total_headings stats)
                 \/ (successful_extractions (snd r)
                     = S (successful_extractions stats)
                     /\ notify cb "Complete!" = inl e))
         end
     end.
Proof.
  cbv zeta. unfold extract_outline.
  destruct (validate_pdf pdf_path file) as [msg|].
  - cbn. repeat split; lia.
  - destruct (outline_of_file nfkc self file include_metadata cb) as [e|output].
    + cbn. repeat split; [lia|]. left. split; reflexivity.
    + destruct (notify cb "Complete!") as [e|[]] eqn:En.
      * cbn. repeat split; [lia|]. right. split; reflexivity.
      * cbn. repeat split; lia.
Qed.

(** How [extract_outline] counts, each call: the number of files grows
    by one and the number of headings does not decrease.  When an outline
    is returned, the successful extractions grow by one, the headings by
    the length of the outline, and the failures stay.  When the PDF is
    not valid, the exception says Invalid PDF with the reason, and the
    failure is counted twice.  On any other exception the failure is
    counted once, and there are two cases, which exclude each other:
    either a step before the counting raised the exception, and then the
    successful extractions and the headings stay; or every such step
    returned and the progress callback raised the exception at its last
    message, and then the extraction is counted as successful as well,
    with its headings. *)
Theorem extract_outline_accounting :
  forall (nfkc : string -> string) (self : PDFOutlineExtractor)
         (pdf_path : string) (file : PdfFile) (include_metadata : bool)
         (cb : Callback) (stats : ProcessingStats),
    let r := extract_outline nfkc self pdf_path file include_metadata cb stats in
    total_files (snd r) = S (total_files stats)
    /\ (total_headings stats <= total_headings (snd r))%nat
    /\ match fst r with
       | inr output =>
           validate_pdf pdf_path file = None
           /\ successful_extractions (snd r) = S (successful_extractions stats)
           /\ failed_extractions (snd r) = failed_extractions stats
           /\ total_headings (snd r)
              = (total_headings stats + List.length (o_outline output))%nat
       | inl e =>
           match validate_pdf pdf_path file with
           | Some error_msg =>
               e = String.append "Invalid PDF: " error_msg
               /\ failed_extractions (snd r) = (failed_extractions stats + 2)%nat
               /\ successful_extractions (snd r) = successful_extractions stats
               /\ total_headings (snd r) = total_headings stats
           | None =>
               failed_extractions (snd r) = S (failed_extractions stats)
               /\ ((outline_of_file nfkc self file include_metadata cb = inl e
                    /\ successful_extractions (snd r)
                       = successful_extractions stats
                    /\ total_headings (snd r) = total_headings stats)
                   \/ (exists output : Output,
                         outline_of_file nfkc self file include_metadata cb
                         = inr output
                         /\ notify cb "Complete!" = inl e
                         /\ successful_extractions (snd r)
                            = S (successful_extractions stats)
                         /\ total_headings (snd r)
                            = (total_headings stats
                               + List.length (o_outline output))%nat))
           end
       end.
Proof.
  intros nfkc self pdf_path file include_metadata cb stats. cbv zeta.
  unfold extract_outline.
  destruct (validate_pdf pdf_path file) as [msg|].
  - cbn. repeat split; lia.
  - destruct (outline_of_file nfkc self file include_metadata cb) as [e|output].
    + cbn. repeat split; [lia|]. left. repeat split.
    + destruct (notify cb "Complete!") as [e|[]] eqn:En.
      * cbn. repeat split; [lia|]. right. exists output. repeat split.
      * cbn. repeat split; lia.
Qed.

Lemma process_single_pdf_counters (nfkc : string -> string)
    (extractor : PDFOutlineExtractor) (pdf_path : string) (file : PdfFile)
    (cache : Cache) (include_metadata : bool) (cb : Callback)
    (stats : ProcessingStats) :
  counters_step stats
    (snd (process_single_pdf nfkc extractor pdf_path file cache include_metadata
            cb stats)).
Proof.
  unfold process_single_pdf.
  destruct (_is_cached extractor pdf_path file cache).
  - cbn. unfold counters_step. lia.
  - unfold process_uncached.
    destruct (notify cb _); [cbn; unfold counters_step; lia|].
    pose proof (extract_outline_cases nfkc extractor pdf_path file
                  include_metadata cb stats) as Hc.
    cbv zeta in Hc.
    destruct (extract_outline nfkc extractor pdf_path file include_metadata cb stats)
      as [[e|output] stats'].
    + cbn [fst snd] in *. destruct Hc as [Ht [_ Hc]]. unfold counters_step.
      destruct (validate_pdf pdf_path file).
      * destruct Hc as [_ [Hf [Hs _]]]. lia.
      * destruct Hc as [Hf [[Hs _]|[Hs _]]]; lia.
    + cbn [fst snd] in *. destruct Hc as [Ht [_ [_ [Hs [Hf _]]]]].
      unfold counters_step. lia.
Qed.

Lemma process_sequential_counters (nfkc : string -> string)
    (extractor : PDFOutlineExtractor) (world : string -> PdfFile)
    (pdf_paths : list string) (include_metadata : bool) (cb : Callback) :
  forall (cache : Cache) (stats : ProcessingStats),
    let stats' :=
      snd (process_sequential nfkc extractor world pdf_paths cache
             include_metadata cb stats) in
    (total_files stats' <= total_files stats + List.length pdf_paths)%nat
    /\ (successful_extractions stats' + total_files stats
        <= successful_extractions stats + total_files stats')%nat
    /\ (total_files stats' + successful_extractions stats + failed_extractions stats
        <= total_files stats + successful_extractions stats'
           + failed_extractions stats')%nat.
Proof.
  induction pdf_paths as [|p rest IH]; intros cache stats; cbv zeta.
  - cbn. lia.
  - cbn [process_sequential].
    pose proof (process_single_pdf_counters nfkc extractor p (world p) cache
                  include_metadata cb stats) as Hstep.
    destruct (process_single_pdf nfkc extractor p (world p) cache include_metadata
                cb stats) as [[r c] st].
    specialize (IH c st). cbv zeta in IH.
    destruct (process_sequential nfkc extractor world rest c include_metadata cb st)
      as [[rs c'] st'].
    cbn [snd List.length] in *. unfold counters_step in Hstep. lia.
Qed.

Lemma ratio_range (s t : nat) :
  (0 < t)%nat -> (s <= t)%nat -> 0 <= of_nat s / of_nat t * 100 <= 100.
Proof.
  intros Ht Hst.
  assert (Htq : 0 < of_nat t).
  { unfold of_nat. change 0 with (inject_Z 0). rewrite <- Zlt_Qlt. lia. }
  assert (Hsq : 0 <= of_nat s) by apply of_nat_nonneg.
  assert (Hle : of_nat s <= of_nat t).
  { unfold of_nat. rewrite <- Zle_Qle. lia. }
  assert (H0 : 0 <= of_nat s / of_nat t).
  { apply Qle_shift_div_l; [exact Htq | lra]. }
  assert (H1 : of_nat s / of_nat t <= 1).
  { apply Qle_shift_div_r; [exact Htq | lra]. }
  split; lra.
Qed.

(** After a sequential batch run on a fresh extractor, the extractor has
    counted at most one file for each path and never more successes than
    files, while successes and failures together are at least the files;
    the success rate that [get_processing_stats] reports is present
    exactly when a file was counted, and it then lies between 0 and
    100. *)
Theorem extractor_success_rate_in_range :
  forall (nfkc : string -> string) (extractor : PDFOutlineExtractor)
         (world : string -> PdfFile) (pdf_paths : list string) (cache : Cache)
         (include_metadata : bool) (cb : Callback),
    let stats :=
      snd (process_sequential nfkc extractor world pdf_paths cache
             include_metadata cb (mkStats 0 0 0 0)) in
    (total_files stats <= List.length pdf_paths)%nat
    /\ (successful_extractions stats <= total_files stats)%nat
    /\ (total_files stats <= successful_extractions stats + failed_extractions stats)%nat
    /\ match success_rate (get_processing_stats stats) with
       | Some rate => (0 < total_files stats)%nat /\ 0 <= rate <= 100
       | None => total_files stats = 0%nat
       end.
Proof.
  intros nfkc extractor world pdf_paths cache include_metadata cb stats.
  pose proof (process_sequential_counters nfkc extractor world pdf_paths
                include_metadata cb cache (mkStats 0 0 0 0)) as Hc.
  cbv zeta in Hc. fold stats in Hc. cbn [total_files successful_extractions
    failed_extractions] in Hc.
  destruct Hc as [Ht [Hs Hf]].
  split; [lia|]. split; [lia|]. split; [lia|].
  unfold get_processing_stats.
  destruct (Nat.ltb_spec 0 (total_files stats)) as [Hpos|Hzero];
    cbn [success_rate].
  - split; [exact Hpos | apply ratio_range; lia].
  - lia.
Qed.

(** ** The cache *)

Lemma cache_get_set_same (k : string) (v : CacheEntry) (cache : Cache) :
  cache_get k (cache_set k v cache) = Some v.
Proof.
  induction cache as [|[k' v'] rest IH]; cbn [cache_set cache_get].
  - rewrite String.eqb_refl. reflexivity.
  - destruct (String.eqb k k') eqn:E; cbn [cache_get]; rewrite E;
      [reflexivity | exact IH].
Qed.

Lemma cache_get_set_other (k k' : string) (v : CacheEntry) (cache : Cache) :
  k' <> k -> cache_get k' (cache_set k v cache) = cache_get k' cache.
Proof.
  intro Hne. induction cache as [|[k0 v0] rest IH]; cbn [cache_set cache_get].
  - destruct (String.eqb_spec k' k); [contradiction | reflexivity].
  - destruct (String.eqb_spec k k0) as [E|NE]; cbn [cache_get].
    + subst k0. destruct (String.eqb_spec k' k); [contradiction | reflexivity].
    + destruct (String.eqb k' k0); [reflexivity | exact IH].
Qed.

(** A result that was computed with the cache enabled, for a file whose
    hash can be taken, is served from the cache the next time: with the
    cache that the first call leaves, a second call for the same path and
    the same file returns the same title and outline, marked as cached;
    it changes neither the cache nor the counters, whatever the counters
    and the progress callback of the second call are. *)
Theorem cached_result_is_served_again :
  forall (nfkc : string -> string) (extractor : PDFOutlineExtractor)
         (pdf_path : string) (file : PdfFile) (cache : Cache)
         (include_metadata include_metadata' : bool) (cb cb' : Callback)
         (stats stats' : ProcessingStats) (file_hash : string),
    enable_cache extractor = true ->
    truthy_hash (f_hash file) = Some file_hash ->
    let first :=
      process_single_pdf nfkc extractor pdf_path file cache include_metadata cb
        stats in
    status (fst (fst first)) = success ->
    process_single_pdf nfkc extractor pdf_path file (snd (fst first))
      include_metadata' cb' stats'
    = (mkResult (basename pdf_path) success (Some true) None
         (title (fst (fst first))) (outline (fst (fst first))),
       snd (fst first), stats').
Proof.
  intros nfkc extractor pdf_path file cache include_metadata include_metadata'
    cb cb' stats stats' file_hash Hen Hhash first Hok.
  subst first. unfold process_single_pdf in *.
  destruct (_is_cached extractor pdf_path file cache) as [cached_result|] eqn:Ehit.
  - cbn [fst snd] in *. rewrite Ehit. reflexivity.
  - unfold process_uncached in *.
    destruct (notify cb _); [cbn in Hok; discriminate|].
    destruct (extract_outline nfkc extractor pdf_path file include_metadata cb stats)
      as [[e|result] st]; [cbn in Hok; discriminate|].
    rewrite Hen, Hhash. cbn [fst snd].
    assert (Hserved : _is_cached extractor pdf_path file
                        (cache_set (basename pdf_path)
                           (mkCacheEntry file_hash result) cache)
                      = Some result).
    { unfold _is_cached. rewrite Hen, Hhash. cbn [negb].
      rewrite cache_get_set_same. cbn [ce_hash ce_result].
      rewrite String.eqb_refl. reflexivity. }
    rewrite Hserved. reflexivity.
Qed.

Lemma cached_result_is_served_again_witness :
  let first :=
    process_single_pdf ascii_nfkc default_extractor "docs/report.pdf"
      (file_of_blocks budget_report) [] false None (mkStats 0 0 0 0) in
  process_single_pdf ascii_nfkc default_extractor "docs/report.pdf"
    (file_of_blocks budget_report) (snd (fst first)) true None (mkStats 7 5 2 40)
  = (mkResult "report.pdf" success (Some true) None
       (title (fst (fst first))) (outline (fst (fst first))),
     snd (fst first), mkStats 7 5 2 40).
Proof.
  intro first.
  apply (cached_result_is_served_again ascii_nfkc default_extractor
           "docs/report.pdf" (file_of_blocks budget_report) [] false true None None
           (mkStats 0 0 0 0) (mkStats 7 5 2 40) "0f3a").
  - reflexivity.
  - reflexivity.
  - vm_compute. reflexivity.
Defined.

(** What [process_single_pdf] may do to the cache: it never touches the
    entry of another file name; with the cache disabled, or for a file
    whose hash cannot be taken, or when the result is an error, it
    leaves the cache as it is; and an entry that it writes holds the
    hash of the file and the returned title and outline. *)
Theorem process_single_pdf_cache_effect :
  forall (nfkc : string -> string) (extractor : PDFOutlineExtractor)
         (pdf_path : string) (file : PdfFile) (cache : Cache)
         (include_metadata : bool) (cb : Callback) (stats : ProcessingStats),
    let r :=
      process_single_pdf nfkc extractor pdf_path file cache include_metadata cb
        stats in
    let result := fst (fst r) in
    let cache' := snd (fst r) in
    (forall name, name <> basename pdf_path ->
                  cache_get name cache' = cache_get name cache)
    /\ (enable_cache extractor = false \/ truthy_hash (f_hash file) = None
        \/ status result = error -> cache' = cache)
    /\ (cache' = cache
        \/ exists file_hash,
             truthy_hash (f_hash file) = Some file_hash
             /\ cache_get (basename pdf_path) cache'
                = Some (mkCacheEntry file_hash
                          (mkOutput (title result) (outline result)))).
Proof.
  intros nfkc extractor pdf_path file cache include_metadata cb stats.
  cbv zeta. unfold process_single_pdf.
  destruct (_is_cached extractor pdf_path file cache) as [cached_result|] eqn:Ehit.
  { cbn [fst snd]. repeat split; auto. }
  unfold process_uncached.
  destruct (notify cb _); [cbn [fst snd]; repeat split; auto|].
  destruct (extract_outline nfkc extractor pdf_path file include_metadata cb stats)
    as [[e|output] st]; [cbn [fst snd]; repeat split; auto|].
  cbn [fst snd].
  destruct (enable_cache extractor) eqn:Een; [|repeat split; auto].
  destruct (truthy_hash (f_hash file)) as [file_hash|] eqn:Eh;
    [|repeat split; auto].
  split; [|split].
  - intros name Hne. apply cache_get_set_other. exact Hne.
  - intros [E|[E|E]]; discriminate.
  - right. exists file_hash. split; [reflexivity|].
    rewrite cache_get_set_same. destruct output. reflexivity.
Qed.

(** ** The batch loop and the reports *)

Lemma sum_from (l : list nat) :
  forall a : nat, fold_left Nat.add l a = (a + fold_left Nat.add l 0)%nat.
Proof.
  induction l as [|x l IH]; intro a; cbn [fold_left].
  - lia.
  - rewrite (IH (a + x)%nat), (IH (0 + x)%nat). lia.
Qed.








Lemma count_success_error (results : list Result) :
  (count_if is_success results + count_if is_error results
   = List.length results)%nat.
Proof.
  unfold count_if, is_success, is_error.
  induction results as [|r rs IH]; [reflexivity|].
  cbn [filter]. destruct (status r); cbn [List.length]; lia.
Qed.



(** ** The summary report and the check of a batch's input *)

Lemma incr_total (k : string) (d : list (string * nat)) :
  total_count (incr k d) = S (total_count d).
Proof.
  unfold total_count. induction d as [|[k' n] d IH]; cbn [incr].
  - reflexivity.
  - destruct (String.eqb k k'); cbn [map snd fold_left].
    + rewrite (sum_from _ (0 + S n)%nat), (sum_from _ (0 + n)%nat). lia.
    + rewrite (sum_from _ (0 + n)%nat), IH.
      rewrite (sum_from (map snd d) (0 + n)%nat). lia.
Qed.

Lemma incr_keys_in (k x : string) (d : list (string * nat)) :
  In x (map fst (incr k d)) -> x = k \/ In x (map fst d).
Proof.
  induction d as [|[k' n] d IH]; cbn [incr].
  - intros [E|[]]. left. symmetry. exact E.
  - destruct (String.eqb_spec k k') as [E|NE]; cbn [map fst].
    + intros [E'|Hin]; right; [left; exact E' | right; exact Hin].
    + intros [E'|Hin]; [right; left; exact E'|].
      destruct (IH Hin) as [E'|Hin']; [left; exact E' | right; right; exact Hin'].
Qed.

Lemma incr_keys (k : string) (d : list (string * nat)) :
  NoDup (map fst d) -> NoDup (map fst (incr k d)).
Proof.
  induction d as [|[k' n] d IH]; cbn [incr]; intro Hnd.
  - constructor; [intros [] | constructor].
  - inversion Hnd as [|? ? Hnotin Hrest]; subst.
    destruct (String.eqb_spec k k') as [E|NE]; cbn [map fst].
    + constructor; assumption.
    + constructor; [|apply IH; exact Hrest].
      intro Hin. destruct (incr_keys_in _ _ _ Hin) as [E|Hin'].
      * apply NE. symmetry. exact E.
      * apply Hnotin. exact Hin'.
Qed.

Lemma error_types_counted (errors : list string) :
  forall d : list (string * nat),
    NoDup (map fst d) ->
    let error_types :=
      fold_left (fun d error_text => incr (error_type_of error_text) d) errors d in
    total_count error_types = (total_count d + List.length errors)%nat
    /\ NoDup (map fst error_types).
Proof.
  induction errors as [|e errors IH]; intros d Hnd; cbv zeta.
  - cbn [fold_left List.length]. split; [lia | exact Hnd].
  - cbn [fold_left List.length].
    destruct (IH (incr (error_type_of e) d) (incr_keys _ _ Hnd)) as [Hc Hk].
    split; [rewrite Hc, incr_total; lia | exact Hk].
Qed.

Lemma heading_counts (results : list Result) :
  let n_success := count_if is_success results in
  let n_none :=
    count_if (fun r => is_success r && (List.length (outline r) =? 0)%nat) results in
  let n_many :=
    count_if (fun r => is_success r && (10 <? List.length (outline r))%nat) results in
  let n_headings :=
    fold_left Nat.add
      (map (fun r => List.length (outline r)) (filter is_success results)) 0%nat in
  (n_none + n_many <= n_success)%nat /\ (11 * n_many <= n_headings)%nat.
Proof.
  cbv zeta. unfold count_if.
  induction results as [|r rs [IH1 IH2]]; [cbn; lia|].
  cbn [filter]. destruct (is_success r); cbn [andb]; [|split; assumption].
  cbn [map fold_left List.length].
  rewrite (sum_from _ (0 + List.length (outline r))%nat).
  destruct (Nat.eqb_spec (List.length (outline r)) 0) as [E0|N0];
  destruct (Nat.ltb_spec 10 (List.length (outline r))) as [L|L];
    cbn [List.length]; split; lia.
Qed.

(** A summary report is consistent, whatever the results: the total is
    the number of results, and the successful and the failed ones add up
    to it; the files without headings and the files with more than ten
    are distinct successful files, and the latter hold at least eleven
    headings each; the error types are listed once each and their counts
    add up to the number of failed files; there is one line of analysis
    for each result; the success rate lies between 0 and 100 and the
    average number of headings is not negative. *)
Theorem summary_report_consistent :
  forall results : list Result,
    let summary := create_summary_report results in
    sm_total_files summary = List.length results
    /\ (sm_successful_extractions summary + sm_failed_extractions summary
        = sm_total_files summary)%nat
    /\ (sm_files_with_no_headings summary + sm_files_with_many_headings summary
        <= sm_successful_extractions summary)%nat
    /\ (11 * sm_files_with_many_headings summary <= sm_total_headings summary)%nat
    /\ total_count (sm_common_errors summary) = sm_failed_extractions summary
    /\ NoDup (map fst (sm_common_errors summary))
    /\ List.length (sm_file_analysis summary) = List.length results
    /\ 0 <= sm_success_rate summary <= 100
    /\ 0 <= sm_avg_headings_per_file summary.
Proof.
  intro results. cbv zeta. unfold create_summary_report.
  cbn [sm_total_files sm_successful_extractions sm_failed_extractions
       sm_files_with_no_headings sm_files_with_many_headings sm_total_headings
       sm_common_errors sm_file_analysis sm_success_rate
       sm_avg_headings_per_file].
  pose proof (count_success_error results) as Hcount.
  destruct (heading_counts results) as [Hnone Hmany].
  destruct (error_types_counted
              (map (fun r => match error_message r with Some e => e | None => "" end)
                 (filter is_error results)) [] (NoDup_nil _)) as [Herr Hkeys].
  split; [reflexivity|]. split; [exact Hcount|].
  split; [exact Hnone|]. split; [exact Hmany|].
  split; [rewrite Herr, length_map; reflexivity|].
  split; [exact Hkeys|].
  split; [apply length_map|].
  split.
  - destruct (Nat.ltb_spec 0 (List.length results)) as [Hpos|Hzero].
    + apply ratio_range; lia.
    + split; [apply Qle_refl | discriminate].
  - destruct (Nat.ltb_spec 0 (count_if is_success results)) as [Hpos|Hzero];
      [|apply Qle_refl].
    apply Qle_shift_div_l.
    + unfold of_nat. change 0 with (inject_Z 0). rewrite <- Zlt_Qlt. lia.
    + pose proof (of_nat_nonneg
                    (fold_left Nat.add
                       (map (fun r => List.length (outline r))
                          (filter is_success results)) 0%nat)).
      lra.
Qed.

Lemma validate_batch_input_from (stat : string -> option nat)
    (pdf_paths : list string) :
  forall valid_paths invalid_paths : list string,
    exists messages,
      fold_left
        (fun (acc : list string * list string) pdf_path =>
           let '(valid_paths, invalid_paths) := acc in
           match stat pdf_path with
           | None =>
               (valid_paths,
                invalid_paths ++ [String.append pdf_path ": File does not exist"])
           | Some size =>
               if negb (endswith (lower pdf_path) ".pdf") then
                 (valid_paths,
                  invalid_paths ++ [String.append pdf_path ": Not a PDF file"])
               else if (size =? 0)%nat then
                 (valid_paths,
                  invalid_paths ++ [String.append pdf_path ": Empty file"])
               else (valid_paths ++ [pdf_path], invalid_paths)
           end)
        pdf_paths (valid_paths, invalid_paths)
      = (valid_paths ++ filter (acceptable stat) pdf_paths,
         invalid_paths ++ messages)
      /\ Forall2
           (fun pdf_path message =>
              exists reason,
                message = String.append pdf_path (String.append ": " reason))
           (filter (fun pdf_path => negb (acceptable stat pdf_path)) pdf_paths)
           messages.
Proof.
  induction pdf_paths as [|p rest IH]; intros valid_paths invalid_paths.
  - exists []. cbn. repeat rewrite app_nil_r. split; [reflexivity | constructor].
  - cbn [fold_left filter].
    destruct (stat p) as [size|] eqn:Es.
    + destruct (endswith (lower p) ".pdf") eqn:Ee; cbn [negb].
      * destruct (size =? 0)%nat eqn:Ez.
        -- assert (Hacc : acceptable stat p = false)
             by (unfold acceptable; rewrite Es, Ee, Ez; reflexivity).
           rewrite Hacc. cbn [negb].
           destruct (IH valid_paths (invalid_paths ++ [String.append p ": Empty file"]))
             as [messages [E F]].
           exists (String.append p ": Empty file" :: messages).
           rewrite E, <- app_assoc. split; [reflexivity|].
           constructor; [exists "Empty file"; reflexivity | exact F].
        -- assert (Hacc : acceptable stat p = true)
             by (unfold acceptable; rewrite Es, Ee, Ez; reflexivity).
           rewrite Hacc. cbn [negb].
           destruct (IH (valid_paths ++ [p]) invalid_paths) as [messages [E F]].
           exists messages. rewrite E, <- app_assoc. split; [reflexivity | exact F].
      * assert (Hacc : acceptable stat p = false)
          by (unfold acceptable; rewrite Es, Ee; reflexivity).
        rewrite Hacc. cbn [negb].
        destruct (IH valid_paths (invalid_paths ++ [String.append p ": Not a PDF file"]))
          as [messages [E F]].
        exists (String.append p ": Not a PDF file" :: messages).
        rewrite E, <- app_assoc. split; [reflexivity|].
        constructor; [exists "Not a PDF file"; reflexivity | exact F].
    + assert (Hacc : acceptable stat p = false)
        by (unfold acceptable; rewrite Es; reflexivity).
      rewrite Hacc. cbn [negb].
      destruct (IH valid_paths
                  (invalid_paths ++ [String.append p ": File does not exist"]))
        as [messages [E F]].
      exists (String.append p ": File does not exist" :: messages).
      rewrite E, <- app_assoc. split; [reflexivity|].
      constructor; [exists "File does not exist"; reflexivity | exact F].
Qed.

(** [validate_batch_input] sorts every path into exactly one of its two
    lists and keeps the order: the valid paths are the paths that exist,
    end in .pdf in any letter case and are not empty files; the other
    paths are reported one message each, the path followed by a colon and
    the reason; so the two lists together are as long as the input. *)
Theorem validate_batch_input_partitions :
  forall (stat : string -> option nat) (pdf_paths : list string),
    let valid_paths := fst (validate_batch_input stat pdf_paths) in
    let invalid_paths := snd (validate_batch_input stat pdf_paths) in
    valid_paths = filter (acceptable stat) pdf_paths
    /\ Forall2
         (fun pdf_path message =>
            exists reason,
              message = String.append pdf_path (String.append ": " reason))
         (filter (fun pdf_path => negb (acceptable stat pdf_path)) pdf_paths)
         invalid_paths
    /\ (List.length valid_paths + List.length invalid_paths
        = List.length pdf_paths)%nat.
Proof.
  intros stat pdf_paths. cbv zeta. unfold validate_batch_input.
  destruct (validate_batch_input_from stat pdf_paths [] []) as [messages [E F]].
  rewrite E. cbn [fst snd app].
  split; [reflexivity|]. split; [exact F|].
  rewrite (Forall2_length_eq _ _ _ F).
  clear. induction pdf_paths as [|p rest IH]; [reflexivity|].
  cbn [filter]. destruct (acceptable stat p); cbn [negb List.length]; lia.
Qed.
